(** * Aircraft_Control: longitudinal model, stability analysis, landing
    controller and flight simulator

    A shallow embedding of the Python sources [aircraft_model.py],
    [stability_analysis.py], [landing_controller.py] and [simulation.py].

    Numbers.  Python and numpy floats are modelled by the real numbers [R]:
    arithmetic is exact, there is no overflow, no NaN and no rounding.  The
    places where the sources rely on a non-finite value ([np.inf] as a time
    constant or period, and a numpy division by zero in the time-to-double
    computation) are modelled with [ExtR], a real or infinity.

    Failures.  A division of Python floats raises [ZeroDivisionError] on a
    zero divisor, an index into an empty sequence raises [IndexError], a
    comparison of [None] with a float raises [TypeError]: functions that can
    raise return in the error monad [result].  Divisions of numpy floats do
    not raise.

    Objects.  A method that assigns attributes of [self] takes the object
    and returns the object after the assignments.

    Loops.  The [while] loop of the simulation takes a bound on its number
    of iterations and returns [None] when the bound is reached; with a
    positive step some bound is enough, and a larger bound does not change
    the result. *)

From Stdlib Require Import Reals Lra Lia List Bool Arith ZArith Permutation Sorted.
Import ListNotations.

Open Scope R_scope.

(** ** Exceptions and the error monad *)

Inductive exn : Type :=
| ZeroDivisionError
| IndexError
| TypeError.

Inductive result (A : Type) : Type :=
| Ok (a : A)
| Raise (e : exn).

Arguments Ok {A} a.
Arguments Raise {A} e.

Definition bind {A B : Type} (m : result A) (k : A -> result B) : result B :=
  match m with
  | Ok a => k a
  | Raise e => Raise e
  end.

Notation "x <- m ;; k" := (bind m (fun x => k))
  (at level 61, m at next level, right associativity).

(** [x / y] on Python floats: a zero divisor raises. *)
Definition pydiv (x y : R) : result R :=
  if Req_dec_T y 0 then Raise ZeroDivisionError else Ok (x / y).

(** ** Comparisons as booleans *)

Definition Rltb (x y : R) : bool := if Rlt_dec x y then true else false.
Definition Rleb (x y : R) : bool := if Rle_dec x y then true else false.
Definition Reqb (x y : R) : bool := if Req_dec_T x y then true else false.

Infix "<?" := Rltb (at level 70, no associativity) : R_scope.
Infix "<=?" := Rleb (at level 70, no associativity) : R_scope.
Infix "=?" := Reqb (at level 70, no associativity) : R_scope.

(** ** The numpy functions the sources call *)

Module np.

(** [np.clip(x, lo, hi)] is [minimum(maximum(x, lo), hi)]. *)
Definition clip (x lo hi : R) : R := Rmin (Rmax x lo) hi.

Definition deg2rad (d : R) : R := d * (PI / 180).
Definition rad2deg (r : R) : R := r * (180 / PI).

(** [np.arctan2(y, x)]: the angle of the point [(x, y)], in (-pi, pi]. *)
Definition arctan2 (y x : R) : R :=
  if 0 <? x then atan (y / x)
  else if x <? 0 then (if 0 <=? y then atan (y / x) + PI else atan (y / x) - PI)
  else if 0 <? y then PI / 2
  else if y <? 0 then - (PI / 2)
  else 0.

Definition sum (l : list R) : R := fold_left Rplus l 0.

(** [np.mean] of a non-empty sequence. *)
Definition mean (l : list R) : R := sum l / INR (length l).

(** [np.max] of a non-empty sequence (the first argument is its head). *)
Definition max (x : R) (l : list R) : R := fold_left Rmax l x.

End np.

(** ** aircraft_model.py *)

Module AircraftModel.

(** The attributes [AircraftModel.__init__] sets. *)
Record t : Type := {
  mass : R; wing_area : R; wing_span : R; chord : R;
  Ixx : R; Iyy : R; Izz : R; Ixz : R;
  CL0 : R; CLalpha : R; CLq : R; CLde : R;
  CD0 : R; CDalpha : R; CDde : R;
  Cm0 : R; Cmalpha : R; Cmq : R; Cmde : R;
  CYbeta : R; CYdr : R;
  Clbeta : R; Clp : R; Clr : R; Clda : R; Cldr : R;
  Cnbeta : R; Cnp : R; Cnr : R; Cnda : R; Cndr : R;
  max_thrust : R;
  g : R; rho : R
}.

(** [AircraftModel()]: the Cessna 172-like parameter table. *)
Definition init : t := {|
  mass := 1100.0; wing_area := 16.2; wing_span := 11.0; chord := 1.5;
  Ixx := 1285.0; Iyy := 1824.0; Izz := 2666.0; Ixz := 0.0;
  CL0 := 0.28; CLalpha := 4.58; CLq := 3.9; CLde := 0.43;
  CD0 := 0.031; CDalpha := 0.13; CDde := 0.06;
  Cm0 := 0.04; Cmalpha := -0.61; Cmq := -12.4; Cmde := -1.28;
  CYbeta := -0.31; CYdr := 0.187;
  Clbeta := -0.074; Clp := -0.410; Clr := 0.107; Clda := 0.134; Cldr := 0.0107;
  Cnbeta := 0.071; Cnp := -0.0575; Cnr := -0.125; Cnda := -0.0011; Cndr := -0.0726;
  max_thrust := 1200.0;
  g := 9.81; rho := 1.225
|}.

(** The dictionary [get_trim_condition] returns. *)
Record TrimState : Type := {
  velocity : R;
  alpha : R;
  theta : R;
  q : R;
  altitude : R;
  CL : R;
  CD : R;
  elevator : R;
  thrust : R
}.

Definition get_trim_condition (self : t) (velocity altitude : R) : result TrimState :=
  let q := 0.5 * rho self * velocity ^ 2 in
  CL_trim <- pydiv (mass self * g self) (q * wing_area self) ;;
  alpha_trim <- pydiv (CL_trim - CL0 self) (CLalpha self) ;;
  let CD_trim := CD0 self + CDalpha self * alpha_trim in
  let thrust_trim := CD_trim * q * wing_area self in
  de_trim <- pydiv (- (Cm0 self + Cmalpha self * alpha_trim)) (Cmde self) ;;
  Ok {| velocity := velocity;
        alpha := alpha_trim;
        theta := alpha_trim;
        q := 0.0;
        altitude := altitude;
        CL := CL_trim;
        CD := CD_trim;
        elevator := de_trim;
        thrust := thrust_trim |}.



(** [get_trim_condition()] with its default arguments. *)
Definition get_trim_condition_default (self : t) : result TrimState :=
  get_trim_condition self 30.0 0.0.

(** The 4x4 matrix [A] and the 4x2 matrix [B], as rows.  The divisions are
    of Python floats: the function raises when the mass, the trim velocity
    or the pitch inertia is zero. *)
Definition get_longitudinal_matrices (self : t) (trim_condition : TrimState)
  : result (list (list R) * list (list R)) :=
  let V := velocity trim_condition in
  let alpha := alpha trim_condition in
  let q_bar := 0.5 * rho self * V ^ 2 in
  let S := wing_area self in
  let c := chord self in
  let m := mass self in
  let Iy := Iyy self in
  Xu <- pydiv (- (2 * CD0 self * q_bar * S)) (m * V) ;;
  Xw <- pydiv ((CLalpha self - 2 * CL0 self) * q_bar * S) (m * V) ;;
  Zu <- pydiv (- (2 * CL0 self * q_bar * S)) (m * V) ;;
  Zw <- pydiv (- (CLalpha self + CD0 self) * q_bar * S) (m * V) ;;
  let Zq := - V in
  let Mu := 0 in
  Mw <- pydiv (Cmalpha self * q_bar * S * c) Iy ;;
  Mq <- pydiv (Cmq self * q_bar * S * c ^ 2) (2 * Iy * V) ;;
  let Xde := 0 in
  Xdt <- pydiv (max_thrust self) m ;;
  Zde <- pydiv (CLde self * q_bar * S) m ;;
  let Zdt := 0 in
  Mde <- pydiv (Cmde self * q_bar * S * c) Iy ;;
  let Mdt := 0 in
  let A := [ [Xu; Xw; 0; - g self * cos alpha];
             [Zu; Zw; V + Zq; - g self * sin alpha];
             [Mu; Mw; Mq; 0];
             [0; 0; 1; 0] ] in
  let B := [ [Xde; Xdt];
             [Zde; Zdt];
             [Mde; Mdt];
             [0; 0] ] in
  Ok (A, B).

End AircraftModel.

(** ** landing_controller.py *)

Module LandingController.

(** [self.phase]: one of the strings 'approach', 'glide_slope', 'flare',
    'touchdown'. *)
Inductive Phase : Type := approach | glide_slope | flare | touchdown.

Definition Phase_eqb (p p' : Phase) : bool :=
  match p, p' with
  | approach, approach | glide_slope, glide_slope
  | flare, flare | touchdown, touchdown => true
  | _, _ => false
  end.

(** The attributes [__init__] sets and no method assigns afterwards: the
    aircraft, the landing parameters and the gains. *)
Record Config : Type := {
  aircraft : AircraftModel.t;
  glide_slope_angle : R;
  flare_altitude : R;
  touchdown_velocity : R;
  Kp_theta : R; Ki_theta : R; Kd_theta : R;
  Kp_alt : R; Ki_alt : R; Kd_alt : R;
  Kp_vel : R; Ki_vel : R
}.

(** The attributes [compute_control] and [reset] assign. *)
Record ControllerState : Type := {
  int_theta : R;
  int_alt : R;
  int_vel : R;
  prev_error_theta : R;
  prev_error_alt : R;
  phase : Phase
}.

(** A [LandingController] object. *)
Record t : Type := {
  cfg : Config;
  st : ControllerState
}.

Definition initial_state : ControllerState := {|
  int_theta := 0.0;
  int_alt := 0.0;
  int_vel := 0.0;
  prev_error_theta := 0.0;
  prev_error_alt := 0.0;
  phase := approach
|}.

(** [LandingController(aircraft_model)]. *)
Definition init (aircraft_model : AircraftModel.t) : t := {|
  cfg := {| aircraft := aircraft_model;
            glide_slope_angle := np.deg2rad (-3.0);
            flare_altitude := 20.0;
            touchdown_velocity := 25.0;
            Kp_theta := 3.0; Ki_theta := 0.3; Kd_theta := 1.5;
            Kp_alt := 0.08; Ki_alt := 0.01; Kd_alt := 0.5;
            Kp_vel := 0.4; Ki_vel := 0.05 |};
  st := initial_state
|}.

(** Assignments to one attribute of [self]. *)
Definition set_int_theta (self : t) (v : R) : t :=
  {| cfg := cfg self;
     st := {| int_theta := v; int_alt := int_alt (st self); int_vel := int_vel (st self);
              prev_error_theta := prev_error_theta (st self);
              prev_error_alt := prev_error_alt (st self); phase := phase (st self) |} |}.

Definition set_int_alt (self : t) (v : R) : t :=
  {| cfg := cfg self;
     st := {| int_theta := int_theta (st self); int_alt := v; int_vel := int_vel (st self);
              prev_error_theta := prev_error_theta (st self);
              prev_error_alt := prev_error_alt (st self); phase := phase (st self) |} |}.

Definition set_int_vel (self : t) (v : R) : t :=
  {| cfg := cfg self;
     st := {| int_theta := int_theta (st self); int_alt := int_alt (st self); int_vel := v;
              prev_error_theta := prev_error_theta (st self);
              prev_error_alt := prev_error_alt (st self); phase := phase (st self) |} |}.

Definition set_prev_error_theta (self : t) (v : R) : t :=
  {| cfg := cfg self;
     st := {| int_theta := int_theta (st self); int_alt := int_alt (st self);
              int_vel := int_vel (st self); prev_error_theta := v;
              prev_error_alt := prev_error_alt (st self); phase := phase (st self) |} |}.

Definition set_prev_error_alt (self : t) (v : R) : t :=
  {| cfg := cfg self;
     st := {| int_theta := int_theta (st self); int_alt := int_alt (st self);
              int_vel := int_vel (st self); prev_error_theta := prev_error_theta (st self);
              prev_error_alt := v; phase := phase (st self) |} |}.

Definition set_phase (self : t) (v : Phase) : t :=
  {| cfg := cfg self;
     st := {| int_theta := int_theta (st self); int_alt := int_alt (st self);
              int_vel := int_vel (st self); prev_error_theta := prev_error_theta (st self);
              prev_error_alt := prev_error_alt (st self); phase := v |} |}.

(** The assignment [controller.flare_altitude = v] of a caller. *)
Definition set_flare_altitude (self : t) (v : R) : t :=
  {| cfg := {| aircraft := aircraft (cfg self);
               glide_slope_angle := glide_slope_angle (cfg self);
               flare_altitude := v;
               touchdown_velocity := touchdown_velocity (cfg self);
               Kp_theta := Kp_theta (cfg self); Ki_theta := Ki_theta (cfg self);
               Kd_theta := Kd_theta (cfg self);
               Kp_alt := Kp_alt (cfg self); Ki_alt := Ki_alt (cfg self);
               Kd_alt := Kd_alt (cfg self);
               Kp_vel := Kp_vel (cfg self); Ki_vel := Ki_vel (cfg self) |};
     st := st self |}.

Definition reset (self : t) : t :=
  let self := set_int_theta self 0.0 in
  let self := set_int_alt self 0.0 in
  let self := set_int_vel self 0.0 in
  let self := set_prev_error_theta self 0.0 in
  let self := set_prev_error_alt self 0.0 in
  set_phase self approach.

Definition compute_glide_slope_reference (self : t) (horizontal_distance : R) : R :=
  let ref_altitude := - horizontal_distance * tan (glide_slope_angle (cfg self)) in
  Rmax 0 ref_altitude.

Definition compute_flare_trajectory (self : t) (current_altitude current_velocity : R) : R :=
  let tau_flare := 5.0 in
  let h_dot_ref := - current_altitude / tau_flare in
  let h_dot_ref := Rmax h_dot_ref (-2.5) in
  let gamma_dot := h_dot_ref / Rmax current_velocity 20.0 in
  gamma_dot.

Definition update_phase (self : t) (altitude distance_to_touchdown : R) : t :=
  if altitude <=? 0.5 then set_phase self touchdown
  else if altitude <? flare_altitude (cfg self) then set_phase self flare
  else if (altitude <? 200) && (distance_to_touchdown <? 4000) then set_phase self glide_slope
  else set_phase self approach.

(** The [state] dictionary: the keys [compute_control] reads, and 'alpha'. *)
Record StateDict : Type := {
  velocity : R;
  altitude : R;
  theta : R;
  q : R;
  alpha : R
}.

(** The [control] dictionary. *)
Record Control : Type := {
  elevator : R;
  throttle : R;
  control_phase : Phase
}.

(** The end of [compute_control], common to the four branches: the limits
    and the dictionary. *)
Definition limit_control (self : t) (elevator throttle : R) : Control * t :=
  let elevator := np.clip elevator (-0.4) 0.4 in
  let throttle := np.clip throttle 0.0 1.0 in
  ({| elevator := elevator; throttle := throttle; control_phase := phase (st self) |}, self).

(** Returns the control dictionary and the object after its mutation.  [dt]
    is the time step, which the derivative terms divide by; the flare branch
    divides by [flare_altitude], which is above 0.5 in that branch. *)
Definition compute_control (self : t) (state : StateDict) (distance_to_touchdown dt : R)
  : Control * t :=
  let velocity := velocity state in
  let altitude := altitude state in
  let theta := theta state in
  let q := q state in
  let self := update_phase self altitude distance_to_touchdown in
  match phase (st self) with
  | approach =>
      let ref_velocity := 33.0 in
      let ref_altitude := altitude in
      let theta_cmd := 0.0 in
      let error_theta := theta_cmd - theta in
      let self := set_int_theta self (int_theta (st self) + error_theta * dt) in
      let d_error_theta := (error_theta - prev_error_theta (st self)) / dt in
      let elevator := Kp_theta (cfg self) * error_theta
                      + Ki_theta (cfg self) * int_theta (st self)
                      + Kd_theta (cfg self) * d_error_theta in
      let self := set_prev_error_theta self error_theta in
      let error_vel := ref_velocity - velocity in
      let self := set_int_vel self (int_vel (st self) + error_vel * dt) in
      let throttle := Kp_vel (cfg self) * error_vel + Ki_vel (cfg self) * int_vel (st self) in
      limit_control self elevator throttle
  | glide_slope =>
      let ref_altitude := compute_glide_slope_reference self distance_to_touchdown in
      let ref_velocity := 30.0 in
      let error_alt := ref_altitude - altitude in
      let self := set_int_alt self (int_alt (st self) + error_alt * dt) in
      let self := set_int_alt self (np.clip (int_alt (st self)) (-50) 50) in
      let d_error_alt := (error_alt - prev_error_alt (st self)) / dt in
      let theta_cmd := 0.12 * error_alt + 0.02 * int_alt (st self) + 0.4 * d_error_alt in
      let theta_cmd := np.clip theta_cmd (-0.12) 0.08 in
      let self := set_prev_error_alt self error_alt in
      let error_theta := theta_cmd - theta in
      let self := set_int_theta self (int_theta (st self) + error_theta * dt) in
      let d_error_theta := (error_theta - prev_error_theta (st self)) / dt in
      let elevator := Kp_theta (cfg self) * error_theta
                      + Ki_theta (cfg self) * int_theta (st self)
                      + Kd_theta (cfg self) * d_error_theta in
      let self := set_prev_error_theta self error_theta in
      let error_vel := ref_velocity - velocity in
      let self := set_int_vel self (int_vel (st self) + error_vel * dt) in
      let throttle := 0.7 * (Kp_vel (cfg self) * error_vel
                             + Ki_vel (cfg self) * int_vel (st self)) in
      limit_control self elevator throttle
  | flare =>
      let ref_velocity := 27.0 in
      let flare_progress := 1.0 - altitude / flare_altitude (cfg self) in
      let theta_cmd := np.deg2rad (-2.0) + np.deg2rad 7.0 * flare_progress in
      let theta_cmd := np.clip theta_cmd (np.deg2rad (-5.0)) (np.deg2rad 8.0) in
      let error_theta := theta_cmd - theta in
      let self := set_int_theta self (int_theta (st self) + error_theta * dt) in
      let d_error_theta := (error_theta - prev_error_theta (st self)) / dt in
      let elevator := 4.0 * error_theta + 0.8 * int_theta (st self) + 2.0 * d_error_theta in
      let self := set_prev_error_theta self error_theta in
      let error_vel := ref_velocity - velocity in
      let self := set_int_vel self (int_vel (st self) + error_vel * dt) in
      let throttle := 0.5 * (Kp_vel (cfg self) * error_vel
                             + Ki_vel (cfg self) * int_vel (st self)) in
      limit_control self elevator throttle
  | touchdown =>
      let theta_cmd := np.deg2rad 2.0 in
      let error_theta := theta_cmd - theta in
      let elevator := 2.0 * error_theta in
      let throttle := 0.0 in
      limit_control self elevator throttle
  end.

End LandingController.

(** ** stability_analysis.py *)

(** A float that may be [np.inf]. *)
Inductive ExtR : Type :=
| Fin (r : R)
| Inf.

(** [y < x] for a float or [np.inf] [x] and a float [y]. *)
Definition ExtR_gtb (x : ExtR) (y : R) : bool :=
  match x with
  | Fin r => y <? r
  | Inf => true
  end.

(** Python dictionaries keep their keys in insertion order; assigning to a
    key that is present replaces its value in place, assigning to a new key
    appends it. *)
Module dict.
Section Dict.
Context {K V : Type} (eqb : K -> K -> bool).

Fixpoint get (d : list (K * V)) (k : K) : option V :=
  match d with
  | [] => None
  | (k', v) :: d' => if eqb k' k then Some v else get d' k
  end.

Fixpoint set (d : list (K * V)) (k : K) (v : V) : list (K * V) :=
  match d with
  | [] => [(k, v)]
  | (k', v') :: d' => if eqb k' k then (k, v) :: d' else (k', v') :: set d' k v
  end.

End Dict.
End dict.

Module StabilityAnalyzer.

(** A numpy complex number: real and imaginary part. *)
Definition complex : Type := (R * R)%type.

Definition real (z : complex) : R := fst z.
Definition imag (z : complex) : R := snd z.
Definition conj (z : complex) : complex := (real z, - imag z).
Definition csub (z z' : complex) : complex := (real z - real z', imag z - imag z').
(** [np.abs] of a complex number. *)
Definition cabs (z : complex) : R := sqrt (real z ^ 2 + imag z ^ 2).
(** [np.isreal]. *)
Definition isreal (z : complex) : bool := imag z =? 0.
(** [np.isclose(a, b)] with its default tolerances [rtol=1e-05] and
    [atol=1e-08]: [|a - b| <= atol + rtol * |b|]. *)
Definition isclose (a b : complex) : bool :=
  cabs (csub a b) <=? 1 / 100000000 + 1 / 100000 * cabs b.

Inductive Stability : Type := stable | unstable.

(** The value stored for a real eigenvalue ('type': 'real'); its keys
    'damping_ratio', 'natural_frequency' and 'period' hold [None]. *)
Record RealMode : Type := {
  real_eigenvalue : complex;
  real_stability : Stability;
  time_constant : ExtR
}.

(** The value stored for a complex eigenvalue ('type': 'complex'). *)
Record ComplexMode : Type := {
  eigenvalue : complex;
  stability : Stability;
  damping_ratio : R;
  natural_frequency : R;
  damped_frequency : R;
  period : ExtR
}.

Inductive Mode : Type :=
| Real (m : RealMode)
| Complex (m : ComplexMode).

(** The keys of the dictionaries: [mode_ n] is the string [f'mode_{n}']. *)
Inductive Key : Type :=
| mode_ (n : nat)
| short_period
| phugoid.

Definition Key_eqb (k k' : Key) : bool :=
  match k, k' with
  | mode_ n, mode_ n' => Nat.eqb n n'
  | short_period, short_period => true
  | phugoid, phugoid => true
  | _, _ => false
  end.

Definition Modes : Type := list (Key * Mode).

(** Stable insertion in ascending order of [key]. *)
Fixpoint insert_asc {A : Type} (key : A -> R) (x : A) (l : list A) : list A :=
  match l with
  | [] => [x]
  | y :: l' => if key y <=? key x then y :: insert_asc key x l' else x :: l
  end.

(** [eigenvalues[np.argsort(np.real(eigenvalues))[::-1]]]: by descending real
    part.  The order numpy gives to equal real parts is the one of its sort
    (for short arrays an insertion sort, reversed here); nothing below
    depends on it. *)
Definition sort_by_real_part (eigenvalues : list complex) : list complex :=
  rev (fold_left (fun sorted z => insert_asc real z sorted) eigenvalues []).

Definition stability_of (eig : complex) : Stability :=
  if real eig <? 0 then stable else unstable.

(** The loop [for i, eig in enumerate(eigenvalues)], from index [i] on;
    [prev] is [eigenvalues[i-1]] when [i > 0]. *)
Fixpoint identify_modes (i : nat) (prev : option complex) (eigenvalues : list complex)
  (modes : Modes) : Modes :=
  match eigenvalues with
  | [] => modes
  | eig :: rest =>
      let modes :=
        if isreal eig then
          let time_const :=
            if negb (real eig =? 0) then Fin (-1.0 / real eig) else Inf in
          let mode_type := stability_of eig in
          dict.set Key_eqb modes (mode_ (i + 1))
            (Real {| real_eigenvalue := eig;
                     real_stability := mode_type;
                     time_constant := time_const |})
        else if match prev with
                | Some p => isclose p (conj eig)
                | None => false
                end
        then modes
        else
          let omega_n := cabs eig in
          let zeta := - real eig / omega_n in
          let omega_d := imag eig in
          let period :=
            if negb (omega_d =? 0) then Fin (2 * PI / Rabs omega_d) else Inf in
          let mode_type := stability_of eig in
          dict.set Key_eqb modes (mode_ (i + 1))
            (Complex {| eigenvalue := eig;
                        stability := mode_type;
                        damping_ratio := zeta;
                        natural_frequency := omega_n;
                        damped_frequency := Rabs omega_d;
                        period := period |}) in
      identify_modes (S i) (Some eig) rest modes
  end.

(** [[(k, v) for k, v in modes.items() if v['type'] == 'complex']]. *)
Fixpoint complex_modes (modes : Modes) : list (Key * ComplexMode) :=
  match modes with
  | [] => []
  | (k, Complex m) :: rest => (k, m) :: complex_modes rest
  | (k, Real _) :: rest => complex_modes rest
  end.

(** Where [sorted(..., reverse=True)] puts an element that stood before
    all of [l]: before the first element whose key is not greater. *)
Fixpoint insert_desc {A : Type} (key : A -> R) (x : A) (l : list A) : list A :=
  match l with
  | [] => [x]
  | y :: l' => if key x <? key y then y :: insert_desc key x l' else x :: l
  end.

(** [sorted(l, key=key, reverse=True)]: descending and stable. *)
Definition sorted_reverse {A : Type} (key : A -> R) (l : list A) : list A :=
  fold_right (insert_desc key) [] l.

(** The end of [analyze_longitudinal_stability]: the two aliases. *)
Definition identify_specific_modes (modes : Modes) : Modes :=
  let complex_modes := complex_modes modes in
  if (2 <=? length complex_modes)%nat then
    let sorted_complex :=
      sorted_reverse (fun x => natural_frequency (snd x)) complex_modes in
    match sorted_complex with
    | sp :: ph :: _ =>
        let short_period_mode := snd sp in
        let phugoid_mode := snd ph in
        let modes := dict.set Key_eqb modes short_period (Complex short_period_mode) in
        let modes := dict.set Key_eqb modes phugoid (Complex phugoid_mode) in
        modes
    | _ => modes
    end
  else modes.

Section Eig.
(** [scipy.linalg.eig]: the eigenvalues of a matrix, in the library's order. *)
Variable linalg_eig : list (list R) -> list complex.

Definition analyze_longitudinal_stability (aircraft : AircraftModel.t)
  (trim_condition : AircraftModel.TrimState) : result Modes :=
  matrices <- AircraftModel.get_longitudinal_matrices aircraft trim_condition ;;
  let '(A, B) := matrices in
  let eigenvalues := linalg_eig A in
  let eigenvalues := sort_by_real_part eigenvalues in
  let modes := identify_modes 0 None eigenvalues [] in
  Ok (identify_specific_modes modes).

(** An entry of the handling-qualities dictionary. *)
Inductive Assessment : Type :=
| ShortPeriodAssessment (damping_ratio natural_frequency : R) (level : nat) (acceptable : bool)
| PhugoidAssessment (damping_ratio : R) (period : ExtR) (level : nat) (acceptable : bool).

Definition short_period_level (zeta_sp : R) : nat :=
  if (0.35 <=? zeta_sp) && (zeta_sp <=? 1.30) then 1%nat
  else if (0.25 <=? zeta_sp) && (zeta_sp <=? 2.00) then 2%nat
  else if 0.15 <=? zeta_sp then 3%nat
  else 4%nat.

(** [np.log(2) / abs(np.real(eigenvalue))]: a numpy division, [inf] on a
    zero divisor. *)
Definition time_to_double (eigenvalue : complex) : ExtR :=
  if Rabs (real eigenvalue) =? 0 then Inf else Fin (ln 2 / Rabs (real eigenvalue)).

Definition phugoid_level (zeta_ph : R) (eigenvalue : complex) : nat :=
  if 0.04 <=? zeta_ph then 1%nat
  else if 0 <? zeta_ph then 2%nat
  else
    let time_double := time_to_double eigenvalue in
    if ExtR_gtb time_double 55 then 3%nat else 4%nat.

(** A comparison of [None] (the 'damping_ratio' of a real mode) with a float
    raises [TypeError]. *)
Definition evaluate_handling_qualities (aircraft : AircraftModel.t)
  (trim_condition : AircraftModel.TrimState) : result (list (Key * Assessment)) :=
  modes <- analyze_longitudinal_stability aircraft trim_condition ;;
  let hq_assessment := [] in
  hq_assessment <-
    match dict.get Key_eqb modes short_period with
    | Some (Complex sp) =>
        let zeta_sp := damping_ratio sp in
        let omega_sp := natural_frequency sp in
        let sp_level := short_period_level zeta_sp in
        Ok (dict.set Key_eqb hq_assessment short_period
              (ShortPeriodAssessment zeta_sp omega_sp sp_level (sp_level <=? 3)%nat))
    | Some (Real _) => Raise TypeError
    | None => Ok hq_assessment
    end ;;
  match dict.get Key_eqb modes phugoid with
  | Some (Complex ph) =>
      let zeta_ph := damping_ratio ph in
      let ph_level := phugoid_level zeta_ph (eigenvalue ph) in
      Ok (dict.set Key_eqb hq_assessment phugoid
            (PhugoidAssessment zeta_ph (period ph) ph_level (ph_level <=? 3)%nat))
  | Some (Real _) => Raise TypeError
  | None => Ok hq_assessment
  end.

End Eig.

End StabilityAnalyzer.

(** ** simulation.py *)

Module FlightSimulator.

(** The state vector [[u, w, q, theta, x, h]], and its derivative. *)
Record State : Type := {
  u : R;
  w : R;
  q : R;
  theta : R;
  x : R;
  h : R
}.

(** Arithmetic of numpy arrays: [a + b] and [c * a]. *)
Definition vadd (a b : State) : State :=
  {| u := u a + u b; w := w a + w b; q := q a + q b;
     theta := theta a + theta b; x := x a + x b; h := h a + h b |}.

Definition vscale (c : R) (a : State) : State :=
  {| u := c * u a; w := c * w a; q := c * q a;
     theta := c * theta a; x := c * x a; h := c * h a |}.

(** Assignments [state[0] = v], [state[2] = v], [state[3] = v] and
    [state[5] = v]. *)
Definition set_u (s : State) (v : R) : State :=
  {| u := v; w := w s; q := q s; theta := theta s; x := x s; h := h s |}.
Definition set_q (s : State) (v : R) : State :=
  {| u := u s; w := w s; q := v; theta := theta s; x := x s; h := h s |}.
Definition set_theta (s : State) (v : R) : State :=
  {| u := u s; w := w s; q := q s; theta := v; x := x s; h := h s |}.
Definition set_h (s : State) (v : R) : State :=
  {| u := u s; w := w s; q := q s; theta := theta s; x := x s; h := v |}.

(** The simulator object: its only attribute is the aircraft.  Divisions of
    numpy floats do not raise; they are real divisions here. *)
Definition longitudinal_dynamics (aircraft : AircraftModel.t) (state : State) (t : R)
  (control : LandingController.Control) : State :=
  let '(u, w, q, theta, x, h) :=
    (u state, w state, q state, theta state, x state, h state) in
  let V := sqrt (u ^ 2 + w ^ 2) in
  let alpha := np.arctan2 w u in
  let q_bar := 0.5 * AircraftModel.rho aircraft * V ^ 2 in
  let elevator := LandingController.elevator control in
  let throttle := LandingController.throttle control in
  let CL := AircraftModel.CL0 aircraft + AircraftModel.CLalpha aircraft * alpha
            + AircraftModel.CLde aircraft * elevator in
  let CL := np.clip CL (-1.5) 1.8 in
  let CD := AircraftModel.CD0 aircraft + AircraftModel.CDalpha aircraft * alpha ^ 2
            + AircraftModel.CDde aircraft * Rabs elevator in
  let CD := Rmax CD 0.02 in
  let L := q_bar * AircraftModel.wing_area aircraft * CL in
  let D := q_bar * AircraftModel.wing_area aircraft * CD in
  let T := throttle * AircraftModel.max_thrust aircraft in
  let X := T * cos alpha - D
           - AircraftModel.mass aircraft * AircraftModel.g aircraft * sin theta in
  let Z := - T * sin alpha - L
           + AircraftModel.mass aircraft * AircraftModel.g aircraft * cos theta in
  let Cm := AircraftModel.Cm0 aircraft
            + AircraftModel.Cmalpha aircraft * alpha
            + AircraftModel.Cmq aircraft * q * AircraftModel.chord aircraft / (2 * V)
            + AircraftModel.Cmde aircraft * elevator in
  let M := q_bar * AircraftModel.wing_area aircraft * AircraftModel.chord aircraft * Cm in
  let u_dot := X / AircraftModel.mass aircraft + w * q in
  let w_dot := Z / AircraftModel.mass aircraft - u * q in
  let q_dot := M / AircraftModel.Iyy aircraft in
  let theta_dot := q in
  let x_dot := u * cos theta + w * sin theta in
  let h_dot := u * sin theta - w * cos theta in
  {| u := u_dot; w := w_dot; q := q_dot; theta := theta_dot; x := x_dot; h := h_dot |}.

(** The [initial_state] dictionary; the key 'x_touchdown' is optional. *)
Record InitialState : Type := {
  initial_u : R;
  initial_w : R;
  initial_q : R;
  initial_theta : R;
  initial_x : R;
  initial_h : R;
  x_touchdown : option R
}.

(** The [current_state] dictionary built from the state vector (its key
    'x' is not read by the controller). *)
Definition current_state (state : State) : LandingController.StateDict :=
  let V := sqrt (u state ^ 2 + w state ^ 2) in
  let alpha := np.arctan2 (w state) (u state) in
  {| LandingController.velocity := V;
     LandingController.altitude := h state;
     LandingController.theta := theta state;
     LandingController.q := q state;
     LandingController.alpha := alpha |}.

(** The body of the loop between the computation of the control and the
    update of the time: the Runge-Kutta step and the bounds. *)
Definition rk4_step (aircraft : AircraftModel.t) (state : State) (t dt : R)
  (control : LandingController.Control) : State :=
  let k1 := longitudinal_dynamics aircraft state t control in
  let k2 := longitudinal_dynamics aircraft (vadd state (vscale (0.5 * dt) k1))
              (t + 0.5 * dt) control in
  let k3 := longitudinal_dynamics aircraft (vadd state (vscale (0.5 * dt) k2))
              (t + 0.5 * dt) control in
  let k4 := longitudinal_dynamics aircraft (vadd state (vscale dt k3)) (t + dt) control in
  let state :=
    vadd state (vscale (dt / 6.0) (vadd (vadd (vadd k1 (vscale 2 k2)) (vscale 2 k3)) k4)) in
  let state := set_u state (np.clip (u state) 18.0 45.0) in
  let state := set_q state (np.clip (q state) (-0.5) 0.5) in
  let state := set_theta state (np.clip (theta state) (-0.5) 0.5) in
  state.

(** What [simulate_landing] returns, and the controller object it leaves. *)
Record Histories : Type := {
  time_history : list R;
  state_history : list State;
  control_history : list LandingController.Control
}.

(** The [while] loop; [fuel] bounds the number of its iterations, and [None]
    says that the bound was reached. *)
Fixpoint landing_loop (fuel : nat) (aircraft : AircraftModel.t) (x_touchdown duration dt : R)
  (controller : LandingController.t) (t : R) (state : State) (hist : Histories)
  : option (Histories * LandingController.t) :=
  if (t <? duration) && (0 <? h state) then
    match fuel with
    | O => None
    | S fuel =>
        let distance_to_touchdown := x_touchdown - x state in
        let '(control, controller) :=
          LandingController.compute_control controller (current_state state)
            distance_to_touchdown dt in
        let state := rk4_step aircraft state t dt control in
        let t := t + dt in
        let hist :=
          {| time_history := time_history hist ++ [t];
             state_history := state_history hist ++ [state];
             control_history := control_history hist ++ [control] |} in
        if h state <=? 0 then
          let state := set_h state 0 in
          Some (hist, controller)
        else landing_loop fuel aircraft x_touchdown duration dt controller t state hist
    end
  else Some (hist, controller).

Definition simulate_landing (fuel : nat) (aircraft : AircraftModel.t)
  (controller : LandingController.t) (initial_state : InitialState) (duration dt : R)
  : option (Histories * LandingController.t) :=
  let state :=
    {| u := initial_u initial_state;
       w := initial_w initial_state;
       q := initial_q initial_state;
       theta := initial_theta initial_state;
       x := initial_x initial_state;
       h := initial_h initial_state |} in
  let x_touchdown :=
    match x_touchdown initial_state with
    | Some v => v
    | None => 3000.0
    end in
  let hist :=
    {| time_history := [0]; state_history := [state]; control_history := [] |} in
  let controller := LandingController.reset controller in
  let t := 0 in
  landing_loop fuel aircraft x_touchdown duration dt controller t state hist.

(** The [performance] dictionary. *)
Record Performance : Type := {
  touchdown_speed_ms : R;
  touchdown_vertical_rate_ms : R;
  touchdown_pitch_deg : R;
  mean_glide_slope_error_m : R;
  max_glide_slope_error_m : R;
  landing_success : bool
}.

(** The loop [for i, state in enumerate(state_history)]: index [i] is
    considered when [i < len(control_history)], so the two histories are
    walked together. *)
Fixpoint glide_slope_errors (state_history : list State)
  (control_history : list LandingController.Control) : list R :=
  match state_history, control_history with
  | state :: states, control :: controls =>
      let rest := glide_slope_errors states controls in
      if LandingController.Phase_eqb (LandingController.control_phase control)
           LandingController.glide_slope
      then
        let x := x state in
        let h := h state in
        let x_touchdown := 3000.0 in
        let distance := x_touchdown - x in
        if 0 <? distance then
          let ref_h := distance * tan (np.deg2rad 3.0) in
          let error := Rabs (h - ref_h) in
          error :: rest
        else rest
      else rest
  | _, _ => []
  end.

(** [state_history[-1]]. *)
Definition final_state (state_history : list State) : result State :=
  match rev state_history with
  | [] => Raise IndexError
  | s :: _ => Ok s
  end.

Definition evaluate_landing_performance (time_history : list R) (state_history : list State)
  (control_history : list LandingController.Control) : result Performance :=
  final_state <- final_state state_history ;;
  let u_td := u final_state in
  let w_td := w final_state in
  let V_td := sqrt (u_td ^ 2 + w_td ^ 2) in
  let theta_td := theta final_state in
  let touchdown_speed := V_td in
  let touchdown_rate := - w_td in
  let touchdown_pitch := np.rad2deg theta_td in
  let glide_slope_errors := glide_slope_errors state_history control_history in
  Ok {| touchdown_speed_ms := touchdown_speed;
        touchdown_vertical_rate_ms := touchdown_rate;
        touchdown_pitch_deg := touchdown_pitch;
        mean_glide_slope_error_m :=
          match glide_slope_errors with
          | [] => 0
          | _ :: _ => np.mean glide_slope_errors
          end;
        max_glide_slope_error_m :=
          match glide_slope_errors with
          | [] => 0
          | e :: es => np.max e es
          end;
        landing_success :=
          (Rabs touchdown_rate <? 3.0) && (18 <? touchdown_speed) && (touchdown_speed <? 35) |}.

(** The sample of one step: [abs(h - (3000 - x) * tan(3 deg))]. *)
Definition glide_slope_sample (step : State * LandingController.Control) : R :=
  Rabs (h (fst step) - (3000.0 - x (fst step)) * tan (np.deg2rad 3.0)).

Definition recorded_glide_slope (step : State * LandingController.Control) : bool :=
  LandingController.Phase_eqb (LandingController.control_phase (snd step))
    LandingController.glide_slope.

(** The guard of the loop of [evaluate_landing_performance]: the recorded
    phase is glide_slope and the aircraft is short of x = 3000. *)
Definition sampled (step : State * LandingController.Control) : bool :=
  recorded_glide_slope step && (0 <? 3000.0 - x (fst step)).

(** The samples as the specification words them, to be compared with
    [glide_slope_errors]: one for every step whose recorded phase is
    glide_slope. *)
Definition stated_glide_slope_errors (state_history : list State)
  (control_history : list LandingController.Control) : list R :=
  map glide_slope_sample (filter recorded_glide_slope (combine state_history control_history)).

End FlightSimulator.

(** * Vocabulary of the properties *)

(** Every key of a dictionary is the name of a numbered mode. *)
Definition numbered {V : Type} (d : list (StabilityAnalyzer.Key * V)) : Prop :=
  Forall (fun kv => exists n, fst kv = StabilityAnalyzer.mode_ n) d.

(** [x] stands before [y] in a descending order of [key]. *)
Definition desc {A : Type} (key : A -> R) (x y : A) : Prop := key y <= key x.

(** The time to double amplitude exceeds 55 s; numpy's division gives [inf]
    for a zero real part, and [inf > 55]. *)
Definition time_to_double_exceeds_55 (eigenvalue : StabilityAnalyzer.complex) : Prop :=
  Rabs (StabilityAnalyzer.real eigenvalue) = 0
  \/ 55 < ln 2 / Rabs (StabilityAnalyzer.real eigenvalue).

(** The controller object at the start of iteration [i] of the simulation
    loop, given the object [c] at the start of the loop and the recorded
    states: each iteration runs [compute_control] on its state. *)
Fixpoint controller_at (x_touchdown dt : R) (c : LandingController.t)
  (states : list FlightSimulator.State) (i : nat) : LandingController.t :=
  match i, states with
  | S i, s :: states =>
      controller_at x_touchdown dt
        (snd (LandingController.compute_control c (FlightSimulator.current_state s)
                (x_touchdown - FlightSimulator.x s) dt))
        states i
  | _, _ => c
  end.

(** What the loop records from the time [t], the state [s] and the
    controller [c] on: the times, states and commands of its iterations. *)
Inductive recorded (aircraft : AircraftModel.t) (x_touchdown dt : R) :
  LandingController.t -> R -> FlightSimulator.State ->
  list R -> list FlightSimulator.State -> list LandingController.Control -> Prop :=
| recorded_nothing (c : LandingController.t) (t : R) (s : FlightSimulator.State) :
    recorded aircraft x_touchdown dt c t s [] [] []
| recorded_iteration (c : LandingController.t) (t : R) (s : FlightSimulator.State)
    (ts : list R) (ss : list FlightSimulator.State) (cs : list LandingController.Control) :
    recorded aircraft x_touchdown dt
      (snd (LandingController.compute_control c (FlightSimulator.current_state s)
              (x_touchdown - FlightSimulator.x s) dt))
      (t + dt)
      (FlightSimulator.rk4_step aircraft s t dt
         (fst (LandingController.compute_control c (FlightSimulator.current_state s)
                 (x_touchdown - FlightSimulator.x s) dt)))
      ts ss cs ->
    recorded aircraft x_touchdown dt c t s
      ((t + dt) :: ts)
      (FlightSimulator.rk4_step aircraft s t dt
         (fst (LandingController.compute_control c (FlightSimulator.current_state s)
                 (x_touchdown - FlightSimulator.x s) dt)) :: ss)
      (fst (LandingController.compute_control c (FlightSimulator.current_state s)
              (x_touchdown - FlightSimulator.x s) dt) :: cs).

(** The state vector and the threshold [simulate_landing] starts from. *)
Definition start_state (initial_state : FlightSimulator.InitialState) : FlightSimulator.State :=
  {| FlightSimulator.u := FlightSimulator.initial_u initial_state;
     FlightSimulator.w := FlightSimulator.initial_w initial_state;
     FlightSimulator.q := FlightSimulator.initial_q initial_state;
     FlightSimulator.theta := FlightSimulator.initial_theta initial_state;
     FlightSimulator.x := FlightSimulator.initial_x initial_state;
     FlightSimulator.h := FlightSimulator.initial_h initial_state |}.

Definition threshold (initial_state : FlightSimulator.InitialState) : R :=
  match FlightSimulator.x_touchdown initial_state with
  | Some v => v
  | None => 3000.0
  end.

(** The scenario of the repository's simulation test, and a controller that
    was used before: same configuration, other accumulators and phase. *)
Definition test_initial_state : FlightSimulator.InitialState :=
  {| FlightSimulator.initial_u := 30.0;
     FlightSimulator.initial_w := -1.0;
     FlightSimulator.initial_q := 0.0;
     FlightSimulator.initial_theta := 0.0;
     FlightSimulator.initial_x := 2000.0;
     FlightSimulator.initial_h := 100.0;
     FlightSimulator.x_touchdown := Some 3000.0 |}.

Definition used_controller : LandingController.t :=
  {| LandingController.cfg := LandingController.cfg (LandingController.init AircraftModel.init);
     LandingController.st :=
       {| LandingController.int_theta := 0.7;
          LandingController.int_alt := -50;
          LandingController.int_vel := 12.5;
          LandingController.prev_error_theta := 0.03;
          LandingController.prev_error_alt := -4.2;
          LandingController.phase := LandingController.touchdown |} |}.

(** The first iteration of a run: what [compute_control] returns on the
    initial state, and the histories of a run that ends after it. *)
Definition first_iteration (c : LandingController.t)
  (initial_state : FlightSimulator.InitialState) (dt : R)
  : LandingController.Control * LandingController.t :=
  LandingController.compute_control (LandingController.reset c)
    (FlightSimulator.current_state (start_state initial_state))
    (threshold initial_state - FlightSimulator.x (start_state initial_state)) dt.

Definition histories_after_one_step (ac : AircraftModel.t) (c : LandingController.t)
  (initial_state : FlightSimulator.InitialState) (dt : R) : FlightSimulator.Histories :=
  {| FlightSimulator.time_history := [0; 0 + dt];
     FlightSimulator.state_history :=
       [ start_state initial_state;
         FlightSimulator.rk4_step ac (start_state initial_state) 0 dt
           (fst (first_iteration c initial_state dt)) ];
     FlightSimulator.control_history := [fst (first_iteration c initial_state dt)] |}.

(** The test scenario with the shipped aircraft and controller and a step of
    0.05 s. *)
Definition first_command : LandingController.Control :=
  fst (first_iteration (LandingController.init AircraftModel.init) test_initial_state 0.05).

Definition controller_after_first_command : LandingController.t :=
  snd (first_iteration (LandingController.init AircraftModel.init) test_initial_state 0.05).

Definition one_step_histories : FlightSimulator.Histories :=
  histories_after_one_step AircraftModel.init (LandingController.init AircraftModel.init)
    test_initial_state 0.05.

(** A scenario whose runway threshold is at x = 5000, entered at x = 3500. *)
Definition far_threshold_state : FlightSimulator.InitialState :=
  {| FlightSimulator.initial_u := 30.0;
     FlightSimulator.initial_w := -1.0;
     FlightSimulator.initial_q := 0.0;
     FlightSimulator.initial_theta := 0.0;
     FlightSimulator.initial_x := 3500.0;
     FlightSimulator.initial_h := 100.0;
     FlightSimulator.x_touchdown := Some 5000.0 |}.

(** The histories of that scenario run for one step of 0.05 s with the
    shipped aircraft and controller. *)
Definition far_threshold_run : FlightSimulator.Histories :=
  histories_after_one_step AircraftModel.init (LandingController.init AircraftModel.init)
    far_threshold_state 0.05.

(** A typical spectrum, in the order an eigenvalue routine may give it: a
    fast, well damped pair and a slow, lightly damped pair. *)
Definition example_eigenvalues : list StabilityAnalyzer.complex :=
  [ (-2, 3); (-2, -3); (-0.02, 0.3); (-0.02, -0.3) ].

(** A trim dictionary as a caller may pass it; the analysis reads its keys
    'velocity' and 'alpha'. *)
Definition level_trim : AircraftModel.TrimState :=
  {| AircraftModel.velocity := 30.0;
     AircraftModel.alpha := 0.2;
     AircraftModel.theta := 0.2;
     AircraftModel.q := 0.0;
     AircraftModel.altitude := 0.0;
     AircraftModel.CL := 1.2;
     AircraftModel.CD := 0.06;
     AircraftModel.elevator := -0.065;
     AircraftModel.thrust := 500.0 |}.

(** The dictionary the analysis builds from the typical spectrum. *)
Definition typical_modes : StabilityAnalyzer.Modes :=
  StabilityAnalyzer.identify_specific_modes
    (StabilityAnalyzer.identify_modes 0 None
       (StabilityAnalyzer.sort_by_real_part example_eigenvalues) []).

(** ** landing_controller.py: the alternative design *)


Module LQRDesign.
Section Lqr.
(** [control.lqr(A, B, Q, R)]: the gain, the Riccati solution and the
    closed-loop eigenvalues, or [None] when the library raises. *)
Variable ct_lqr :
  list (list R) -> list (list R) -> list (list R) -> list (list R) ->
  option (list (list R) * list (list R) * list StabilityAnalyzer.complex).


End Lqr.
End LQRDesign.

(** ** Vocabulary of the further properties *)

(** Successive calls of [compute_control] on one controller object, with the
    same step: the commands, and the object after the last call. *)
Fixpoint control_steps (c : LandingController.t)
  (inputs : list (LandingController.StateDict * R)) (dt : R)
  : list LandingController.Control * LandingController.t :=
  match inputs with
  | [] => ([], c)
  | (state, distance) :: inputs =>
      let '(control, c) := LandingController.compute_control c state distance dt in
      let '(controls, c) := control_steps c inputs dt in
      (control :: controls, c)
  end.


(** The times and states a run records after the time [t] and the state
    [s]: the loop goes on while [t < duration] and the altitude is positive,
    and stops at the first time and state where one of the two fails. *)
Inductive running (duration : R) :
  R -> FlightSimulator.State -> list R -> list FlightSimulator.State -> Prop :=
| running_stop (t : R) (s : FlightSimulator.State) :
    duration <= t \/ FlightSimulator.h s <= 0 -> running duration t s [] []
| running_on (t : R) (s : FlightSimulator.State) (t' : R) (s' : FlightSimulator.State)
    (ts : list R) (ss : list FlightSimulator.State) :
    t < duration -> 0 < FlightSimulator.h s ->
    running duration t' s' ts ss -> running duration t s (t' :: ts) (s' :: ss).

(** The state [s] moved by [dx] along the runway axis. *)
Definition shift_x (dx : R) (s : FlightSimulator.State) : FlightSimulator.State :=
  {| FlightSimulator.u := FlightSimulator.u s;
     FlightSimulator.w := FlightSimulator.w s;
     FlightSimulator.q := FlightSimulator.q s;
     FlightSimulator.theta := FlightSimulator.theta s;
     FlightSimulator.x := FlightSimulator.x s + dx;
     FlightSimulator.h := FlightSimulator.h s |}.

(** The scenario [initial_state] with the aircraft and the runway threshold
    both moved by [dx]. *)
Definition shift_scenario (dx : R) (initial_state : FlightSimulator.InitialState)
  : FlightSimulator.InitialState :=
  {| FlightSimulator.initial_u := FlightSimulator.initial_u initial_state;
     FlightSimulator.initial_w := FlightSimulator.initial_w initial_state;
     FlightSimulator.initial_q := FlightSimulator.initial_q initial_state;
     FlightSimulator.initial_theta := FlightSimulator.initial_theta initial_state;
     FlightSimulator.initial_x := FlightSimulator.initial_x initial_state + dx;
     FlightSimulator.initial_h := FlightSimulator.initial_h initial_state;
     FlightSimulator.x_touchdown := Some (threshold initial_state + dx) |}.

Definition shift_histories (dx : R) (hist : FlightSimulator.Histories)
  : FlightSimulator.Histories :=
  {| FlightSimulator.time_history := FlightSimulator.time_history hist;
     FlightSimulator.state_history := map (shift_x dx) (FlightSimulator.state_history hist);
     FlightSimulator.control_history := FlightSimulator.control_history hist |}.

(** What the entry of a complex eigenvalue holds: the modulus as natural
    frequency, a damping ratio strictly between -1 and 1, a positive damped
    frequency not above the natural one, a finite period, and the stability
    flag of a positive damping ratio. *)
Definition complex_mode_consistent (m : StabilityAnalyzer.ComplexMode) : Prop :=
  StabilityAnalyzer.imag (StabilityAnalyzer.eigenvalue m) <> 0
  /\ StabilityAnalyzer.natural_frequency m
     = StabilityAnalyzer.cabs (StabilityAnalyzer.eigenvalue m)
  /\ 0 < StabilityAnalyzer.natural_frequency m
  /\ StabilityAnalyzer.damping_ratio m * StabilityAnalyzer.natural_frequency m
     = - StabilityAnalyzer.real (StabilityAnalyzer.eigenvalue m)
  /\ -1 < StabilityAnalyzer.damping_ratio m < 1
  /\ StabilityAnalyzer.damped_frequency m
     = Rabs (StabilityAnalyzer.imag (StabilityAnalyzer.eigenvalue m))
  /\ 0 < StabilityAnalyzer.damped_frequency m <= StabilityAnalyzer.natural_frequency m
  /\ StabilityAnalyzer.period m = Fin (2 * PI / StabilityAnalyzer.damped_frequency m)
  /\ (StabilityAnalyzer.stability m = StabilityAnalyzer.stable <->
      0 < StabilityAnalyzer.damping_ratio m).

(** What the entry of a real eigenvalue holds: a time constant that is
    infinite exactly for a zero eigenvalue and [-1 / lambda] otherwise, and the
    stability flag of a negative eigenvalue. *)
Definition real_mode_consistent (m : StabilityAnalyzer.RealMode) : Prop :=
  StabilityAnalyzer.imag (StabilityAnalyzer.real_eigenvalue m) = 0
  /\ (StabilityAnalyzer.time_constant m = Inf <->
      StabilityAnalyzer.real (StabilityAnalyzer.real_eigenvalue m) = 0)
  /\ (StabilityAnalyzer.real (StabilityAnalyzer.real_eigenvalue m) <> 0 ->
      StabilityAnalyzer.time_constant m
      = Fin (- 1 / StabilityAnalyzer.real (StabilityAnalyzer.real_eigenvalue m)))
  /\ (StabilityAnalyzer.real_stability m = StabilityAnalyzer.stable <->
      StabilityAnalyzer.real (StabilityAnalyzer.real_eigenvalue m) < 0).

Definition mode_consistent (entry : StabilityAnalyzer.Key * StabilityAnalyzer.Mode) : Prop :=
  match snd entry with
  | StabilityAnalyzer.Real m => real_mode_consistent m
  | StabilityAnalyzer.Complex m => complex_mode_consistent m
  end.

(** * Properties *)

(** ** Arithmetic and comparisons *)

Lemma pydiv_ok (x y : R) : y <> 0 -> pydiv x y = Ok (x / y).
Proof.
  intros Hy. unfold pydiv.
  destruct (Req_dec_T y 0) as [E | _]; [contradiction | reflexivity].
Qed.

Lemma pydiv_zero (x : R) : pydiv x 0 = Raise ZeroDivisionError.
Proof.
  unfold pydiv. destruct (Req_dec_T 0 0) as [_ | N]; [reflexivity | now elim N].
Qed.

Lemma pydiv_raises (x y : R) : pydiv x y = Raise ZeroDivisionError <-> y = 0.
Proof.
  unfold pydiv. destruct (Req_dec_T y 0) as [E | N]; split; intros H;
    try reflexivity; try assumption; try discriminate; contradiction.
Qed.

Lemma Rltb_true (x y : R) : (x <? y) = true <-> x < y.
Proof. unfold Rltb. destruct (Rlt_dec x y); split; intros; try easy. Qed.

Lemma Rltb_false (x y : R) : (x <? y) = false <-> y <= x.
Proof. unfold Rltb. destruct (Rlt_dec x y); split; intros; try easy; lra. Qed.

Lemma Rleb_true (x y : R) : (x <=? y) = true <-> x <= y.
Proof. unfold Rleb. destruct (Rle_dec x y); split; intros; try easy. Qed.

Lemma Rleb_false (x y : R) : (x <=? y) = false <-> y < x.
Proof. unfold Rleb. destruct (Rle_dec x y); split; intros; try easy; lra. Qed.

Lemma Reqb_true (x y : R) : (x =? y) = true <-> x = y.
Proof. unfold Reqb. destruct (Req_dec_T x y); split; intros; try easy. Qed.

Lemma Reqb_false (x y : R) : (x =? y) = false <-> x <> y.
Proof. unfold Reqb. destruct (Req_dec_T x y); split; intros; try easy. Qed.

(** Turns every boolean comparison of the context and goal into its
    proposition. *)
Ltac rbool :=
  repeat match goal with
  | H : (_ <? _) = true |- _ => apply Rltb_true in H
  | H : (_ <? _) = false |- _ => apply Rltb_false in H
  | H : (_ <=? _) = true |- _ => apply Rleb_true in H
  | H : (_ <=? _) = false |- _ => apply Rleb_false in H
  | H : (_ =? _) = true |- _ => apply Reqb_true in H
  | H : (_ =? _) = false |- _ => apply Reqb_false in H
  | H : andb _ _ = true |- _ => apply andb_true_iff in H; destruct H
  | H : andb _ _ = false |- _ => apply andb_false_iff in H
  | |- (_ <? _) = true => apply Rltb_true
  | |- (_ <? _) = false => apply Rltb_false
  | |- (_ <=? _) = true => apply Rleb_true
  | |- (_ <=? _) = false => apply Rleb_false
  | |- (_ =? _) = true => apply Reqb_true
  | |- (_ =? _) = false => apply Reqb_false
  end.

(** Runs a chain of comparisons of concrete numbers: takes the branch that
    arithmetic allows at each test. *)
Ltac run_tests :=
  repeat match goal with
  | |- context [if ?b then _ else _] => destruct b eqn:?; rbool
  | H : _ \/ _ |- _ => destruct H; rbool
  end;
  try reflexivity; exfalso; lra.

Lemma clip_bounds (x lo hi : R) : lo <= hi -> lo <= np.clip x lo hi <= hi.
Proof.
  intros Hle. unfold np.clip. split.
  - apply Rmin_glb; [apply Rmax_r | exact Hle].
  - apply Rmin_r.
Qed.

Lemma clip_id (x lo hi : R) : lo <= x <= hi -> np.clip x lo hi = x.
Proof.
  intros [Hl Hh]. unfold np.clip. rewrite Rmax_left by exact Hl. now apply Rmin_left.
Qed.

(** ** Trim *)

(** The three divisions of [get_trim_condition] are the only way it can
    fail: it raises exactly when one of the divisors is zero, and what it
    raises is [ZeroDivisionError]. *)
Lemma trim_raises_iff (a : AircraftModel.t) (V alt : R) :
  AircraftModel.get_trim_condition a V alt = Raise ZeroDivisionError <->
  (0.5 * AircraftModel.rho a * V ^ 2 * AircraftModel.wing_area a = 0
   \/ AircraftModel.CLalpha a = 0 \/ AircraftModel.Cmde a = 0).
Proof.
  unfold AircraftModel.get_trim_condition, bind, pydiv.
  destruct (Req_dec_T (0.5 * AircraftModel.rho a * V ^ 2 * AircraftModel.wing_area a) 0)
    as [E1 | N1]; [tauto | ].
  destruct (Req_dec_T (AircraftModel.CLalpha a) 0) as [E2 | N2]; [tauto | ].
  destruct (Req_dec_T (AircraftModel.Cmde a) 0) as [E3 | N3]; [tauto | ].
  split.
  - intros He. discriminate He.
  - intros [H | [H | H]]; contradiction.
Qed.


Lemma trim_ok (a : AircraftModel.t) (V alt : R) :
  0.5 * AircraftModel.rho a * V ^ 2 * AircraftModel.wing_area a <> 0 ->
  AircraftModel.CLalpha a <> 0 -> AircraftModel.Cmde a <> 0 ->
  exists tr,
    AircraftModel.get_trim_condition a V alt = Ok tr
    /\ AircraftModel.CL tr
       = AircraftModel.mass a * AircraftModel.g a
         / (0.5 * AircraftModel.rho a * V ^ 2 * AircraftModel.wing_area a)
    /\ AircraftModel.velocity tr = V
    /\ AircraftModel.altitude tr = alt.
Proof.
  intros N1 N2 N3. unfold AircraftModel.get_trim_condition.
  rewrite (pydiv_ok _ _ N1). cbn [bind].
  rewrite (pydiv_ok _ _ N2). cbn [bind].
  rewrite (pydiv_ok _ _ N3). cbn [bind].
  eexists. split; [reflexivity | cbn; auto].
Qed.

Lemma dynamic_pressure_area_nonzero (a : AircraftModel.t) (V : R) :
  V <> 0 -> AircraftModel.rho a <> 0 -> AircraftModel.wing_area a <> 0 ->
  0.5 * AircraftModel.rho a * V ^ 2 * AircraftModel.wing_area a <> 0.
Proof.
  intros HV Hr HS.
  assert (HV2 : V ^ 2 <> 0) by (apply pow_nonzero; exact HV).
  apply Rmult_integral_contrapositive_currified; [ | exact HS].
  apply Rmult_integral_contrapositive_currified; [ | exact HV2].
  apply Rmult_integral_contrapositive_currified; [lra | exact Hr].
Qed.


Lemma init_divisors_nonzero :
  AircraftModel.wing_area AircraftModel.init <> 0
  /\ AircraftModel.rho AircraftModel.init <> 0
  /\ AircraftModel.CLalpha AircraftModel.init <> 0
  /\ AircraftModel.Cmde AircraftModel.init <> 0.
Proof. cbn. repeat split; lra. Qed.


(** The same for the shipped table, at every positive velocity and every
    altitude. *)
Lemma trim_of_shipped_table (V alt : R) :
  V > 0 ->
  exists tr,
    AircraftModel.get_trim_condition AircraftModel.init V alt = Ok tr
    /\ AircraftModel.CL tr = 1100.0 * 9.81 / (0.5 * 1.225 * V ^ 2 * 16.2)
    /\ AircraftModel.velocity tr = V.
Proof.
  intros HV. destruct init_divisors_nonzero as (HS & Hr & HCL & HCm).
  destruct (trim_ok AircraftModel.init V alt) as (tr & Htr & HCLtr & Hvel & _);
    try assumption.
  - apply dynamic_pressure_area_nonzero; try assumption. lra.
  - exists tr. auto.
Qed.



(** ** Landing controller *)


Lemma limit_control_phase (c : LandingController.t) (e th : R) :
  LandingController.control_phase (fst (LandingController.limit_control c e th))
  = LandingController.phase (LandingController.st c)
  /\ snd (LandingController.limit_control c e th) = c.
Proof. split; reflexivity. Qed.



Lemma update_phase_cfg (c : LandingController.t) (a d : R) :
  LandingController.cfg (LandingController.update_phase c a d) = LandingController.cfg c.
Proof.
  unfold LandingController.update_phase.
  destruct (a <=? 0.5); [reflexivity | ].
  destruct (a <? _); [reflexivity | ].
  destruct (_ && _); reflexivity.
Qed.

(** The phase [update_phase] selects, read off its chain of tests: each test
    is reached only when the ones before it failed. *)
Lemma update_phase_selects (c : LandingController.t) (a d : R) :
  let p := LandingController.phase
             (LandingController.st (LandingController.update_phase c a d)) in
  let fa := LandingController.flare_altitude (LandingController.cfg c) in
  (p = LandingController.touchdown <-> a <= 0.5)
  /\ (p = LandingController.flare <-> 0.5 < a < fa)
  /\ (p = LandingController.glide_slope <-> 0.5 < a /\ fa <= a < 200 /\ d < 4000)
  /\ (p = LandingController.approach <->
      0.5 < a /\ fa <= a /\ ~ (a < 200 /\ d < 4000)).
Proof.
  cbv zeta. unfold LandingController.update_phase.
  destruct (a <=? 0.5) eqn:E1.
  { rbool. cbn. repeat split; intros; try discriminate; try lra. }
  destruct (a <? LandingController.flare_altitude (LandingController.cfg c)) eqn:E2.
  { rbool. cbn. repeat split; intros; try discriminate; try lra. }
  destruct ((a <? 200) && (d <? 4000)) eqn:E3.
  - rbool. cbn. repeat split; intros; try discriminate; try lra.
  - rbool. cbn. repeat split; intros; try discriminate; try lra.
    all: destruct E3 as [E3 | E3]; rbool; lra.
Qed.

(** [compute_control] leaves in the object, and writes in the command, the
    phase [update_phase] selected. *)
Lemma compute_control_phase (c : LandingController.t) (state : LandingController.StateDict)
  (d dt : R) :
  LandingController.phase
    (LandingController.st (snd (LandingController.compute_control c state d dt)))
  = LandingController.phase
      (LandingController.st
         (LandingController.update_phase c (LandingController.altitude state) d))
  /\ LandingController.control_phase (fst (LandingController.compute_control c state d dt))
     = LandingController.phase
         (LandingController.st
            (LandingController.update_phase c (LandingController.altitude state) d)).
Proof.
  unfold LandingController.compute_control. cbv zeta.
  destruct (LandingController.phase
              (LandingController.st
                 (LandingController.update_phase c (LandingController.altitude state) d)))
    eqn:E; cbn; rewrite E; split; reflexivity.
Qed.

(** Runs the chain of tests of [update_phase] on concrete numbers. *)
Ltac run_update_phase :=
  first [ rewrite (proj1 (compute_control_phase _ _ _ _))
        | rewrite (proj2 (compute_control_phase _ _ _ _)) ];
  unfold LandingController.update_phase; cbn;
  run_tests.

(** C2, as the code has it.  The phase after a control step, which is also
    the phase written in the command, is decided by the altitude, the
    distance to the threshold and the configured flare altitude alone:
    touchdown iff altitude <= 0.5; flare iff 0.5 < altitude < flare_altitude;
    glide_slope iff altitude > 0.5 and flare_altitude <= altitude < 200 and
    distance < 4000; approach in every other case.  With the default flare
    altitude of 20 m: altitude 300 and distance 5000 give approach, altitude
    100 and distance 3500 give glide_slope, altitude 10 gives flare and
    altitude 0.3 gives touchdown. *)
Theorem phase_decided_by_altitude_and_distance :
  (forall (c : LandingController.t) (state : LandingController.StateDict) (d dt : R),
     let r := LandingController.compute_control c state d dt in
     let p := LandingController.phase (LandingController.st (snd r)) in
     let a := LandingController.altitude state in
     let fa := LandingController.flare_altitude (LandingController.cfg c) in
     LandingController.control_phase (fst r) = p
     /\ (p = LandingController.touchdown <-> a <= 0.5)
     /\ (p = LandingController.flare <-> 0.5 < a < fa)
     /\ (p = LandingController.glide_slope <-> 0.5 < a /\ fa <= a < 200 /\ d < 4000)
     /\ (p = LandingController.approach <->
         ~ a <= 0.5 /\ ~ 0.5 < a < fa /\ ~ (0.5 < a /\ fa <= a < 200 /\ d < 4000)))
  /\ (forall (ac : AircraftModel.t) (v th q al d dt : R),
        let after a d :=
          LandingController.phase
            (LandingController.st
               (snd (LandingController.compute_control (LandingController.init ac)
                       {| LandingController.velocity := v;
                          LandingController.altitude := a;
                          LandingController.theta := th;
                          LandingController.q := q;
                          LandingController.alpha := al |} d dt))) in
        after 300 5000 = LandingController.approach
        /\ after 100 3500 = LandingController.glide_slope
        /\ after 10 d = LandingController.flare
        /\ after 0.3 d = LandingController.touchdown).
Proof.
  split.
  - intros c state d dt. cbv zeta.
    destruct (compute_control_phase c state d dt) as [Hp Hc].
    rewrite Hc, Hp.
    destruct (update_phase_selects c (LandingController.altitude state) d)
      as (Ht & Hf & Hg & Ha). cbv zeta in Ht, Hf, Hg, Ha.
    split; [reflexivity | ].
    split; [exact Ht | ]. split; [exact Hf | ]. split; [exact Hg | ].
    rewrite Ha. split.
    + intros (H1 & H2 & H3). repeat split; lra.
    + intros (H1 & H2 & H3). repeat split; lra.
  - intros ac v th q al d dt. cbv zeta.
    repeat split; run_update_phase.
Qed.

(** C2, as stated, fails for a flare altitude of at most 0.5 m: with
    [flare_altitude = 0.2], altitude 0.3 and distance 100 the stated condition
    of glide_slope holds while the phase is touchdown. *)
Lemma low_flare_altitude_selects_touchdown :
  LandingController.phase
    (LandingController.st
       (snd (LandingController.compute_control
               (LandingController.set_flare_altitude
                  (LandingController.init AircraftModel.init) 0.2)
               {| LandingController.velocity := 30.0;
                  LandingController.altitude := 0.3;
                  LandingController.theta := 0.0;
                  LandingController.q := 0.0;
                  LandingController.alpha := 0.0 |} 100 0.01)))
  = LandingController.touchdown
  /\ (LandingController.flare_altitude
        (LandingController.cfg
           (LandingController.set_flare_altitude
              (LandingController.init AircraftModel.init) 0.2)) <= 0.3 < 200
      /\ 100 < 4000).
Proof.
  split.
  - run_update_phase.
  - cbn. lra.
Qed.

(** ** Landing performance *)

Lemma final_state_last (front : list FlightSimulator.State) (s : FlightSimulator.State) :
  FlightSimulator.final_state (front ++ [s]) = Ok s.
Proof. unfold FlightSimulator.final_state. rewrite rev_app_distr. reflexivity. Qed.

Lemma final_state_empty : FlightSimulator.final_state [] = Raise IndexError.
Proof. reflexivity. Qed.

(** C7.  On a trajectory ending in the state [s], the report has
    [sqrt (u^2 + w^2)] of [s] as touchdown speed and [- w] as vertical rate,
    and its success flag is true exactly when [|rate| < 3.0] and
    [18 < speed < 35]; when [s] has h = 0, u = 25, w = 0 and theta = 0 the
    speed is 25, the rate 0 and the landing a success. *)
Theorem landing_performance_at_touchdown :
  forall (times : list R) (front : list FlightSimulator.State) (s : FlightSimulator.State)
         (controls : list LandingController.Control),
  exists p,
    FlightSimulator.evaluate_landing_performance times (front ++ [s]) controls = Ok p
    /\ FlightSimulator.touchdown_speed_ms p
       = sqrt (FlightSimulator.u s ^ 2 + FlightSimulator.w s ^ 2)
    /\ FlightSimulator.touchdown_vertical_rate_ms p = - FlightSimulator.w s
    /\ (FlightSimulator.landing_success p = true <->
        Rabs (FlightSimulator.touchdown_vertical_rate_ms p) < 3.0
        /\ 18 < FlightSimulator.touchdown_speed_ms p < 35)
    /\ (FlightSimulator.h s = 0 /\ FlightSimulator.u s = 25
        /\ FlightSimulator.w s = 0 /\ FlightSimulator.theta s = 0 ->
        FlightSimulator.touchdown_speed_ms p = 25.0
        /\ FlightSimulator.touchdown_vertical_rate_ms p = 0.0
        /\ FlightSimulator.landing_success p = true).
Proof.
  intros times front s controls.
  unfold FlightSimulator.evaluate_landing_performance.
  rewrite final_state_last. cbn [bind]. cbv zeta.
  eexists. split; [reflexivity | ].
  cbn [FlightSimulator.touchdown_speed_ms FlightSimulator.touchdown_vertical_rate_ms
       FlightSimulator.landing_success].
  split; [reflexivity | ]. split; [reflexivity | ].
  assert (Hiff : forall r v : R,
             (r <? 3.0) && (18 <? v) && (v <? 35) = true <-> r < 3.0 /\ 18 < v < 35).
  { intros r v. rewrite !andb_true_iff, !Rltb_true. tauto. }
  split; [apply Hiff | ].
  intros (_ & Hu & Hw & _). rewrite Hu, Hw.
  assert (Hsqrt : sqrt (25 ^ 2 + 0 ^ 2) = 25).
  { replace (25 ^ 2 + 0 ^ 2) with (25 ^ 2) by lra. apply sqrt_pow2. lra. }
  rewrite Hsqrt. split; [lra | ]. split; [lra | ].
  apply Hiff. rewrite Ropp_0, Rabs_R0. lra.
Qed.

Lemma glide_slope_errors_filter (states : list FlightSimulator.State)
  (controls : list LandingController.Control) :
  FlightSimulator.glide_slope_errors states controls
  = map FlightSimulator.glide_slope_sample (filter FlightSimulator.sampled (combine states controls)).
Proof.
  revert controls. induction states as [ | s states IH]; intros [ | c controls];
    try reflexivity.
  cbn [FlightSimulator.glide_slope_errors combine filter]. cbv zeta.
  unfold FlightSimulator.sampled at 1, FlightSimulator.recorded_glide_slope at 1. cbn [fst snd].
  destruct (LandingController.Phase_eqb _ _); cbn [andb].
  - destruct (0 <? _); cbn [map]; now rewrite IH.
  - apply IH.
Qed.

Lemma fold_left_Rmax_ge (l : list R) (x : R) : x <= fold_left Rmax l x.
Proof.
  revert x. induction l as [ | y l IH]; intros x; cbn.
  - lra.
  - eapply Rle_trans; [apply (Rmax_l x y) | apply IH].
Qed.

Lemma np_max_upper_bound (x : R) (l : list R) (e : R) :
  In e (x :: l) -> e <= np.max x l.
Proof.
  unfold np.max. revert x. induction l as [ | y l IH]; intros x [He | He]; cbn.
  - lra.
  - contradiction.
  - subst e. eapply Rle_trans; [apply (Rmax_l x y) | apply fold_left_Rmax_ge].
  - destruct He as [He | He].
    + subst e. eapply Rle_trans; [apply (Rmax_r x y) | apply fold_left_Rmax_ge].
    + apply IH. now right.
Qed.

Lemma np_max_attained (x : R) (l : list R) : In (np.max x l) (x :: l).
Proof.
  unfold np.max. revert x. induction l as [ | y l IH]; intros x; cbn.
  - now left.
  - destruct (IH (Rmax x y)) as [H | H].
    + rewrite <- H. unfold Rmax. destruct (Rle_dec x y); auto.
    + right. now right.
Qed.

(** C8, as the code has it.  The samples are taken at the steps that have a
    recorded command, whose recorded phase is glide_slope, and whose position
    is short of the fixed threshold ([3000 - x > 0]); each is
    [|h - (3000 - x) * tan (3 deg)|], whatever threshold the simulation was
    given.  The report holds their mean and their maximum, or 0 and 0 when
    there is none. *)
Theorem glide_slope_error_samples :
  forall (times : list R) (front : list FlightSimulator.State) (s : FlightSimulator.State)
         (controls : list LandingController.Control),
  exists p,
    FlightSimulator.evaluate_landing_performance times (front ++ [s]) controls = Ok p
    /\ FlightSimulator.glide_slope_errors (front ++ [s]) controls
       = map (fun step =>
                Rabs (FlightSimulator.h (fst step)
                      - (3000 - FlightSimulator.x (fst step)) * tan (np.deg2rad 3)))
           (filter (fun step =>
                      LandingController.Phase_eqb
                        (LandingController.control_phase (snd step))
                        LandingController.glide_slope
                      && (0 <? 3000 - FlightSimulator.x (fst step)))
              (combine (front ++ [s]) controls))
    /\ (FlightSimulator.glide_slope_errors (front ++ [s]) controls = [] ->
        FlightSimulator.mean_glide_slope_error_m p = 0
        /\ FlightSimulator.max_glide_slope_error_m p = 0)
    /\ (FlightSimulator.glide_slope_errors (front ++ [s]) controls <> [] ->
        FlightSimulator.mean_glide_slope_error_m p
        = fold_left Rplus (FlightSimulator.glide_slope_errors (front ++ [s]) controls) 0
          / INR (length (FlightSimulator.glide_slope_errors (front ++ [s]) controls))
        /\ In (FlightSimulator.max_glide_slope_error_m p)
             (FlightSimulator.glide_slope_errors (front ++ [s]) controls)
        /\ forall e, In e (FlightSimulator.glide_slope_errors (front ++ [s]) controls) ->
                     e <= FlightSimulator.max_glide_slope_error_m p).
Proof.
  intros times front s controls.
  unfold FlightSimulator.evaluate_landing_performance.
  rewrite final_state_last. cbn [bind]. cbv zeta.
  eexists. split; [reflexivity | ].
  cbn [FlightSimulator.mean_glide_slope_error_m FlightSimulator.max_glide_slope_error_m].
  split.
  - rewrite glide_slope_errors_filter.
    replace 3000 with 3000.0 by lra. replace 3 with 3.0 by lra. reflexivity.
  - destruct (FlightSimulator.glide_slope_errors (front ++ [s]) controls) as [ | e es].
    + split; [auto | intros N; now elim N].
    + split; [discriminate | intros _].
      split; [reflexivity | ]. split.
      * apply np_max_attained.
      * intros e'. apply np_max_upper_bound.
Qed.


(** ** Dictionaries keyed by mode names *)

Lemma Key_eqb_eq (k k' : StabilityAnalyzer.Key) :
  StabilityAnalyzer.Key_eqb k k' = true <-> k = k'.
Proof.
  destruct k, k'; cbn; split; intros H; try discriminate; try reflexivity.
  - apply Nat.eqb_eq in H. now subst.
  - inversion H. apply Nat.eqb_refl.
Qed.

Lemma Key_eqb_refl (k : StabilityAnalyzer.Key) : StabilityAnalyzer.Key_eqb k k = true.
Proof. now apply Key_eqb_eq. Qed.

Section DictFacts.
Context {V : Type}.
Implicit Types (d : list (StabilityAnalyzer.Key * V)) (k : StabilityAnalyzer.Key) (v : V).

Lemma dict_get_set_same d k v :
  dict.get StabilityAnalyzer.Key_eqb (dict.set StabilityAnalyzer.Key_eqb d k v) k = Some v.
Proof.
  induction d as [ | [k' v'] d IH]; cbn.
  - now rewrite Key_eqb_refl.
  - destruct (StabilityAnalyzer.Key_eqb k' k) eqn:E; cbn.
    + now rewrite Key_eqb_refl.
    + now rewrite E.
Qed.

Lemma dict_get_set_other d k k' v :
  k' <> k ->
  dict.get StabilityAnalyzer.Key_eqb (dict.set StabilityAnalyzer.Key_eqb d k' v) k
  = dict.get StabilityAnalyzer.Key_eqb d k.
Proof.
  intros Hne.
  assert (Hkk : StabilityAnalyzer.Key_eqb k' k = false).
  { destruct (StabilityAnalyzer.Key_eqb k' k) eqn:E; [ | reflexivity].
    apply Key_eqb_eq in E. contradiction. }
  induction d as [ | [k0 v0] d IH]; cbn.
  - now rewrite Hkk.
  - destruct (StabilityAnalyzer.Key_eqb k0 k') eqn:E; cbn.
    + apply Key_eqb_eq in E. subst k0. now rewrite Hkk.
    + destruct (StabilityAnalyzer.Key_eqb k0 k); [reflexivity | exact IH].
Qed.

Lemma numbered_set d n v :
  numbered d -> numbered (dict.set StabilityAnalyzer.Key_eqb d (StabilityAnalyzer.mode_ n) v).
Proof.
  unfold numbered. induction 1 as [ | [k0 v0] d Hk Hd IH]; cbn.
  - constructor; [now exists n | constructor].
  - destruct (StabilityAnalyzer.Key_eqb k0 _).
    + constructor; [now exists n | exact Hd].
    + constructor; [exact Hk | exact IH].
Qed.

Lemma numbered_get_alias d k :
  numbered d -> (forall n, k <> StabilityAnalyzer.mode_ n) ->
  dict.get StabilityAnalyzer.Key_eqb d k = None.
Proof.
  intros Hd Hk. induction Hd as [ | [k0 v0] d [n Hn] Hd IH]; cbn.
  - reflexivity.
  - cbn in Hn. subst k0.
    destruct (StabilityAnalyzer.Key_eqb (StabilityAnalyzer.mode_ n) k) eqn:E.
    + apply Key_eqb_eq in E. symmetry in E. now apply Hk in E.
    + exact IH.
Qed.

End DictFacts.

Lemma identify_modes_numbered (eigenvalues : list StabilityAnalyzer.complex) :
  forall (i : nat) (prev : option StabilityAnalyzer.complex) (modes : StabilityAnalyzer.Modes),
    numbered modes -> numbered (StabilityAnalyzer.identify_modes i prev eigenvalues modes).
Proof.
  induction eigenvalues as [ | eig rest IH]; intros i prev modes Hm; cbn.
  - exact Hm.
  - apply IH.
    destruct (StabilityAnalyzer.isreal eig); [now apply numbered_set | ].
    destruct (match prev with Some p => _ | None => false end);
      [exact Hm | now apply numbered_set].
Qed.

(** ** The descending stable sort *)

Section SortedReverse.
Context {A : Type} (key : A -> R).

Lemma insert_desc_perm (x : A) (l : list A) :
  Permutation (StabilityAnalyzer.insert_desc key x l) (x :: l).
Proof.
  induction l as [ | y l IH]; cbn.
  - reflexivity.
  - destruct (key x <? key y).
    + rewrite IH. apply perm_swap.
    + reflexivity.
Qed.

Lemma sorted_reverse_perm (l : list A) :
  Permutation (StabilityAnalyzer.sorted_reverse key l) l.
Proof.
  induction l as [ | x l IH]; cbn.
  - reflexivity.
  - rewrite insert_desc_perm. now constructor.
Qed.

Lemma insert_desc_sorted (x : A) (l : list A) :
  StronglySorted (desc key) l -> StronglySorted (desc key) (StabilityAnalyzer.insert_desc key x l).
Proof.
  induction 1 as [ | y l Hl IH Hy]; cbn.
  - constructor; constructor.
  - destruct (key x <? key y) eqn:E; rbool.
    + constructor; [exact IH | ].
      rewrite Forall_forall. intros z Hz.
      apply (Permutation_in _ (insert_desc_perm x l)) in Hz.
      destruct Hz as [Hz | Hz].
      * subst z. unfold desc. lra.
      * rewrite Forall_forall in Hy. now apply Hy.
    + constructor; [now constructor | ].
      constructor; [exact E | ].
      rewrite Forall_forall in Hy |- *. intros z Hz.
      unfold desc in *. specialize (Hy z Hz). lra.
Qed.

Lemma sorted_reverse_sorted (l : list A) :
  StronglySorted (desc key) (StabilityAnalyzer.sorted_reverse key l).
Proof.
  induction l as [ | x l IH]; cbn.
  - constructor.
  - now apply insert_desc_sorted.
Qed.

Lemma sorted_reverse_length (l : list A) :
  length (StabilityAnalyzer.sorted_reverse key l) = length l.
Proof. apply Permutation_length, sorted_reverse_perm. Qed.

(** The two first elements of the sorted list, when there are two. *)
Lemma sorted_reverse_two (l : list A) :
  (2 <= length l)%nat ->
  exists a b rest,
    StabilityAnalyzer.sorted_reverse key l = a :: b :: rest
    /\ Permutation l (a :: b :: rest)
    /\ (forall m, In m (b :: rest) -> key m <= key a)
    /\ (forall m, In m rest -> key m <= key b).
Proof.
  intros Hlen.
  pose proof (sorted_reverse_perm l) as Hperm.
  pose proof (sorted_reverse_sorted l) as Hsorted.
  pose proof (sorted_reverse_length l) as Hl.
  destruct (StabilityAnalyzer.sorted_reverse key l) as [ | a [ | b rest]];
    cbn in Hl; try lia.
  exists a, b, rest. split; [reflexivity | ]. split; [now symmetry | ].
  inversion Hsorted as [ | ? ? Htail Ha]; subst.
  inversion Htail as [ | ? ? _ Hb]; subst.
  rewrite Forall_forall in Ha, Hb. split; assumption.
Qed.

End SortedReverse.

(** ** Stability modes *)

Lemma identify_specific_modes_aliases (modes : StabilityAnalyzer.Modes) :
  numbered modes ->
  ((2 <= length (StabilityAnalyzer.complex_modes modes))%nat ->
   exists sp ph rest,
     dict.get StabilityAnalyzer.Key_eqb (StabilityAnalyzer.identify_specific_modes modes)
       StabilityAnalyzer.short_period = Some (StabilityAnalyzer.Complex sp)
     /\ dict.get StabilityAnalyzer.Key_eqb (StabilityAnalyzer.identify_specific_modes modes)
          StabilityAnalyzer.phugoid = Some (StabilityAnalyzer.Complex ph)
     /\ Permutation (map snd (StabilityAnalyzer.complex_modes modes)) (sp :: ph :: rest)
     /\ (forall m, In m (ph :: rest) ->
           StabilityAnalyzer.natural_frequency m <= StabilityAnalyzer.natural_frequency sp)
     /\ (forall m, In m rest ->
           StabilityAnalyzer.natural_frequency m <= StabilityAnalyzer.natural_frequency ph))
  /\ ((length (StabilityAnalyzer.complex_modes modes) < 2)%nat ->
      dict.get StabilityAnalyzer.Key_eqb (StabilityAnalyzer.identify_specific_modes modes)
        StabilityAnalyzer.short_period = None
      /\ dict.get StabilityAnalyzer.Key_eqb (StabilityAnalyzer.identify_specific_modes modes)
           StabilityAnalyzer.phugoid = None).
Proof.
  intros Hnum. unfold StabilityAnalyzer.identify_specific_modes. cbv zeta.
  destruct (Nat.leb_spec 2 (length (StabilityAnalyzer.complex_modes modes))) as [Hle | Hlt].
  - split; [intros _ | lia].
    destruct (sorted_reverse_two
                (fun x : StabilityAnalyzer.Key * StabilityAnalyzer.ComplexMode =>
                   StabilityAnalyzer.natural_frequency (snd x))
                (StabilityAnalyzer.complex_modes modes) Hle)
      as (a & b & rest & Heq & Hperm & Ha & Hb).
    rewrite Heq. exists (snd a), (snd b), (map snd rest).
    split; [ | split; [ | split; [ | split]]].
    + rewrite dict_get_set_other by discriminate. apply dict_get_set_same.
    + apply dict_get_set_same.
    + apply (Permutation_map snd) in Hperm. exact Hperm.
    + intros m Hm. change (snd b :: map snd rest) with (map snd (b :: rest)) in Hm.
      apply in_map_iff in Hm. destruct Hm as (x & <- & Hx). now apply Ha.
    + intros m Hm. apply in_map_iff in Hm. destruct Hm as (x & <- & Hx). now apply Hb.
  - split; [lia | intros _].
    split; apply numbered_get_alias; try exact Hnum; discriminate.
Qed.

Lemma get_longitudinal_matrices_ok (ac : AircraftModel.t) (trim : AircraftModel.TrimState) :
  AircraftModel.mass ac <> 0 -> AircraftModel.velocity trim <> 0 ->
  AircraftModel.Iyy ac <> 0 ->
  exists A B, AircraftModel.get_longitudinal_matrices ac trim = Ok (A, B).
Proof.
  intros Hm HV HI. unfold AircraftModel.get_longitudinal_matrices. cbv zeta.
  assert (HmV : AircraftModel.mass ac * AircraftModel.velocity trim <> 0)
    by (apply Rmult_integral_contrapositive_currified; assumption).
  assert (HIV : 2 * AircraftModel.Iyy ac * AircraftModel.velocity trim <> 0).
  { apply Rmult_integral_contrapositive_currified; [ | assumption].
    apply Rmult_integral_contrapositive_currified; [lra | assumption]. }
  repeat (rewrite pydiv_ok by assumption; cbn [bind]).
  eexists. eexists. reflexivity.
Qed.

Lemma get_longitudinal_matrices_zero_velocity (ac : AircraftModel.t)
  (trim : AircraftModel.TrimState) :
  AircraftModel.velocity trim = 0 ->
  AircraftModel.get_longitudinal_matrices ac trim = Raise ZeroDivisionError.
Proof.
  intros HV. unfold AircraftModel.get_longitudinal_matrices. cbv zeta.
  rewrite HV, Rmult_0_r, pydiv_zero. reflexivity.
Qed.

(** The analysis returns when the linearization does. *)
Lemma analyze_returns (linalg_eig : list (list R) -> list StabilityAnalyzer.complex)
  (ac : AircraftModel.t) (trim : AircraftModel.TrimState) (modes : StabilityAnalyzer.Modes) :
  StabilityAnalyzer.analyze_longitudinal_stability linalg_eig ac trim = Ok modes <->
  exists A B,
    AircraftModel.get_longitudinal_matrices ac trim = Ok (A, B)
    /\ modes = StabilityAnalyzer.identify_specific_modes
                 (StabilityAnalyzer.identify_modes 0 None
                    (StabilityAnalyzer.sort_by_real_part (linalg_eig A)) []).
Proof.
  unfold StabilityAnalyzer.analyze_longitudinal_stability.
  destruct (AircraftModel.get_longitudinal_matrices ac trim) as [[A B] | e]; cbn [bind].
  - split.
    + intros H. inversion H. now exists A, B.
    + intros (A' & B' & HAB & ->). inversion HAB. reflexivity.
  - split; [discriminate | intros (A & B & HAB & _); discriminate].
Qed.


Lemma numbered_nil : numbered (@nil (StabilityAnalyzer.Key * StabilityAnalyzer.Mode)).
Proof. constructor. Qed.

(** The analysis of the typical spectrum, for the shipped aircraft. *)
Lemma analysis_of_typical_modes :
  StabilityAnalyzer.analyze_longitudinal_stability (fun _ => example_eigenvalues)
    AircraftModel.init level_trim
  = Ok typical_modes.
Proof.
  destruct (get_longitudinal_matrices_ok AircraftModel.init level_trim)
    as (A & B & HAB); try (cbn; lra).
  apply analyze_returns. now exists A, B.
Qed.



(** ** Handling qualities *)

Lemma short_period_level_bands (z : R) :
  let level := StabilityAnalyzer.short_period_level z in
  (level = 1%nat <-> 0.35 <= z <= 1.30)
  /\ (level = 2%nat <-> ~ 0.35 <= z <= 1.30 /\ 0.25 <= z <= 2.00)
  /\ (level = 3%nat <-> ~ 0.35 <= z <= 1.30 /\ ~ 0.25 <= z <= 2.00 /\ 0.15 <= z)
  /\ (level = 4%nat <-> ~ 0.35 <= z <= 1.30 /\ ~ 0.25 <= z <= 2.00 /\ ~ 0.15 <= z).
Proof.
  cbv zeta. unfold StabilityAnalyzer.short_period_level.
  destruct ((0.35 <=? z) && (z <=? 1.30)) eqn:E1.
  { rbool. repeat split; intros; try discriminate; try lra. }
  destruct ((0.25 <=? z) && (z <=? 2.00)) eqn:E2.
  { rbool. destruct E1; rbool; repeat split; intros; try discriminate; try lra. }
  destruct (0.15 <=? z) eqn:E3.
  - rbool. destruct E1, E2; rbool; repeat split; intros; try discriminate; try lra.
  - rbool. destruct E1, E2; rbool; repeat split; intros; try discriminate; try lra.
Qed.

Lemma time_to_double_gt (eigenvalue : StabilityAnalyzer.complex) :
  ExtR_gtb (StabilityAnalyzer.time_to_double eigenvalue) 55 = true
  <-> time_to_double_exceeds_55 eigenvalue.
Proof.
  unfold StabilityAnalyzer.time_to_double, time_to_double_exceeds_55.
  destruct (Rabs (StabilityAnalyzer.real eigenvalue) =? 0) eqn:E; rbool; cbn.
  - tauto.
  - rewrite Rltb_true. tauto.
Qed.

Lemma phugoid_level_bands (z : R) (eigenvalue : StabilityAnalyzer.complex) :
  let level := StabilityAnalyzer.phugoid_level z eigenvalue in
  (level = 1%nat <-> 0.04 <= z)
  /\ (level = 2%nat <-> ~ 0.04 <= z /\ 0 < z)
  /\ (level = 3%nat <-> ~ 0.04 <= z /\ ~ 0 < z /\ time_to_double_exceeds_55 eigenvalue)
  /\ (level = 4%nat <-> ~ 0.04 <= z /\ ~ 0 < z /\ ~ time_to_double_exceeds_55 eigenvalue).
Proof.
  cbv zeta. unfold StabilityAnalyzer.phugoid_level. cbv zeta.
  destruct (0.04 <=? z) eqn:E1.
  { rbool. repeat split; intros; try discriminate; try lra. }
  destruct (0 <? z) eqn:E2.
  { rbool. repeat split; intros; try discriminate; try lra. }
  pose proof (time_to_double_gt eigenvalue) as Ht.
  destruct (ExtR_gtb (StabilityAnalyzer.time_to_double eigenvalue) 55) eqn:E3; rbool.
  - assert (Hx : time_to_double_exceeds_55 eigenvalue) by now apply Ht.
    repeat split; intros; try discriminate; try lra; try assumption; tauto.
  - assert (Hx : ~ time_to_double_exceeds_55 eigenvalue).
    { intros H. apply Ht in H. discriminate. }
    repeat split; intros; try discriminate; try lra; try assumption; tauto.
Qed.

(** The aliases of the analysis are absent together or present together,
    and then they are complex modes. *)
Lemma analyze_aliases_present_or_absent
  (linalg_eig : list (list R) -> list StabilityAnalyzer.complex)
  (ac : AircraftModel.t) (trim : AircraftModel.TrimState) (modes : StabilityAnalyzer.Modes) :
  StabilityAnalyzer.analyze_longitudinal_stability linalg_eig ac trim = Ok modes ->
  (dict.get StabilityAnalyzer.Key_eqb modes StabilityAnalyzer.short_period = None
   /\ dict.get StabilityAnalyzer.Key_eqb modes StabilityAnalyzer.phugoid = None)
  \/ (exists sp ph,
        dict.get StabilityAnalyzer.Key_eqb modes StabilityAnalyzer.short_period
        = Some (StabilityAnalyzer.Complex sp)
        /\ dict.get StabilityAnalyzer.Key_eqb modes StabilityAnalyzer.phugoid
           = Some (StabilityAnalyzer.Complex ph)).
Proof.
  intros Hrun. apply analyze_returns in Hrun. destruct Hrun as (A & B & _ & ->).
  set (base := StabilityAnalyzer.identify_modes 0 None _ []).
  assert (Hnum : numbered base) by (apply identify_modes_numbered, numbered_nil).
  destruct (identify_specific_modes_aliases base Hnum) as [Htwo Hfew].
  destruct (le_lt_dec 2 (length (StabilityAnalyzer.complex_modes base))) as [Hle | Hlt].
  - right. destruct (Htwo Hle) as (sp & ph & _ & Hsp & Hph & _). now exists sp, ph.
  - left. now apply Hfew.
Qed.

(** C6.  When the analysis returns, [evaluate_handling_qualities] returns a
    dictionary.  It has an entry for short_period exactly when the analysis
    has that alias, with level 1
    iff the damping ratio z is in [0.35, 1.30], else 2 iff z is in
    [0.25, 2.00], else 3 iff z >= 0.15, else 4; and an entry for phugoid exactly
    when the analysis has that alias, with level 1 iff z >= 0.04, else 2 iff
    z > 0, else 3 iff the time to double [ln 2 / |Re lambda|] exceeds 55 s, else
    4.  Each entry is marked acceptable iff its level is at most 3. *)
Theorem handling_quality_levels :
  forall (linalg_eig : list (list R) -> list StabilityAnalyzer.complex)
         (ac : AircraftModel.t) (trim : AircraftModel.TrimState)
         (modes : StabilityAnalyzer.Modes),
    StabilityAnalyzer.analyze_longitudinal_stability linalg_eig ac trim = Ok modes ->
    exists hq,
      StabilityAnalyzer.evaluate_handling_qualities linalg_eig ac trim = Ok hq
      /\ match dict.get StabilityAnalyzer.Key_eqb modes StabilityAnalyzer.short_period with
         | None => dict.get StabilityAnalyzer.Key_eqb hq StabilityAnalyzer.short_period = None
         | Some m =>
             exists sp level,
               m = StabilityAnalyzer.Complex sp
               /\ dict.get StabilityAnalyzer.Key_eqb hq StabilityAnalyzer.short_period
                  = Some (StabilityAnalyzer.ShortPeriodAssessment
                            (StabilityAnalyzer.damping_ratio sp)
                            (StabilityAnalyzer.natural_frequency sp)
                            level (level <=? 3)%nat)
               /\ (level = 1%nat <-> 0.35 <= StabilityAnalyzer.damping_ratio sp <= 1.30)
               /\ (level = 2%nat <->
                   ~ 0.35 <= StabilityAnalyzer.damping_ratio sp <= 1.30
                   /\ 0.25 <= StabilityAnalyzer.damping_ratio sp <= 2.00)
               /\ (level = 3%nat <->
                   ~ 0.35 <= StabilityAnalyzer.damping_ratio sp <= 1.30
                   /\ ~ 0.25 <= StabilityAnalyzer.damping_ratio sp <= 2.00
                   /\ 0.15 <= StabilityAnalyzer.damping_ratio sp)
               /\ (level = 4%nat <->
                   ~ 0.35 <= StabilityAnalyzer.damping_ratio sp <= 1.30
                   /\ ~ 0.25 <= StabilityAnalyzer.damping_ratio sp <= 2.00
                   /\ ~ 0.15 <= StabilityAnalyzer.damping_ratio sp)
         end
      /\ match dict.get StabilityAnalyzer.Key_eqb modes StabilityAnalyzer.phugoid with
         | None => dict.get StabilityAnalyzer.Key_eqb hq StabilityAnalyzer.phugoid = None
         | Some m =>
             exists ph level,
               m = StabilityAnalyzer.Complex ph
               /\ dict.get StabilityAnalyzer.Key_eqb hq StabilityAnalyzer.phugoid
                  = Some (StabilityAnalyzer.PhugoidAssessment
                            (StabilityAnalyzer.damping_ratio ph)
                            (StabilityAnalyzer.period ph)
                            level (level <=? 3)%nat)
               /\ (level = 1%nat <-> 0.04 <= StabilityAnalyzer.damping_ratio ph)
               /\ (level = 2%nat <->
                   ~ 0.04 <= StabilityAnalyzer.damping_ratio ph
                   /\ 0 < StabilityAnalyzer.damping_ratio ph)
               /\ (level = 3%nat <->
                   ~ 0.04 <= StabilityAnalyzer.damping_ratio ph
                   /\ ~ 0 < StabilityAnalyzer.damping_ratio ph
                   /\ time_to_double_exceeds_55 (StabilityAnalyzer.eigenvalue ph))
               /\ (level = 4%nat <->
                   ~ 0.04 <= StabilityAnalyzer.damping_ratio ph
                   /\ ~ 0 < StabilityAnalyzer.damping_ratio ph
                   /\ ~ time_to_double_exceeds_55 (StabilityAnalyzer.eigenvalue ph))
         end.
Proof.
  intros linalg_eig ac trim modes Hrun.
  unfold StabilityAnalyzer.evaluate_handling_qualities. rewrite Hrun. cbn [bind]. cbv zeta.
  destruct (analyze_aliases_present_or_absent linalg_eig ac trim modes Hrun)
    as [[Hsp Hph] | (sp & ph & Hsp & Hph)]; rewrite Hsp, Hph;
    cbn [bind]; eexists; (split; [reflexivity | ]).
  - split; reflexivity.
  - split.
    + exists sp, (StabilityAnalyzer.short_period_level (StabilityAnalyzer.damping_ratio sp)).
      split; [reflexivity | ]. split; [reflexivity | ].
      apply short_period_level_bands.
    + exists ph, (StabilityAnalyzer.phugoid_level (StabilityAnalyzer.damping_ratio ph)
                    (StabilityAnalyzer.eigenvalue ph)).
      split; [reflexivity | ]. split; [reflexivity | ].
      apply phugoid_level_bands.
Qed.


(** The assessment of the typical spectrum, analysed for the shipped
    aircraft. *)
Lemma handling_quality_levels_witness :
  exists hq,
      StabilityAnalyzer.evaluate_handling_qualities (fun _ => example_eigenvalues) AircraftModel.init level_trim = Ok hq
      /\ match dict.get StabilityAnalyzer.Key_eqb typical_modes StabilityAnalyzer.short_period with
         | None => dict.get StabilityAnalyzer.Key_eqb hq StabilityAnalyzer.short_period = None
         | Some m =>
             exists sp level,
               m = StabilityAnalyzer.Complex sp
               /\ dict.get StabilityAnalyzer.Key_eqb hq StabilityAnalyzer.short_period
                  = Some (StabilityAnalyzer.ShortPeriodAssessment
                            (StabilityAnalyzer.damping_ratio sp)
                            (StabilityAnalyzer.natural_frequency sp)
                            level (level <=? 3)%nat)
               /\ (level = 1%nat <-> 0.35 <= StabilityAnalyzer.damping_ratio sp <= 1.30)
               /\ (level = 2%nat <->
                   ~ 0.35 <= StabilityAnalyzer.damping_ratio sp <= 1.30
                   /\ 0.25 <= StabilityAnalyzer.damping_ratio sp <= 2.00)
               /\ (level = 3%nat <->
                   ~ 0.35 <= StabilityAnalyzer.damping_ratio sp <= 1.30
                   /\ ~ 0.25 <= StabilityAnalyzer.damping_ratio sp <= 2.00
                   /\ 0.15 <= StabilityAnalyzer.damping_ratio sp)
               /\ (level = 4%nat <->
                   ~ 0.35 <= StabilityAnalyzer.damping_ratio sp <= 1.30
                   /\ ~ 0.25 <= StabilityAnalyzer.damping_ratio sp <= 2.00
                   /\ ~ 0.15 <= StabilityAnalyzer.damping_ratio sp)
         end
      /\ match dict.get StabilityAnalyzer.Key_eqb typical_modes StabilityAnalyzer.phugoid with
         | None => dict.get StabilityAnalyzer.Key_eqb hq StabilityAnalyzer.phugoid = None
         | Some m =>
             exists ph level,
               m = StabilityAnalyzer.Complex ph
               /\ dict.get StabilityAnalyzer.Key_eqb hq StabilityAnalyzer.phugoid
                  = Some (StabilityAnalyzer.PhugoidAssessment
                            (StabilityAnalyzer.damping_ratio ph)
                            (StabilityAnalyzer.period ph)
                            level (level <=? 3)%nat)
               /\ (level = 1%nat <-> 0.04 <= StabilityAnalyzer.damping_ratio ph)
               /\ (level = 2%nat <->
                   ~ 0.04 <= StabilityAnalyzer.damping_ratio ph
                   /\ 0 < StabilityAnalyzer.damping_ratio ph)
               /\ (level = 3%nat <->
                   ~ 0.04 <= StabilityAnalyzer.damping_ratio ph
                   /\ ~ 0 < StabilityAnalyzer.damping_ratio ph
                   /\ time_to_double_exceeds_55 (StabilityAnalyzer.eigenvalue ph))
               /\ (level = 4%nat <->
                   ~ 0.04 <= StabilityAnalyzer.damping_ratio ph
                   /\ ~ 0 < StabilityAnalyzer.damping_ratio ph
                   /\ ~ time_to_double_exceeds_55 (StabilityAnalyzer.eigenvalue ph))
         end.
Proof.
  apply (handling_quality_levels (fun _ => example_eigenvalues) AircraftModel.init
           level_trim typical_modes).
  exact analysis_of_typical_modes.
Defined.

(** ** Simulation *)

Lemma reset_state (c : LandingController.t) :
  LandingController.reset c
  = {| LandingController.cfg := LandingController.cfg c;
       LandingController.st := LandingController.initial_state |}.
Proof. reflexivity. Qed.

Lemma reset_same_config (c1 c2 : LandingController.t) :
  LandingController.cfg c1 = LandingController.cfg c2 ->
  LandingController.reset c1 = LandingController.reset c2.
Proof. intros H. rewrite !reset_state. now rewrite H. Qed.

Lemma compute_control_cfg (c : LandingController.t) (state : LandingController.StateDict)
  (d dt : R) :
  LandingController.cfg (snd (LandingController.compute_control c state d dt))
  = LandingController.cfg c.
Proof.
  rewrite <- (update_phase_cfg c (LandingController.altitude state) d).
  unfold LandingController.compute_control. cbv zeta.
  destruct (LandingController.phase
              (LandingController.st
                 (LandingController.update_phase c (LandingController.altitude state) d)));
    reflexivity.
Qed.

(** One iteration of the loop, when its condition holds and fuel is left. *)
Lemma landing_loop_iteration (fuel : nat) (ac : AircraftModel.t) (xtd duration dt : R)
  (c : LandingController.t) (t : R) (s : FlightSimulator.State)
  (hist : FlightSimulator.Histories) :
  (t <? duration) && (0 <? FlightSimulator.h s) = true ->
  let control :=
    fst (LandingController.compute_control c (FlightSimulator.current_state s)
           (xtd - FlightSimulator.x s) dt) in
  let c' :=
    snd (LandingController.compute_control c (FlightSimulator.current_state s)
           (xtd - FlightSimulator.x s) dt) in
  let s' := FlightSimulator.rk4_step ac s t dt control in
  let hist' :=
    {| FlightSimulator.time_history := FlightSimulator.time_history hist ++ [t + dt];
       FlightSimulator.state_history := FlightSimulator.state_history hist ++ [s'];
       FlightSimulator.control_history :=
         FlightSimulator.control_history hist ++ [control] |} in
  FlightSimulator.landing_loop (S fuel) ac xtd duration dt c t s hist
  = if FlightSimulator.h s' <=? 0 then Some (hist', c')
    else FlightSimulator.landing_loop fuel ac xtd duration dt c' (t + dt) s' hist'.
Proof.
  intros Hcond. cbv zeta. cbn [FlightSimulator.landing_loop]. rewrite Hcond.
  destruct (LandingController.compute_control c (FlightSimulator.current_state s)
              (xtd - FlightSimulator.x s) dt) as [control c'].
  reflexivity.
Qed.

Lemma landing_loop_exit (fuel : nat) (ac : AircraftModel.t) (xtd duration dt : R)
  (c : LandingController.t) (t : R) (s : FlightSimulator.State)
  (hist : FlightSimulator.Histories) :
  (t <? duration) && (0 <? FlightSimulator.h s) = false ->
  FlightSimulator.landing_loop fuel ac xtd duration dt c t s hist = Some (hist, c).
Proof.
  intros Hcond. destruct fuel; cbn [FlightSimulator.landing_loop]; now rewrite Hcond.
Qed.

Lemma landing_loop_out_of_fuel (ac : AircraftModel.t) (xtd duration dt : R)
  (c : LandingController.t) (t : R) (s : FlightSimulator.State)
  (hist : FlightSimulator.Histories) :
  (t <? duration) && (0 <? FlightSimulator.h s) = true ->
  FlightSimulator.landing_loop 0 ac xtd duration dt c t s hist = None.
Proof. intros Hcond. cbn [FlightSimulator.landing_loop]. now rewrite Hcond. Qed.

(** What a finished loop has appended to the histories. *)
Lemma landing_loop_recorded (ac : AircraftModel.t) (xtd duration dt : R) (fuel : nat) :
  forall (c : LandingController.t) (t : R) (s : FlightSimulator.State)
         (hist hist' : FlightSimulator.Histories) (c' : LandingController.t),
    FlightSimulator.landing_loop fuel ac xtd duration dt c t s hist = Some (hist', c') ->
    exists ts ss cs,
      FlightSimulator.time_history hist' = FlightSimulator.time_history hist ++ ts
      /\ FlightSimulator.state_history hist' = FlightSimulator.state_history hist ++ ss
      /\ FlightSimulator.control_history hist' = FlightSimulator.control_history hist ++ cs
      /\ recorded ac xtd dt c t s ts ss cs
      /\ LandingController.cfg c' = LandingController.cfg c.
Proof.
  induction fuel as [ | fuel IH]; intros c t s hist hist' c' Hrun;
    destruct ((t <? duration) && (0 <? FlightSimulator.h s)) eqn:Hcond.
  - rewrite landing_loop_out_of_fuel in Hrun by exact Hcond. discriminate.
  - rewrite landing_loop_exit in Hrun by exact Hcond. inversion Hrun; subst.
    exists [], [], []. rewrite !app_nil_r. repeat split. constructor.
  - rewrite landing_loop_iteration in Hrun by exact Hcond. cbv zeta in Hrun.
    destruct (FlightSimulator.h _ <=? 0).
    + inversion Hrun; subst. cbn.
      eexists [_], [_], [_]. repeat split.
      * constructor. constructor.
      * apply compute_control_cfg.
    + apply IH in Hrun. destruct Hrun as (ts & ss & cs & Ht & Hs & Hc & Hrec & Hcfg).
      cbn in Ht, Hs, Hc. rewrite <- app_assoc in Ht, Hs, Hc.
      eexists (_ :: ts), (_ :: ss), (_ :: cs). repeat split; try eassumption.
      * constructor. exact Hrec.
      * rewrite Hcfg. apply compute_control_cfg.
  - rewrite landing_loop_exit in Hrun by exact Hcond. inversion Hrun; subst.
    exists [], [], []. rewrite !app_nil_r. repeat split. constructor.
Qed.

Lemma recorded_lengths (ac : AircraftModel.t) (xtd dt : R) (c : LandingController.t) (t : R)
  (s : FlightSimulator.State) (ts : list R) (ss : list FlightSimulator.State)
  (cs : list LandingController.Control) :
  recorded ac xtd dt c t s ts ss cs -> length ts = length cs /\ length ss = length cs.
Proof.
  induction 1 as [ | c t s ts ss cs _ [IHt IHs]]; cbn; [split; reflexivity | ].
  now rewrite IHt, IHs.
Qed.

(** Iteration [i] of a recorded run: its command comes from the state
    recorded at index [i], and the state and time recorded at index [i + 1]
    come from that state, that time and that command. *)
Lemma recorded_nth (ac : AircraftModel.t) (xtd dt : R) (c : LandingController.t) (t : R)
  (s : FlightSimulator.State) (ts : list R) (ss : list FlightSimulator.State)
  (cs : list LandingController.Control) :
  recorded ac xtd dt c t s ts ss cs ->
  forall i, (i < length cs)%nat ->
    exists si ti,
      nth_error (s :: ss) i = Some si
      /\ nth_error (t :: ts) i = Some ti
      /\ nth_error cs i
         = Some (fst (LandingController.compute_control
                        (controller_at xtd dt c (s :: ss) i)
                        (FlightSimulator.current_state si)
                        (xtd - FlightSimulator.x si) dt))
      /\ nth_error (s :: ss) (S i)
         = Some (FlightSimulator.rk4_step ac si ti dt
                   (fst (LandingController.compute_control
                           (controller_at xtd dt c (s :: ss) i)
                           (FlightSimulator.current_state si)
                           (xtd - FlightSimulator.x si) dt)))
      /\ nth_error (t :: ts) (S i) = Some (ti + dt).
Proof.
  induction 1 as [ | c t s ts ss cs Hrec IH]; intros i Hi; cbn in Hi; [lia | ].
  destruct i as [ | i].
  - exists s, t. cbn. repeat split.
  - destruct (IH i) as (si & ti & Hs & Ht & Hc & Hs' & Ht'); [lia | ].
    exists si, ti. cbn [nth_error controller_at].
    cbn [nth_error] in Hs, Ht, Hs', Ht'. repeat split; assumption.
Qed.

(** C10.  When [simulate_landing] returns, the time and state histories have
    one more entry than the control history; their first entries are time 0
    and the initial state, which has no command of its own; and for every
    [i] below the number of commands, command [i] is the one [compute_control]
    gave on the state recorded at index [i] (with the controller as the
    iterations before left it), from which the state and time at index
    [i + 1] were integrated. *)
Theorem simulate_landing_histories :
  forall (fuel : nat) (ac : AircraftModel.t) (c : LandingController.t)
         (initial_state : FlightSimulator.InitialState) (duration dt : R)
         (hist : FlightSimulator.Histories) (c' : LandingController.t),
    FlightSimulator.simulate_landing fuel ac c initial_state duration dt = Some (hist, c') ->
    exists N : nat,
      length (FlightSimulator.time_history hist) = S N
      /\ length (FlightSimulator.state_history hist) = S N
      /\ length (FlightSimulator.control_history hist) = N
      /\ nth_error (FlightSimulator.time_history hist) 0 = Some 0
      /\ nth_error (FlightSimulator.state_history hist) 0 = Some (start_state initial_state)
      /\ forall i, (i < N)%nat ->
           exists si ti,
             nth_error (FlightSimulator.state_history hist) i = Some si
             /\ nth_error (FlightSimulator.time_history hist) i = Some ti
             /\ nth_error (FlightSimulator.control_history hist) i
                = Some (fst (LandingController.compute_control
                               (controller_at (threshold initial_state) dt
                                  (LandingController.reset c)
                                  (FlightSimulator.state_history hist) i)
                               (FlightSimulator.current_state si)
                               (threshold initial_state - FlightSimulator.x si) dt))
             /\ nth_error (FlightSimulator.state_history hist) (S i)
                = Some (FlightSimulator.rk4_step ac si ti dt
                          (fst (LandingController.compute_control
                                  (controller_at (threshold initial_state) dt
                                     (LandingController.reset c)
                                     (FlightSimulator.state_history hist) i)
                                  (FlightSimulator.current_state si)
                                  (threshold initial_state - FlightSimulator.x si) dt)))
             /\ nth_error (FlightSimulator.time_history hist) (S i) = Some (ti + dt).
Proof.
  intros fuel ac c initial_state duration dt hist c' Hrun.
  unfold FlightSimulator.simulate_landing in Hrun. cbv zeta in Hrun.
  apply landing_loop_recorded in Hrun.
  destruct Hrun as (ts & ss & cs & Ht & Hs & Hc & Hrec & _).
  cbn in Ht, Hs, Hc. fold (start_state initial_state) in Hs, Hrec.
  fold (threshold initial_state) in Hrec.
  destruct (recorded_lengths _ _ _ _ _ _ _ _ _ Hrec) as [Hlt Hls].
  exists (length cs). rewrite Ht, Hs, Hc. cbn [length nth_error].
  repeat split; try congruence.
  intros i Hi. exact (recorded_nth _ _ _ _ _ _ _ _ _ Hrec i Hi).
Qed.

(** *** Termination: with a positive step the loop ends, and more fuel does
    not change what it returns *)

Lemma landing_loop_enough_fuel (ac : AircraftModel.t) (xtd duration dt : R) :
  dt > 0 ->
  forall (fuel : nat) (c : LandingController.t) (t : R) (s : FlightSimulator.State)
         (hist : FlightSimulator.Histories),
    duration - t <= INR fuel * dt ->
    exists r, FlightSimulator.landing_loop fuel ac xtd duration dt c t s hist = Some r.
Proof.
  intros Hdt. induction fuel as [ | fuel IH]; intros c t s hist Hleft;
    destruct ((t <? duration) && (0 <? FlightSimulator.h s)) eqn:Hcond;
    try (rewrite landing_loop_exit by exact Hcond; eexists; reflexivity).
  - rbool. cbn in Hleft. lra.
  - rewrite landing_loop_iteration by exact Hcond. cbv zeta.
    destruct (FlightSimulator.h _ <=? 0); [eexists; reflexivity | ].
    apply IH. rewrite S_INR in Hleft. lra.
Qed.

Lemma enough_iterations (duration dt : R) :
  dt > 0 -> exists n : nat, duration <= INR n * dt.
Proof.
  intros Hdt. destruct (archimed (duration / dt)) as [Hup _].
  exists (Z.to_nat (up (duration / dt))).
  assert (Hq : duration = duration / dt * dt) by (field; lra).
  rewrite Hq at 1. apply Rmult_le_compat_r; [lra | ].
  destruct (Z_lt_le_dec (up (duration / dt)) 0) as [Hneg | Hpos].
  - replace (Z.to_nat (up (duration / dt))) with 0%nat by lia.
    apply IZR_lt in Hneg. cbn [INR]. lra.
  - rewrite INR_IZR_INZ, Z2Nat.id by exact Hpos. lra.
Qed.

Lemma simulate_landing_terminates (ac : AircraftModel.t) (c : LandingController.t)
  (initial_state : FlightSimulator.InitialState) (duration dt : R) :
  dt > 0 ->
  exists fuel r,
    FlightSimulator.simulate_landing fuel ac c initial_state duration dt = Some r.
Proof.
  intros Hdt. destruct (enough_iterations duration dt Hdt) as [n Hn].
  exists n. unfold FlightSimulator.simulate_landing. cbv zeta.
  apply landing_loop_enough_fuel; [exact Hdt | lra].
Qed.

Lemma landing_loop_more_fuel (ac : AircraftModel.t) (xtd duration dt : R) (fuel : nat) :
  forall (c : LandingController.t) (t : R) (s : FlightSimulator.State)
         (hist : FlightSimulator.Histories) (r : FlightSimulator.Histories * LandingController.t),
    FlightSimulator.landing_loop fuel ac xtd duration dt c t s hist = Some r ->
    FlightSimulator.landing_loop (S fuel) ac xtd duration dt c t s hist = Some r.
Proof.
  induction fuel as [ | fuel IH]; intros c t s hist r Hrun;
    destruct ((t <? duration) && (0 <? FlightSimulator.h s)) eqn:Hcond;
    try (rewrite landing_loop_exit in Hrun |- * by exact Hcond; exact Hrun).
  - rewrite landing_loop_out_of_fuel in Hrun by exact Hcond. discriminate.
  - rewrite landing_loop_iteration in Hrun |- * by exact Hcond. cbv zeta in Hrun |- *.
    destruct (FlightSimulator.h _ <=? 0); [exact Hrun | ].
    apply IH. exact Hrun.
Qed.

Lemma simulate_landing_more_fuel (k fuel : nat) (ac : AircraftModel.t)
  (c : LandingController.t) (initial_state : FlightSimulator.InitialState) (duration dt : R)
  (r : FlightSimulator.Histories * LandingController.t) :
  FlightSimulator.simulate_landing fuel ac c initial_state duration dt = Some r ->
  FlightSimulator.simulate_landing (k + fuel) ac c initial_state duration dt = Some r.
Proof.
  unfold FlightSimulator.simulate_landing. cbv zeta. intros Hrun.
  induction k as [ | k IH]; [exact Hrun | ].
  cbn [Nat.add]. apply landing_loop_more_fuel. exact IH.
Qed.

(** *** Reproducibility *)

(** A run whose duration is one positive step, from a positive altitude:
    the loop body runs once. *)
Lemma run_of_one_step (fuel : nat) (ac : AircraftModel.t) (c : LandingController.t)
  (initial_state : FlightSimulator.InitialState) (dt : R) :
  dt > 0 -> FlightSimulator.initial_h initial_state > 0 ->
  FlightSimulator.simulate_landing (S fuel) ac c initial_state dt dt
  = Some (histories_after_one_step ac c initial_state dt,
          snd (first_iteration c initial_state dt)).
Proof.
  intros Hdt Hh. unfold FlightSimulator.simulate_landing. cbv zeta.
  rewrite landing_loop_iteration; cbv zeta.
  - destruct (FlightSimulator.h _ <=? 0); [reflexivity | ].
    rewrite landing_loop_exit; [reflexivity | ].
    apply andb_false_iff. left. rbool. lra.
  - apply andb_true_iff. split; rbool; cbn; lra.
Qed.

(** The test scenario run for one step of 0.05 s, from any controller with
    the shipped configuration. *)
Lemma one_step_run (fuel : nat) (c : LandingController.t) :
  LandingController.cfg c = LandingController.cfg (LandingController.init AircraftModel.init) ->
  FlightSimulator.simulate_landing (S fuel) AircraftModel.init c test_initial_state 0.05 0.05
  = Some (one_step_histories, controller_after_first_command).
Proof.
  intros Hcfg. rewrite run_of_one_step by (cbn; lra).
  unfold one_step_histories, controller_after_first_command, histories_after_one_step,
    first_iteration.
  now rewrite (reset_same_config _ _ Hcfg).
Qed.

(** The first command of that run is given in the glide-slope phase. *)
Lemma first_command_phase :
  LandingController.control_phase first_command = LandingController.glide_slope.
Proof.
  unfold first_command, first_iteration. run_update_phase.
Qed.

(** C3.  Two runs of [simulate_landing] on the same aircraft, initial state,
    duration and step, with controllers of the same configuration, return the
    same histories and leave the same controller, whatever the accumulators
    and phase of the two controllers were before ([simulate_landing] resets
    the controller itself); the configuration of the controller is unchanged
    by a run, so the controller a run leaves can be used for the next. *)
Theorem simulate_landing_reproducible :
  forall (ac : AircraftModel.t) (c1 c2 : LandingController.t)
         (initial_state : FlightSimulator.InitialState) (duration dt : R)
         (fuel1 fuel2 : nat) (r1 r2 : FlightSimulator.Histories * LandingController.t),
    LandingController.cfg c1 = LandingController.cfg c2 ->
    FlightSimulator.simulate_landing fuel1 ac c1 initial_state duration dt = Some r1 ->
    FlightSimulator.simulate_landing fuel2 ac c2 initial_state duration dt = Some r2 ->
    r1 = r2 /\ LandingController.cfg (snd r1) = LandingController.cfg c1.
Proof.
  intros ac c1 c2 initial_state duration dt fuel1 fuel2 r1 r2 Hcfg H1 H2. split.
  - apply (simulate_landing_more_fuel fuel2) in H1.
    apply (simulate_landing_more_fuel fuel1) in H2.
    rewrite Nat.add_comm in H2.
    unfold FlightSimulator.simulate_landing in H1, H2. cbv zeta in H1, H2.
    rewrite (reset_same_config _ _ Hcfg) in H1. congruence.
  - destruct r1 as [hist c']. unfold FlightSimulator.simulate_landing in H1.
    cbv zeta in H1. apply landing_loop_recorded in H1.
    destruct H1 as (_ & _ & _ & _ & _ & _ & _ & H). exact H.
Qed.

(** The test scenario run for one step, once with a fresh controller and
    once with one that was used before. *)
Lemma simulate_landing_reproducible_witness :
  LandingController.cfg (LandingController.init AircraftModel.init)
  = LandingController.cfg used_controller
  /\ FlightSimulator.simulate_landing 1 AircraftModel.init
       (LandingController.init AircraftModel.init) test_initial_state 0.05 0.05
     = Some (one_step_histories, controller_after_first_command)
  /\ FlightSimulator.simulate_landing 2 AircraftModel.init used_controller
       test_initial_state 0.05 0.05
     = Some (one_step_histories, controller_after_first_command)
  /\ (one_step_histories, controller_after_first_command)
     = (one_step_histories, controller_after_first_command)
  /\ LandingController.cfg (snd (one_step_histories, controller_after_first_command))
     = LandingController.cfg (LandingController.init AircraftModel.init).
Proof.
  split; [reflexivity | ].
  split; [apply one_step_run; reflexivity | ].
  split; [apply one_step_run; reflexivity | ].
  apply (simulate_landing_reproducible AircraftModel.init
           (LandingController.init AircraftModel.init) used_controller
           test_initial_state 0.05 0.05 1 2).
  - reflexivity.
  - apply one_step_run. reflexivity.
  - apply one_step_run. reflexivity.
Defined.

(** The histories of the one-step run. *)
Lemma simulate_landing_histories_witness :
  FlightSimulator.simulate_landing 1 AircraftModel.init
    (LandingController.init AircraftModel.init) test_initial_state 0.05 0.05
  = Some (one_step_histories, controller_after_first_command)
  /\
  exists N : nat,
    length (FlightSimulator.time_history one_step_histories) = S N
    /\ length (FlightSimulator.state_history one_step_histories) = S N
    /\ length (FlightSimulator.control_history one_step_histories) = N
    /\ nth_error (FlightSimulator.time_history one_step_histories) 0 = Some 0
    /\ nth_error (FlightSimulator.state_history one_step_histories) 0
       = Some (start_state test_initial_state)
    /\ forall i, (i < N)%nat ->
         exists si ti,
           nth_error (FlightSimulator.state_history one_step_histories) i = Some si
           /\ nth_error (FlightSimulator.time_history one_step_histories) i = Some ti
           /\ nth_error (FlightSimulator.control_history one_step_histories) i
              = Some (fst (LandingController.compute_control
                             (controller_at (threshold test_initial_state) 0.05
                                (LandingController.reset
                                   (LandingController.init AircraftModel.init))
                                (FlightSimulator.state_history one_step_histories) i)
                             (FlightSimulator.current_state si)
                             (threshold test_initial_state - FlightSimulator.x si) 0.05))
           /\ nth_error (FlightSimulator.state_history one_step_histories) (S i)
              = Some (FlightSimulator.rk4_step AircraftModel.init si ti 0.05
                        (fst (LandingController.compute_control
                                (controller_at (threshold test_initial_state) 0.05
                                   (LandingController.reset
                                      (LandingController.init AircraftModel.init))
                                   (FlightSimulator.state_history one_step_histories) i)
                                (FlightSimulator.current_state si)
                                (threshold test_initial_state - FlightSimulator.x si) 0.05)))
           /\ nth_error (FlightSimulator.time_history one_step_histories) (S i)
              = Some (ti + 0.05).
Proof.
  split; [apply one_step_run; reflexivity | ].
  apply (simulate_landing_histories 1 AircraftModel.init
           (LandingController.init AircraftModel.init) test_initial_state 0.05 0.05
           one_step_histories controller_after_first_command).
  apply one_step_run. reflexivity.
Defined.

(** *** The performance of a simulated run *)

Lemma far_threshold_first_phase :
  LandingController.control_phase
    (fst (first_iteration (LandingController.init AircraftModel.init)
            far_threshold_state 0.05))
  = LandingController.glide_slope.
Proof.
  unfold first_iteration. run_update_phase.
Qed.

(** C8, as stated, fails on a step recorded in glide_slope at or beyond
    x = 3000.  The simulation entered at x = 3500 and altitude 100, with its
    threshold at x = 5000, records its first command in the glide-slope
    phase; the specification's wording counts a sample for that step, the
    code takes none. *)
Lemma glide_slope_step_beyond_3000_not_sampled :
  FlightSimulator.simulate_landing 1 AircraftModel.init
    (LandingController.init AircraftModel.init) far_threshold_state 0.05 0.05
  = Some (far_threshold_run,
          snd (first_iteration (LandingController.init AircraftModel.init)
                 far_threshold_state 0.05))
  /\ FlightSimulator.stated_glide_slope_errors
       (FlightSimulator.state_history far_threshold_run)
       (FlightSimulator.control_history far_threshold_run)
     = [ Rabs (100.0 - (3000.0 - 3500.0) * tan (np.deg2rad 3.0)) ]
  /\ FlightSimulator.glide_slope_errors
       (FlightSimulator.state_history far_threshold_run)
       (FlightSimulator.control_history far_threshold_run)
     = [].
Proof.
  split; [apply run_of_one_step; cbn; lra | ].
  unfold far_threshold_run, histories_after_one_step.
  cbn [FlightSimulator.state_history FlightSimulator.control_history].
  split.
  - unfold FlightSimulator.stated_glide_slope_errors. cbn [combine filter].
    unfold FlightSimulator.recorded_glide_slope at 1. cbn [snd].
    rewrite far_threshold_first_phase. reflexivity.
  - rewrite glide_slope_errors_filter. cbn [combine filter].
    unfold FlightSimulator.sampled at 1, FlightSimulator.recorded_glide_slope at 1.
    cbn [fst snd]. rewrite far_threshold_first_phase.
    cbn [LandingController.Phase_eqb andb].
    destruct (0 <? _) eqn:E; [rbool; cbn in E; exfalso; lra | reflexivity].
Qed.

(** ** The functions on concrete inputs *)

(** The trim of the shipped table at 30 m/s: lift coefficient about 1.2084,
    angle of attack about 0.2027 rad (11.6 degrees). *)
Example trim_at_default_speed :
  exists tr,
    AircraftModel.get_trim_condition_default AircraftModel.init = Ok tr
    /\ 1.208 < AircraftModel.CL tr < 1.209
    /\ 0.2026 < AircraftModel.alpha tr < 0.2028
    /\ AircraftModel.theta tr = AircraftModel.alpha tr
    /\ AircraftModel.q tr = 0.
Proof.
  unfold AircraftModel.get_trim_condition_default, AircraftModel.get_trim_condition.
  cbn [AircraftModel.rho AircraftModel.mass AircraftModel.g AircraftModel.wing_area
       AircraftModel.CL0 AircraftModel.CLalpha AircraftModel.CD0 AircraftModel.CDalpha
       AircraftModel.Cm0 AircraftModel.Cmalpha AircraftModel.Cmde AircraftModel.init].
  assert (Hq : 0.5 * 1.225 * 30.0 ^ 2 * 16.2 = 8930.25) by lra.
  rewrite Hq.
  rewrite pydiv_ok by lra. cbn [bind].
  rewrite pydiv_ok by lra. cbn [bind].
  rewrite pydiv_ok by lra. cbn [bind].
  eexists. split; [reflexivity | ].
  cbn [AircraftModel.CL AircraftModel.alpha AircraftModel.theta AircraftModel.q].
  repeat split; lra.
Qed.

Example trim_at_zero_speed :
  AircraftModel.get_trim_condition AircraftModel.init 0 0 = Raise ZeroDivisionError.
Proof.
  apply (proj2 (trim_raises_iff AircraftModel.init 0 0)). left. cbn. lra.
Qed.

Example short_period_levels :
  StabilityAnalyzer.short_period_level 0.5 = 1%nat
  /\ StabilityAnalyzer.short_period_level 0.3 = 2%nat
  /\ StabilityAnalyzer.short_period_level 1.5 = 2%nat
  /\ StabilityAnalyzer.short_period_level 2.5 = 3%nat
  /\ StabilityAnalyzer.short_period_level 0.2 = 3%nat
  /\ StabilityAnalyzer.short_period_level 0.1 = 4%nat.
Proof.
  repeat split.
  - apply short_period_level_bands. lra.
  - apply short_period_level_bands. lra.
  - apply short_period_level_bands. lra.
  - apply short_period_level_bands. lra.
  - apply short_period_level_bands. lra.
  - apply short_period_level_bands. lra.
Qed.

Lemma ln_2_bounds : / 2 < ln 2 < 1.
Proof.
  split; [apply ln_lt_2 | ].
  rewrite <- (ln_exp 1). apply ln_increasing; [lra | ].
  pose proof (exp_ineq1 1 ltac:(lra)). lra.
Qed.

(** A phugoid on the imaginary axis, a slowly diverging one (time to double
    above 69 s) and a quickly diverging one (below 10 s). *)
Example phugoid_levels :
  StabilityAnalyzer.phugoid_level 0.05 (-0.01, 0.2) = 1%nat
  /\ StabilityAnalyzer.phugoid_level 0.01 (-0.002, 0.2) = 2%nat
  /\ StabilityAnalyzer.phugoid_level 0 (0, 0.2) = 3%nat
  /\ StabilityAnalyzer.phugoid_level (-0.005) (0.001, 0.2) = 3%nat
  /\ StabilityAnalyzer.phugoid_level (-0.5) (0.1, 0.2) = 4%nat.
Proof.
  pose proof ln_2_bounds as [Hlo Hhi].
  repeat split.
  - apply phugoid_level_bands. lra.
  - apply phugoid_level_bands. lra.
  - apply phugoid_level_bands. repeat split; try lra.
    left. cbn. apply Rabs_R0.
  - apply phugoid_level_bands. repeat split; try lra.
    right. cbn [StabilityAnalyzer.real fst]. rewrite Rabs_pos_eq by lra.
    apply Rmult_lt_reg_r with 0.001; [lra | ].
    unfold Rdiv. rewrite Rmult_assoc, Rinv_l by lra. lra.
  - apply phugoid_level_bands. repeat split; try lra.
    intros [H | H]; cbn [StabilityAnalyzer.real fst] in H;
      rewrite Rabs_pos_eq in H by lra; [lra | ].
    apply Rmult_lt_compat_r with (r := 0.1) in H; [ | lra].
    unfold Rdiv in H. rewrite Rmult_assoc, Rinv_l in H by lra. lra.
Qed.

(** *** The analysis of a typical spectrum *)

Lemma isclose_same (a b : StabilityAnalyzer.complex) :
  StabilityAnalyzer.real a = StabilityAnalyzer.real b ->
  StabilityAnalyzer.imag a = StabilityAnalyzer.imag b ->
  StabilityAnalyzer.isclose a b = true.
Proof.
  intros Hr Hi. unfold StabilityAnalyzer.isclose, StabilityAnalyzer.cabs at 1,
    StabilityAnalyzer.csub. cbn [StabilityAnalyzer.real StabilityAnalyzer.imag fst snd].
  fold (StabilityAnalyzer.real a) (StabilityAnalyzer.real b)
       (StabilityAnalyzer.imag a) (StabilityAnalyzer.imag b).
  rewrite Hr, Hi.
  replace ((StabilityAnalyzer.real b - StabilityAnalyzer.real b) ^ 2
           + (StabilityAnalyzer.imag b - StabilityAnalyzer.imag b) ^ 2) with 0 by ring.
  rewrite sqrt_0. rbool.
  pose proof (sqrt_pos (StabilityAnalyzer.real b ^ 2 + StabilityAnalyzer.imag b ^ 2)) as Hp.
  unfold StabilityAnalyzer.cabs. lra.
Qed.

Lemma isclose_far (a b : StabilityAnalyzer.complex) :
  1 <= (StabilityAnalyzer.real a - StabilityAnalyzer.real b) ^ 2 ->
  StabilityAnalyzer.real b ^ 2 + StabilityAnalyzer.imag b ^ 2 <= 16 ->
  StabilityAnalyzer.isclose a b = false.
Proof.
  intros Hfar Hb. unfold StabilityAnalyzer.isclose. rbool.
  assert (H4 : StabilityAnalyzer.cabs b <= 4).
  { unfold StabilityAnalyzer.cabs. replace 4 with (sqrt (4 * 4)) by (apply sqrt_square; lra).
    apply sqrt_le_1_alt. lra. }
  assert (H1 : 1 <= StabilityAnalyzer.cabs (StabilityAnalyzer.csub a b)).
  { unfold StabilityAnalyzer.cabs, StabilityAnalyzer.csub.
    cbn [StabilityAnalyzer.real StabilityAnalyzer.imag fst snd].
    fold (StabilityAnalyzer.real a) (StabilityAnalyzer.real b)
         (StabilityAnalyzer.imag a) (StabilityAnalyzer.imag b).
    rewrite <- sqrt_1 at 1. apply sqrt_le_1_alt.
    pose proof (pow2_ge_0 (StabilityAnalyzer.imag a - StabilityAnalyzer.imag b)). lra. }
  lra.
Qed.

Example sort_of_the_typical_spectrum :
  StabilityAnalyzer.sort_by_real_part example_eigenvalues
  = [ (-0.02, -0.3); (-0.02, 0.3); (-2, -3); (-2, 3) ].
Proof.
  unfold StabilityAnalyzer.sort_by_real_part, example_eigenvalues.
  repeat (cbn [fold_left StabilityAnalyzer.insert_asc StabilityAnalyzer.real fst];
          match goal with
          | |- context [if ?b then _ else _] =>
              destruct b eqn:?; rbool; try (exfalso; lra)
          end).
  reflexivity.
Qed.

Lemma isreal_false (a b : R) : b <> 0 -> StabilityAnalyzer.isreal (a, b) = false.
Proof. intros Hb. unfold StabilityAnalyzer.isreal. cbn. rbool. exact Hb. Qed.

Lemma cabs_slow_lt_fast :
  (StabilityAnalyzer.cabs (-0.02, -0.3) <? StabilityAnalyzer.cabs (-2, -3)) = true.
Proof.
  rbool. unfold StabilityAnalyzer.cabs. cbn [StabilityAnalyzer.real StabilityAnalyzer.imag fst snd].
  apply sqrt_lt_1_alt. lra.
Qed.

(** The slow pair is found first (it has the larger real part) and numbered
    1, its conjugate at index 1 is skipped; the fast pair is numbered 3.  The
    fast one has the higher natural frequency and becomes short_period. *)
Example analysis_of_the_typical_spectrum :
    map fst typical_modes
    = [ StabilityAnalyzer.mode_ 1; StabilityAnalyzer.mode_ 3;
        StabilityAnalyzer.short_period; StabilityAnalyzer.phugoid ]
    /\ (exists sp,
          dict.get StabilityAnalyzer.Key_eqb typical_modes StabilityAnalyzer.short_period
          = Some (StabilityAnalyzer.Complex sp)
          /\ dict.get StabilityAnalyzer.Key_eqb typical_modes (StabilityAnalyzer.mode_ 3)
             = Some (StabilityAnalyzer.Complex sp)
          /\ StabilityAnalyzer.eigenvalue sp = (-2, -3)
          /\ StabilityAnalyzer.damping_ratio sp = - -2 / StabilityAnalyzer.cabs (-2, -3)
          /\ StabilityAnalyzer.stability sp = StabilityAnalyzer.stable)
    /\ (exists ph,
          dict.get StabilityAnalyzer.Key_eqb typical_modes StabilityAnalyzer.phugoid
          = Some (StabilityAnalyzer.Complex ph)
          /\ dict.get StabilityAnalyzer.Key_eqb typical_modes (StabilityAnalyzer.mode_ 1)
             = Some (StabilityAnalyzer.Complex ph)
          /\ StabilityAnalyzer.eigenvalue ph = (-0.02, -0.3)
          /\ StabilityAnalyzer.damping_ratio ph
             = - -0.02 / StabilityAnalyzer.cabs (-0.02, -0.3)
          /\ StabilityAnalyzer.stability ph = StabilityAnalyzer.stable).
Proof.
  unfold typical_modes. rewrite sort_of_the_typical_spectrum.
  cbn [StabilityAnalyzer.identify_modes]. cbv zeta.
  rewrite !isreal_false by lra.
  rewrite (isclose_same (-0.02, -0.3)) by (cbn; lra).
  rewrite (isclose_far (-0.02, 0.3)) by (cbn; lra).
  rewrite (isclose_same (-2, -3)) by (cbn; lra).
  cbn [dict.set StabilityAnalyzer.Key_eqb Nat.eqb Nat.add].
  unfold StabilityAnalyzer.identify_specific_modes.
  cbn [StabilityAnalyzer.complex_modes length Nat.leb StabilityAnalyzer.sorted_reverse
       fold_right StabilityAnalyzer.insert_desc snd StabilityAnalyzer.natural_frequency].
  cbv zeta. rewrite cabs_slow_lt_fast.
  cbn [dict.set dict.get StabilityAnalyzer.Key_eqb Nat.eqb snd map fst].
  assert (Hstable : forall a b, a < 0 -> StabilityAnalyzer.stability_of (a, b)
                                         = StabilityAnalyzer.stable).
  { intros a b Ha. unfold StabilityAnalyzer.stability_of. cbn.
    destruct (a <? 0) eqn:E; [reflexivity | rbool; lra]. }
  split; [reflexivity | ].
  split; eexists; (split; [reflexivity | ]); (split; [reflexivity | ]);
    (split; [reflexivity | ]); (split; [reflexivity | ]);
    cbn [StabilityAnalyzer.stability]; apply Hstable; lra.
Qed.

Lemma damping_of_the_fast_pair :
  0.5 <= - -2 / StabilityAnalyzer.cabs (-2, -3) <= 0.67.
Proof.
  unfold StabilityAnalyzer.cabs. cbn [StabilityAnalyzer.real StabilityAnalyzer.imag fst snd].
  assert (Hlo : 3 <= sqrt ((-2) ^ 2 + (-3) ^ 2)).
  { replace 3 with (sqrt (3 * 3)) at 1 by (apply sqrt_square; lra).
    apply sqrt_le_1_alt. lra. }
  assert (Hhi : sqrt ((-2) ^ 2 + (-3) ^ 2) <= 4).
  { replace 4 with (sqrt (4 * 4)) by (apply sqrt_square; lra).
    apply sqrt_le_1_alt. lra. }
  set (r := sqrt ((-2) ^ 2 + (-3) ^ 2)) in *.
  split.
  - apply Rmult_le_reg_r with r; [lra | ].
    unfold Rdiv. rewrite Rmult_assoc, Rinv_l by lra. lra.
  - apply Rmult_le_reg_r with r; [lra | ].
    unfold Rdiv. rewrite Rmult_assoc, Rinv_l by lra. lra.
Qed.

Lemma damping_of_the_slow_pair :
  0.05 <= - -0.02 / StabilityAnalyzer.cabs (-0.02, -0.3) <= 0.07.
Proof.
  unfold StabilityAnalyzer.cabs. cbn [StabilityAnalyzer.real StabilityAnalyzer.imag fst snd].
  assert (Hlo : 0.3 <= sqrt ((-0.02) ^ 2 + (-0.3) ^ 2)).
  { replace 0.3 with (sqrt (0.3 * 0.3)) at 1 by (apply sqrt_square; lra).
    apply sqrt_le_1_alt. lra. }
  assert (Hhi : sqrt ((-0.02) ^ 2 + (-0.3) ^ 2) <= 0.4).
  { replace 0.4 with (sqrt (0.4 * 0.4)) by (apply sqrt_square; lra).
    apply sqrt_le_1_alt. lra. }
  set (r := sqrt ((-0.02) ^ 2 + (-0.3) ^ 2)) in *.
  split.
  - apply Rmult_le_reg_r with r; [lra | ].
    unfold Rdiv. rewrite Rmult_assoc, Rinv_l by lra. lra.
  - apply Rmult_le_reg_r with r; [lra | ].
    unfold Rdiv. rewrite Rmult_assoc, Rinv_l by lra. lra.
Qed.

(** Both modes of the typical spectrum are of level 1 and acceptable. *)
Example handling_qualities_of_the_typical_spectrum :
  exists zeta_sp omega_sp zeta_ph period_ph,
    StabilityAnalyzer.evaluate_handling_qualities (fun _ => example_eigenvalues)
      AircraftModel.init level_trim
    = Ok [ (StabilityAnalyzer.short_period,
            StabilityAnalyzer.ShortPeriodAssessment zeta_sp omega_sp 1 true);
           (StabilityAnalyzer.phugoid,
            StabilityAnalyzer.PhugoidAssessment zeta_ph period_ph 1 true) ]
    /\ 0.5 <= zeta_sp <= 0.67
    /\ 0.05 <= zeta_ph <= 0.07.
Proof.
  destruct analysis_of_the_typical_spectrum
    as (_ & (sp & Hsp & _ & _ & Hzs & _) & (ph & Hph & _ & _ & Hzp & _)).
  pose proof damping_of_the_fast_pair as Hfast. rewrite <- Hzs in Hfast.
  pose proof damping_of_the_slow_pair as Hslow. rewrite <- Hzp in Hslow.
  unfold StabilityAnalyzer.evaluate_handling_qualities.
  rewrite analysis_of_typical_modes. cbn [bind]. cbv zeta.
  rewrite Hsp, Hph. cbn [bind dict.set StabilityAnalyzer.Key_eqb].
  assert (Hl1 : StabilityAnalyzer.short_period_level (StabilityAnalyzer.damping_ratio sp)
                = 1%nat) by (apply short_period_level_bands; lra).
  assert (Hl2 : StabilityAnalyzer.phugoid_level (StabilityAnalyzer.damping_ratio ph)
                  (StabilityAnalyzer.eigenvalue ph) = 1%nat)
    by (apply phugoid_level_bands; lra).
  rewrite Hl1, Hl2. cbn [Nat.leb].
  do 4 eexists. split; [reflexivity | ]. split; assumption.
Qed.

(** * Further properties *)

(** ** The controller between runs *)

Lemma update_phase_accumulators (c : LandingController.t) (a d : R) :
  LandingController.int_theta (LandingController.st (LandingController.update_phase c a d))
  = LandingController.int_theta (LandingController.st c)
  /\ LandingController.int_alt (LandingController.st (LandingController.update_phase c a d))
     = LandingController.int_alt (LandingController.st c)
  /\ LandingController.int_vel (LandingController.st (LandingController.update_phase c a d))
     = LandingController.int_vel (LandingController.st c)
  /\ LandingController.prev_error_theta
       (LandingController.st (LandingController.update_phase c a d))
     = LandingController.prev_error_theta (LandingController.st c)
  /\ LandingController.prev_error_alt
       (LandingController.st (LandingController.update_phase c a d))
     = LandingController.prev_error_alt (LandingController.st c).
Proof.
  unfold LandingController.update_phase.
  destruct (a <=? 0.5); [repeat split | ].
  destruct (a <? _); [repeat split | ].
  destruct (_ && _); repeat split.
Qed.

Lemma update_phase_forgets_phase (c : LandingController.t) (p : LandingController.Phase)
  (a d : R) :
  LandingController.update_phase (LandingController.set_phase c p) a d
  = LandingController.update_phase c a d.
Proof.
  unfold LandingController.update_phase. cbn [LandingController.set_phase LandingController.cfg].
  destruct (a <=? 0.5); [reflexivity | ].
  destruct (a <? _); [reflexivity | ].
  destruct (_ && _); reflexivity.
Qed.

(** The phase a controller is in before a call has no influence on the call:
    neither on the command nor on the controller it leaves. *)
Theorem previous_phase_is_ignored :
  forall (c : LandingController.t) (p : LandingController.Phase)
         (state : LandingController.StateDict) (d dt : R),
    LandingController.compute_control (LandingController.set_phase c p) state d dt
    = LandingController.compute_control c state d dt.
Proof.
  intros c p state d dt. unfold LandingController.compute_control. cbv zeta.
  now rewrite update_phase_forgets_phase.
Qed.

Lemma control_steps_cfg (inputs : list (LandingController.StateDict * R)) (dt : R) :
  forall c : LandingController.t,
    LandingController.cfg (snd (control_steps c inputs dt)) = LandingController.cfg c.
Proof.
  induction inputs as [ | [state d] inputs IH]; intros c; cbn [control_steps].
  - reflexivity.
  - pose proof (compute_control_cfg c state d dt) as Hc.
    destruct (LandingController.compute_control c state d dt) as [control c1].
    specialize (IH c1). destruct (control_steps c1 inputs dt) as [controls c2].
    cbn [snd] in *. congruence.
Qed.

(** Whatever calls of [compute_control] a controller went through, its
    configuration (aircraft, landing parameters, gains) is the one it had, and
    [reset] brings it to the state of a controller that was never used. *)
Theorem reset_undoes_control_steps :
  forall (c : LandingController.t) (inputs : list (LandingController.StateDict * R)) (dt : R),
    LandingController.cfg (snd (control_steps c inputs dt)) = LandingController.cfg c
    /\ LandingController.reset (snd (control_steps c inputs dt)) = LandingController.reset c
    /\ (forall ac : AircraftModel.t,
          LandingController.reset
            (snd (control_steps (LandingController.init ac) inputs dt))
          = LandingController.init ac).
Proof.
  intros c inputs dt. split; [apply control_steps_cfg | ]. split.
  - apply reset_same_config, control_steps_cfg.
  - intros ac. rewrite (reset_same_config _ (LandingController.init ac)).
    + reflexivity.
    + apply control_steps_cfg.
Qed.

Lemma compute_control_int_alt (c : LandingController.t) (state : LandingController.StateDict)
  (d dt : R) :
  -50 <= LandingController.int_alt (LandingController.st c) <= 50 ->
  -50 <= LandingController.int_alt
           (LandingController.st (snd (LandingController.compute_control c state d dt)))
      <= 50.
Proof.
  intros Hc.
  destruct (update_phase_accumulators c (LandingController.altitude state) d)
    as (_ & Halt & _).
  unfold LandingController.compute_control. cbv zeta.
  destruct (LandingController.phase
              (LandingController.st
                 (LandingController.update_phase c (LandingController.altitude state) d)));
    cbn; try (rewrite Halt; exact Hc).
  apply clip_bounds. lra.
Qed.

(** The altitude integrator is wound up to at most 50 in magnitude: from a
    reset controller, after any sequence of calls, it is within [-50, 50]. *)
Theorem altitude_integral_within_50 :
  forall (c : LandingController.t) (inputs : list (LandingController.StateDict * R)) (dt : R),
    -50 <= LandingController.int_alt
             (LandingController.st (snd (control_steps (LandingController.reset c) inputs dt)))
        <= 50.
Proof.
  intros c inputs dt.
  assert (Hgen : forall c0 : LandingController.t,
             -50 <= LandingController.int_alt (LandingController.st c0) <= 50 ->
             -50 <= LandingController.int_alt
                      (LandingController.st (snd (control_steps c0 inputs dt))) <= 50).
  { induction inputs as [ | [state d] inputs IH]; intros c0 H0; cbn [control_steps].
    - exact H0.
    - pose proof (compute_control_int_alt c0 state d dt H0) as H1.
      destruct (LandingController.compute_control c0 state d dt) as [control c1].
      specialize (IH c1 H1). destruct (control_steps c1 inputs dt) as [controls c2].
      exact IH. }
  apply Hgen. cbn. lra.
Qed.

(** ** The touchdown law and the reference trajectories *)

Lemma update_phase_touchdown (c : LandingController.t) (a d : R) :
  a <= 0.5 ->
  LandingController.phase (LandingController.st (LandingController.update_phase c a d))
  = LandingController.touchdown.
Proof. intros Ha. now apply update_phase_selects. Qed.

(** At an altitude of at most 0.5 m the throttle is idle, the elevator is
    the clipped proportional law on the 2 degree pitch target, and no
    integrator or previous error is touched. *)
Theorem touchdown_law :
  forall (c : LandingController.t) (state : LandingController.StateDict) (d dt : R),
    LandingController.altitude state <= 0.5 ->
    LandingController.throttle (fst (LandingController.compute_control c state d dt)) = 0
    /\ LandingController.elevator (fst (LandingController.compute_control c state d dt))
       = np.clip (2 * (np.deg2rad 2 - LandingController.theta state)) (-0.4) 0.4
    /\ LandingController.control_phase (fst (LandingController.compute_control c state d dt))
       = LandingController.touchdown
    /\ snd (LandingController.compute_control c state d dt)
       = LandingController.set_phase c LandingController.touchdown.
Proof.
  intros c state d dt Ha.
  pose proof (update_phase_touchdown c _ d Ha) as Hp.
  assert (Hup : LandingController.update_phase c (LandingController.altitude state) d
                = LandingController.set_phase c LandingController.touchdown).
  { unfold LandingController.update_phase.
    destruct (LandingController.altitude state <=? 0.5) eqn:E; [reflexivity | rbool; lra]. }
  unfold LandingController.compute_control. cbv zeta. rewrite Hup.
  cbn [LandingController.set_phase LandingController.st LandingController.phase
       LandingController.limit_control fst snd LandingController.throttle
       LandingController.elevator LandingController.control_phase].
  repeat split.
  - rewrite clip_id; lra.
  - replace 2.0 with 2 by lra. reflexivity.
Qed.

Lemma touchdown_law_witness :
  0.3 <= 0.5
  /\ LandingController.throttle
       (fst (LandingController.compute_control used_controller
               {| LandingController.velocity := 25.0;
                  LandingController.altitude := 0.3;
                  LandingController.theta := 0.01;
                  LandingController.q := 0.0;
                  LandingController.alpha := 0.0 |} 10 0.05)) = 0
  /\ snd (LandingController.compute_control used_controller
            {| LandingController.velocity := 25.0;
               LandingController.altitude := 0.3;
               LandingController.theta := 0.01;
               LandingController.q := 0.0;
               LandingController.alpha := 0.0 |} 10 0.05)
     = LandingController.set_phase used_controller LandingController.touchdown.
Proof.
  split; [lra | ].
  destruct (touchdown_law used_controller
              {| LandingController.velocity := 25.0;
                 LandingController.altitude := 0.3;
                 LandingController.theta := 0.01;
                 LandingController.q := 0.0;
                 LandingController.alpha := 0.0 |} 10 0.05) as (Ht & _ & _ & Hc).
  - cbn. lra.
  - split; [exact Ht | exact Hc].
Defined.

Lemma tan_3_degrees_positive : 0 < tan (np.deg2rad 3).
Proof.
  pose proof PI_RGT_0 as Hpi. unfold np.deg2rad.
  apply tan_gt_0; lra.
Qed.

(** The reference altitude of the glide slope is never negative; with the
    shipped glide-slope angle of -3 degrees it is [distance * tan (3 deg)]
    short of the threshold and 0 beyond it. *)
Theorem glide_slope_reference_altitude :
  forall (c : LandingController.t) (ac : AircraftModel.t) (distance : R),
    0 <= LandingController.compute_glide_slope_reference c distance
    /\ (0 <= distance ->
        LandingController.compute_glide_slope_reference (LandingController.init ac) distance
        = distance * tan (np.deg2rad 3))
    /\ (distance <= 0 ->
        LandingController.compute_glide_slope_reference (LandingController.init ac) distance
        = 0).
Proof.
  intros c ac distance. pose proof tan_3_degrees_positive as Htan.
  assert (Hneg : tan (np.deg2rad (-3.0)) = - tan (np.deg2rad 3)).
  { rewrite <- tan_neg. f_equal. unfold np.deg2rad. lra. }
  unfold LandingController.compute_glide_slope_reference. cbv zeta.
  split; [apply Rmax_l | ].
  cbn [LandingController.init LandingController.cfg LandingController.glide_slope_angle].
  rewrite Hneg. split; intros Hd.
  - rewrite Rmax_right; [ring | ]. nra.
  - rewrite Rmax_left; [reflexivity | ]. nra.
Qed.

(** The flare law never asks for a flight-path rate below -0.125 rad/s (a
    sink rate of 2.5 m/s at 20 m/s); it asks for a descent at or above the
    ground and for a climb at or below it. *)
Theorem flare_trajectory_bounds :
  forall (c : LandingController.t) (current_altitude current_velocity : R),
    -0.125 <= LandingController.compute_flare_trajectory c current_altitude current_velocity
    /\ (0 <= current_altitude ->
        LandingController.compute_flare_trajectory c current_altitude current_velocity <= 0)
    /\ (current_altitude <= 0 ->
        0 <= LandingController.compute_flare_trajectory c current_altitude current_velocity).
Proof.
  intros c a v. unfold LandingController.compute_flare_trajectory. cbv zeta.
  set (hd := Rmax (- a / 5.0) (-2.5)).
  set (den := Rmax v 20.0).
  assert (Hden : 20 <= den) by (unfold den; pose proof (Rmax_r v 20.0); lra).
  assert (Hhd : -2.5 <= hd) by (unfold hd; apply Rmax_r).
  assert (Hinv : 0 < / den <= / 20).
  { split; [apply Rinv_0_lt_compat; lra | apply Rinv_le_contravar; lra]. }
  unfold Rdiv. split; [ | split; intros Ha].
  - destruct (Rle_dec 0 hd) as [Hpos | Hnegv]; nra.
  - assert (hd <= 0).
    { unfold hd. apply Rmax_lub; [ | lra]. unfold Rdiv.
      assert (0 < / 5.0) by (apply Rinv_0_lt_compat; lra). nra. }
    nra.
  - assert (0 <= hd).
    { unfold hd. eapply Rle_trans; [ | apply Rmax_l]. unfold Rdiv.
      assert (0 < / 5.0) by (apply Rinv_0_lt_compat; lra). nra. }
    nra.
Qed.

(** ** Trim and linearization *)

Lemma trim_inversion (a : AircraftModel.t) (V alt : R) (tr : AircraftModel.TrimState) :
  AircraftModel.get_trim_condition a V alt = Ok tr ->
  0.5 * AircraftModel.rho a * V ^ 2 * AircraftModel.wing_area a <> 0
  /\ AircraftModel.CLalpha a <> 0 /\ AircraftModel.Cmde a <> 0
  /\ tr = {| AircraftModel.velocity := V;
             AircraftModel.alpha :=
               (AircraftModel.mass a * AircraftModel.g a
                / (0.5 * AircraftModel.rho a * V ^ 2 * AircraftModel.wing_area a)
                - AircraftModel.CL0 a) / AircraftModel.CLalpha a;
             AircraftModel.theta :=
               (AircraftModel.mass a * AircraftModel.g a
                / (0.5 * AircraftModel.rho a * V ^ 2 * AircraftModel.wing_area a)
                - AircraftModel.CL0 a) / AircraftModel.CLalpha a;
             AircraftModel.q := 0.0;
             AircraftModel.altitude := alt;
             AircraftModel.CL :=
               AircraftModel.mass a * AircraftModel.g a
               / (0.5 * AircraftModel.rho a * V ^ 2 * AircraftModel.wing_area a);
             AircraftModel.CD :=
               AircraftModel.CD0 a
               + AircraftModel.CDalpha a
                 * ((AircraftModel.mass a * AircraftModel.g a
                     / (0.5 * AircraftModel.rho a * V ^ 2 * AircraftModel.wing_area a)
                     - AircraftModel.CL0 a) / AircraftModel.CLalpha a);
             AircraftModel.elevator :=
               - (AircraftModel.Cm0 a
                  + AircraftModel.Cmalpha a
                    * ((AircraftModel.mass a * AircraftModel.g a
                        / (0.5 * AircraftModel.rho a * V ^ 2 * AircraftModel.wing_area a)
                        - AircraftModel.CL0 a) / AircraftModel.CLalpha a))
               / AircraftModel.Cmde a;
             AircraftModel.thrust :=
               (AircraftModel.CD0 a
                + AircraftModel.CDalpha a
                  * ((AircraftModel.mass a * AircraftModel.g a
                      / (0.5 * AircraftModel.rho a * V ^ 2 * AircraftModel.wing_area a)
                      - AircraftModel.CL0 a) / AircraftModel.CLalpha a))
               * (0.5 * AircraftModel.rho a * V ^ 2) * AircraftModel.wing_area a |}.
Proof.
  unfold AircraftModel.get_trim_condition, bind, pydiv.
  destruct (Req_dec_T (0.5 * AircraftModel.rho a * V ^ 2 * AircraftModel.wing_area a) 0)
    as [E1 | N1]; [discriminate | ].
  destruct (Req_dec_T (AircraftModel.CLalpha a) 0) as [E2 | N2]; [discriminate | ].
  destruct (Req_dec_T (AircraftModel.Cmde a) 0) as [E3 | N3]; [discriminate | ].
  intros H. inversion H. repeat split; assumption.
Qed.

(** A trim state that [get_trim_condition] returns balances the aircraft in
    the linear model it was solved in: lift equals weight, the lift curve
    gives the trim lift coefficient at the trim angle of attack, the pitching
    moment coefficient is zero, thrust equals drag; the flight is level
    (pitch angle equal to the angle of attack, no pitch rate). *)
Theorem trim_balances_forces_and_moment :
  forall (a : AircraftModel.t) (V alt : R) (tr : AircraftModel.TrimState),
    AircraftModel.get_trim_condition a V alt = Ok tr ->
    0.5 * AircraftModel.rho a * V ^ 2 * AircraftModel.wing_area a * AircraftModel.CL tr
    = AircraftModel.mass a * AircraftModel.g a
    /\ AircraftModel.CL0 a + AircraftModel.CLalpha a * AircraftModel.alpha tr
       = AircraftModel.CL tr
    /\ AircraftModel.Cm0 a + AircraftModel.Cmalpha a * AircraftModel.alpha tr
       + AircraftModel.Cmde a * AircraftModel.elevator tr = 0
    /\ AircraftModel.thrust tr
       = 0.5 * AircraftModel.rho a * V ^ 2 * AircraftModel.wing_area a * AircraftModel.CD tr
    /\ AircraftModel.CD tr
       = AircraftModel.CD0 a + AircraftModel.CDalpha a * AircraftModel.alpha tr
    /\ AircraftModel.theta tr = AircraftModel.alpha tr
    /\ AircraftModel.q tr = 0
    /\ AircraftModel.altitude tr = alt.
Proof.
  intros a V alt tr Htr.
  apply trim_inversion in Htr. destruct Htr as (N1 & N2 & N3 & ->).
  cbn [AircraftModel.CL AircraftModel.alpha AircraftModel.elevator AircraftModel.thrust
       AircraftModel.CD AircraftModel.theta AircraftModel.q AircraftModel.altitude].
  assert (HS : AircraftModel.wing_area a <> 0) by (intros E; apply N1; rewrite E; ring).
  assert (Hr : AircraftModel.rho a <> 0) by (intros E; apply N1; rewrite E; ring).
  assert (HV : V <> 0) by (intros E; apply N1; rewrite E; ring).
  repeat split; try reflexivity; try lra; field; repeat split; (assumption || lra).
Qed.

Lemma trim_balances_forces_and_moment_witness :
  exists tr,
    AircraftModel.get_trim_condition AircraftModel.init 30 0 = Ok tr
    /\ 0.5 * AircraftModel.rho AircraftModel.init * 30 ^ 2
       * AircraftModel.wing_area AircraftModel.init * AircraftModel.CL tr
       = AircraftModel.mass AircraftModel.init * AircraftModel.g AircraftModel.init
    /\ AircraftModel.Cm0 AircraftModel.init
       + AircraftModel.Cmalpha AircraftModel.init * AircraftModel.alpha tr
       + AircraftModel.Cmde AircraftModel.init * AircraftModel.elevator tr = 0.
Proof.
  destruct (trim_of_shipped_table 30 0) as (tr & Htr & _); [lra | ].
  exists tr. split; [exact Htr | ].
  destruct (trim_balances_forces_and_moment AircraftModel.init 30 0 tr Htr)
    as (Hl & _ & Hm & _).
  split; assumption.
Defined.

Lemma longitudinal_matrices_inversion (a : AircraftModel.t) (tr : AircraftModel.TrimState)
  (A B : list (list R)) :
  AircraftModel.get_longitudinal_matrices a tr = Ok (A, B) ->
  let V := AircraftModel.velocity tr in
  let q_bar := 0.5 * AircraftModel.rho a * V ^ 2 in
  let S := AircraftModel.wing_area a in
  let c := AircraftModel.chord a in
  let m := AircraftModel.mass a in
  let Iy := AircraftModel.Iyy a in
  m <> 0 /\ V <> 0 /\ Iy <> 0
  /\ A = [ [ - (2 * AircraftModel.CD0 a * q_bar * S) / (m * V);
             (AircraftModel.CLalpha a - 2 * AircraftModel.CL0 a) * q_bar * S / (m * V);
             0;
             - AircraftModel.g a * cos (AircraftModel.alpha tr) ];
           [ - (2 * AircraftModel.CL0 a * q_bar * S) / (m * V);
             - (AircraftModel.CLalpha a + AircraftModel.CD0 a) * q_bar * S / (m * V);
             V + - V;
             - AircraftModel.g a * sin (AircraftModel.alpha tr) ];
           [ 0;
             AircraftModel.Cmalpha a * q_bar * S * c / Iy;
             AircraftModel.Cmq a * q_bar * S * c ^ 2 / (2 * Iy * V);
             0 ];
           [ 0; 0; 1; 0 ] ]
  /\ B = [ [ 0; AircraftModel.max_thrust a / m ];
           [ AircraftModel.CLde a * q_bar * S / m; 0 ];
           [ AircraftModel.Cmde a * q_bar * S * c / Iy; 0 ];
           [ 0; 0 ] ].
Proof.
  cbv zeta. unfold AircraftModel.get_longitudinal_matrices. cbv zeta.
  unfold pydiv.
  destruct (Req_dec_T (AircraftModel.mass a * AircraftModel.velocity tr) 0) as [E | NmV];
    [discriminate | ].
  cbn [bind].
  destruct (Req_dec_T (AircraftModel.Iyy a) 0) as [E | NI]; [discriminate | ].
  cbn [bind].
  destruct (Req_dec_T (2 * AircraftModel.Iyy a * AircraftModel.velocity tr) 0) as [E | NIV];
    [discriminate | ].
  cbn [bind].
  destruct (Req_dec_T (AircraftModel.mass a) 0) as [E | Nm]; [discriminate | ].
  cbn [bind].
  intros H. inversion H.
  repeat split; try assumption; try reflexivity.
  intros E. apply NmV. rewrite E. ring.
Qed.


(** When [get_longitudinal_matrices] returns, [A] is 4x4 and [B] is 4x2; the
    last row of [A] is the kinematic equation [theta_dot = q] and the last
    row of [B] is zero; the pitch-rate entry of the second row of [A],
    written [V + Zq], is zero because [Zq = -V]; the throttle enters only the
    first equation, with gain [max_thrust / mass], and the elevator does not
    enter it. *)
Theorem linearization_shape :
  forall (a : AircraftModel.t) (tr : AircraftModel.TrimState) (A B : list (list R)),
    AircraftModel.get_longitudinal_matrices a tr = Ok (A, B) ->
    length A = 4%nat /\ Forall (fun row => length row = 4%nat) A
    /\ length B = 4%nat /\ Forall (fun row => length row = 2%nat) B
    /\ nth_error A 3 = Some [0; 0; 1; 0]
    /\ nth_error B 3 = Some [0; 0]
    /\ (exists row, nth_error A 1 = Some row /\ nth_error row 2 = Some 0)
    /\ (exists elevator_gain,
          nth_error B 0 = Some [0; AircraftModel.max_thrust a / AircraftModel.mass a]
          /\ nth_error B 1 = Some [elevator_gain; 0]).
Proof.
  intros a tr A B HAB. apply longitudinal_matrices_inversion in HAB. cbv zeta in HAB.
  destruct HAB as (_ & _ & _ & -> & ->).
  split; [reflexivity | ]. split; [repeat constructor | ].
  split; [reflexivity | ]. split; [repeat constructor | ].
  split; [reflexivity | ]. split; [reflexivity | ]. split.
  - eexists. split; [reflexivity | ]. cbn. f_equal. ring.
  - eexists. split; reflexivity.
Qed.

Lemma linearization_shape_witness :
  exists A B,
    AircraftModel.get_longitudinal_matrices AircraftModel.init level_trim = Ok (A, B)
    /\ length A = 4%nat /\ Forall (fun row => length row = 4%nat) A
    /\ length B = 4%nat /\ Forall (fun row => length row = 2%nat) B.
Proof.
  destruct (get_longitudinal_matrices_ok AircraftModel.init level_trim)
    as (A & B & HAB); try (cbn; lra).
  exists A, B. split; [exact HAB | ].
  destruct (linearization_shape AircraftModel.init level_trim A B HAB)
    as (H1 & H2 & H3 & H4 & _).
  repeat split; assumption.
Defined.

(** A trim state that [get_trim_condition] returned can be linearized unless
    the mass or the pitch inertia is zero: its velocity is not zero. *)
Theorem linearization_of_a_trim :
  forall (a : AircraftModel.t) (V alt : R) (tr : AircraftModel.TrimState),
    AircraftModel.get_trim_condition a V alt = Ok tr ->
    ((exists A B, AircraftModel.get_longitudinal_matrices a tr = Ok (A, B)) <->
     (AircraftModel.mass a <> 0 /\ AircraftModel.Iyy a <> 0)).
Proof.
  intros a V alt tr Htr. apply trim_inversion in Htr. destruct Htr as (N1 & _ & _ & ->).
  assert (HV : V <> 0) by (intros E; apply N1; rewrite E; ring).
  split.
  - intros (A & B & HAB). apply longitudinal_matrices_inversion in HAB.
    cbv zeta in HAB. tauto.
  - intros [Nm NI]. apply get_longitudinal_matrices_ok; assumption.
Qed.

Lemma linearization_of_a_trim_witness :
  exists tr,
    AircraftModel.get_trim_condition AircraftModel.init 30 0 = Ok tr
    /\ ((exists A B, AircraftModel.get_longitudinal_matrices AircraftModel.init tr = Ok (A, B))
        <-> (AircraftModel.mass AircraftModel.init <> 0
             /\ AircraftModel.Iyy AircraftModel.init <> 0)).
Proof.
  destruct (trim_of_shipped_table 30 0) as (tr & Htr & _); [lra | ].
  exists tr. split; [exact Htr | ].
  exact (linearization_of_a_trim AircraftModel.init 30 0 tr Htr).
Defined.

(** ** The eigenvalue sort and the modes *)

Section SortAscending.
Context {A : Type} (key : A -> R).

Lemma insert_asc_perm (x : A) (l : list A) :
  Permutation (StabilityAnalyzer.insert_asc key x l) (x :: l).
Proof.
  induction l as [ | y l IH]; cbn.
  - reflexivity.
  - destruct (key y <=? key x).
    + rewrite IH. apply perm_swap.
    + reflexivity.
Qed.

Lemma insert_asc_sorted (x : A) (l : list A) :
  StronglySorted (fun a b => key a <= key b) l ->
  StronglySorted (fun a b => key a <= key b) (StabilityAnalyzer.insert_asc key x l).
Proof.
  induction 1 as [ | y l Hl IH Hy]; cbn.
  - constructor; constructor.
  - destruct (key y <=? key x) eqn:E; rbool.
    + constructor; [exact IH | ].
      rewrite Forall_forall. intros z Hz.
      apply (Permutation_in _ (insert_asc_perm x l)) in Hz.
      destruct Hz as [Hz | Hz].
      * now subst z.
      * rewrite Forall_forall in Hy. now apply Hy.
    + constructor; [now constructor | ].
      constructor; [lra | ].
      rewrite Forall_forall in Hy |- *. intros z Hz. specialize (Hy z Hz). lra.
Qed.

Lemma fold_insert_asc (l acc : list A) :
  StronglySorted (fun a b => key a <= key b) acc ->
  Permutation (fold_left (fun sorted z => StabilityAnalyzer.insert_asc key z sorted) l acc)
    (l ++ acc)
  /\ StronglySorted (fun a b => key a <= key b)
       (fold_left (fun sorted z => StabilityAnalyzer.insert_asc key z sorted) l acc).
Proof.
  revert acc. induction l as [ | x l IH]; intros acc Hacc; cbn [fold_left].
  - split; [reflexivity | exact Hacc].
  - destruct (IH (StabilityAnalyzer.insert_asc key x acc) (insert_asc_sorted x acc Hacc))
      as [Hperm Hsorted].
    split; [ | exact Hsorted].
    rewrite Hperm, insert_asc_perm. cbn. symmetry. apply Permutation_middle.
Qed.

Lemma rev_sorted (l : list A) :
  StronglySorted (fun a b => key a <= key b) l ->
  StronglySorted (fun a b => key b <= key a) (rev l).
Proof.
  induction 1 as [ | x l Hl IH Hx]; cbn.
  - constructor.
  - assert (Happ : forall l1 : list A,
               StronglySorted (fun a b => key b <= key a) l1 ->
               Forall (fun y => key x <= key y) l1 ->
               StronglySorted (fun a b => key b <= key a) (l1 ++ [x])).
    { induction 1 as [ | y l1 Hl1 IH1 Hy]; intros Hall; cbn.
      - constructor; constructor.
      - inversion Hall; subst. constructor; [now apply IH1 | ].
        apply Forall_app. split; [exact Hy | ]. constructor; [assumption | constructor]. }
    apply Happ; [exact IH | ].
    rewrite Forall_forall in Hx |- *. intros y Hy. apply Hx. now apply in_rev.
Qed.

End SortAscending.

(** The eigenvalues are handed to the mode loop as a rearrangement of what
    the eigenvalue routine gave, by non-increasing real part. *)
Theorem eigenvalues_sorted_by_descending_real_part :
  forall eigenvalues : list StabilityAnalyzer.complex,
    Permutation (StabilityAnalyzer.sort_by_real_part eigenvalues) eigenvalues
    /\ StronglySorted
         (fun z z' => StabilityAnalyzer.real z' <= StabilityAnalyzer.real z)
         (StabilityAnalyzer.sort_by_real_part eigenvalues).
Proof.
  intros eigenvalues. unfold StabilityAnalyzer.sort_by_real_part.
  destruct (fold_insert_asc StabilityAnalyzer.real eigenvalues [])
    as [Hperm Hsorted]; [constructor | ].
  split.
  - rewrite <- Permutation_rev, Hperm, app_nil_r. reflexivity.
  - apply rev_sorted. exact Hsorted.
Qed.

Lemma cabs_bounds (z : StabilityAnalyzer.complex) :
  StabilityAnalyzer.imag z <> 0 ->
  0 < StabilityAnalyzer.cabs z
  /\ Rabs (StabilityAnalyzer.real z) < StabilityAnalyzer.cabs z
  /\ Rabs (StabilityAnalyzer.imag z) <= StabilityAnalyzer.cabs z.
Proof.
  intros Him. unfold StabilityAnalyzer.cabs.
  set (re := StabilityAnalyzer.real z) in *. set (im := StabilityAnalyzer.imag z) in *.
  assert (Him2 : 0 < im ^ 2).
  { destruct (Rtotal_order im 0) as [H | [H | H]]; [nra | contradiction | nra]. }
  assert (Hre2 : 0 <= re ^ 2) by apply pow2_ge_0.
  assert (Habs : forall x : R, Rabs x = sqrt (x ^ 2)).
  { intros x. rewrite <- sqrt_Rsqr_abs. f_equal. unfold Rsqr. ring. }
  split; [apply sqrt_lt_R0; lra | ]. split.
  - rewrite Habs. apply sqrt_lt_1_alt. lra.
  - rewrite Habs. apply sqrt_le_1_alt. lra.
Qed.

Lemma stability_of_stable (z : StabilityAnalyzer.complex) :
  StabilityAnalyzer.stability_of z = StabilityAnalyzer.stable <-> StabilityAnalyzer.real z < 0.
Proof.
  unfold StabilityAnalyzer.stability_of.
  destruct (StabilityAnalyzer.real z <? 0) eqn:E; rbool; split; intros H;
    try reflexivity; try assumption; try discriminate; lra.
Qed.

(** The entry the loop writes for an eigenvalue that is not real. *)
Lemma complex_entry_consistent (eig : StabilityAnalyzer.complex) :
  StabilityAnalyzer.isreal eig = false ->
  complex_mode_consistent
    {| StabilityAnalyzer.eigenvalue := eig;
       StabilityAnalyzer.stability := StabilityAnalyzer.stability_of eig;
       StabilityAnalyzer.damping_ratio :=
         - StabilityAnalyzer.real eig / StabilityAnalyzer.cabs eig;
       StabilityAnalyzer.natural_frequency := StabilityAnalyzer.cabs eig;
       StabilityAnalyzer.damped_frequency := Rabs (StabilityAnalyzer.imag eig);
       StabilityAnalyzer.period :=
         if negb (StabilityAnalyzer.imag eig =? 0)
         then Fin (2 * PI / Rabs (StabilityAnalyzer.imag eig)) else Inf |}.
Proof.
  intros Hreal. unfold StabilityAnalyzer.isreal in Hreal. rbool.
  destruct (cabs_bounds eig Hreal) as (Hpos & Hre & Him).
  unfold complex_mode_consistent.
  cbn [StabilityAnalyzer.eigenvalue StabilityAnalyzer.stability
       StabilityAnalyzer.damping_ratio StabilityAnalyzer.natural_frequency
       StabilityAnalyzer.damped_frequency StabilityAnalyzer.period].
  set (wn := StabilityAnalyzer.cabs eig) in *.
  set (re := StabilityAnalyzer.real eig) in *.
  assert (Hinv : 0 < / wn) by (apply Rinv_0_lt_compat; exact Hpos).
  assert (Hz : - re / wn * wn = - re) by (field; lra).
  assert (Hre' : - wn < re < wn) by (destruct (Rabs_def2 _ _ Hre); split; assumption).
  split; [exact Hreal | ]. split; [reflexivity | ]. split; [exact Hpos | ].
  split; [exact Hz | ]. split.
  { split.
    - apply Rmult_lt_reg_r with wn; [exact Hpos | ]. rewrite Hz. lra.
    - apply Rmult_lt_reg_r with wn; [exact Hpos | ]. rewrite Hz. lra. }
  split; [reflexivity | ]. split.
  { split; [apply Rabs_pos_lt; exact Hreal | exact Him]. }
  split.
  { destruct (StabilityAnalyzer.imag eig =? 0) eqn:E; rbool; [contradiction | reflexivity]. }
  rewrite stability_of_stable. fold re. split; intros H.
  - apply Rmult_lt_reg_r with wn; [exact Hpos | ]. rewrite Hz. lra.
  - apply Rmult_lt_compat_r with (r := wn) in H; [ | exact Hpos]. rewrite Hz in H. lra.
Qed.

(** The entry the loop writes for a real eigenvalue. *)
Lemma real_entry_consistent (eig : StabilityAnalyzer.complex) :
  StabilityAnalyzer.isreal eig = true ->
  real_mode_consistent
    {| StabilityAnalyzer.real_eigenvalue := eig;
       StabilityAnalyzer.real_stability := StabilityAnalyzer.stability_of eig;
       StabilityAnalyzer.time_constant :=
         if negb (StabilityAnalyzer.real eig =? 0)
         then Fin (-1.0 / StabilityAnalyzer.real eig) else Inf |}.
Proof.
  intros Hreal. unfold StabilityAnalyzer.isreal in Hreal. rbool.
  unfold real_mode_consistent.
  cbn [StabilityAnalyzer.real_eigenvalue StabilityAnalyzer.real_stability
       StabilityAnalyzer.time_constant].
  split; [exact Hreal | ].
  destruct (StabilityAnalyzer.real eig =? 0) eqn:E; rbool; cbn [negb].
  - split; [tauto | ]. split; [intros N; contradiction | apply stability_of_stable].
  - split; [split; [discriminate | intros H; contradiction] | ].
    split; [intros _; f_equal; lra | apply stability_of_stable].
Qed.

Lemma dict_set_Forall {V : Type} (P : StabilityAnalyzer.Key * V -> Prop)
  (d : list (StabilityAnalyzer.Key * V)) (k : StabilityAnalyzer.Key) (v : V) :
  Forall P d -> P (k, v) -> Forall P (dict.set StabilityAnalyzer.Key_eqb d k v).
Proof.
  intros Hd Hv. induction Hd as [ | [k0 v0] d H0 Hd IH]; cbn.
  - constructor; [exact Hv | constructor].
  - destruct (StabilityAnalyzer.Key_eqb k0 k).
    + constructor; assumption.
    + constructor; assumption.
Qed.

Lemma identify_modes_consistent (eigenvalues : list StabilityAnalyzer.complex) :
  forall (i : nat) (prev : option StabilityAnalyzer.complex) (modes : StabilityAnalyzer.Modes),
    Forall mode_consistent modes ->
    Forall mode_consistent (StabilityAnalyzer.identify_modes i prev eigenvalues modes).
Proof.
  induction eigenvalues as [ | eig rest IH]; intros i prev modes Hm;
    cbn [StabilityAnalyzer.identify_modes].
  - exact Hm.
  - cbv zeta. apply IH.
    destruct (StabilityAnalyzer.isreal eig) eqn:Hreal.
    + apply dict_set_Forall; [exact Hm | ]. now apply real_entry_consistent.
    + destruct (match prev with Some p => _ | None => false end); [exact Hm | ].
      apply dict_set_Forall; [exact Hm | ]. now apply complex_entry_consistent.
Qed.

Lemma complex_modes_in (modes : StabilityAnalyzer.Modes) (k : StabilityAnalyzer.Key)
  (m : StabilityAnalyzer.ComplexMode) :
  In (k, m) (StabilityAnalyzer.complex_modes modes) ->
  In (k, StabilityAnalyzer.Complex m) modes.
Proof.
  induction modes as [ | [k0 [r | c]] modes IH]; cbn; [tauto | auto | ].
  intros [H | H]; [left; congruence | right; auto].
Qed.

Lemma identify_specific_modes_consistent (modes : StabilityAnalyzer.Modes) :
  Forall mode_consistent modes ->
  Forall mode_consistent (StabilityAnalyzer.identify_specific_modes modes).
Proof.
  intros Hm. unfold StabilityAnalyzer.identify_specific_modes. cbv zeta.
  destruct (2 <=? length (StabilityAnalyzer.complex_modes modes))%nat; [ | exact Hm].
  pose proof (sorted_reverse_perm
                (fun x : StabilityAnalyzer.Key * StabilityAnalyzer.ComplexMode =>
                   StabilityAnalyzer.natural_frequency (snd x))
                (StabilityAnalyzer.complex_modes modes)) as Hperm.
  destruct (StabilityAnalyzer.sorted_reverse _ _) as [ | [k1 m1] [ | [k2 m2] rest]];
    try exact Hm.
  assert (Hin : forall k m, In (k, m) ((k1, m1) :: (k2, m2) :: rest) ->
                            complex_mode_consistent m).
  { intros k m Hkm. apply (Permutation_in _ Hperm), complex_modes_in in Hkm.
    rewrite Forall_forall in Hm. exact (Hm _ Hkm). }
  apply dict_set_Forall; [apply dict_set_Forall; [exact Hm | ] | ].
  - apply (Hin k1). now left.
  - apply (Hin k2). right. now left.
Qed.

(** Every entry of the dictionary the analysis returns, numbered or alias, is
    consistent with its eigenvalue.  A complex entry has the modulus as
    natural frequency (positive), a damping ratio strictly between -1 and 1
    that is positive exactly when the entry is flagged stable, a positive
    damped frequency not above the natural one and a finite period (the
    infinite period of the source is never stored).  A real entry has an
    infinite time constant exactly for a zero eigenvalue, [-1 / lambda]
    otherwise, and is flagged stable exactly for a negative eigenvalue. *)
Theorem analysis_entries_consistent :
  forall (linalg_eig : list (list R) -> list StabilityAnalyzer.complex)
         (ac : AircraftModel.t) (trim : AircraftModel.TrimState)
         (modes : StabilityAnalyzer.Modes),
    StabilityAnalyzer.analyze_longitudinal_stability linalg_eig ac trim = Ok modes ->
    Forall mode_consistent modes.
Proof.
  intros linalg_eig ac trim modes Hrun.
  apply analyze_returns in Hrun. destruct Hrun as (A & B & _ & ->).
  apply identify_specific_modes_consistent, identify_modes_consistent. constructor.
Qed.

Lemma analysis_entries_consistent_witness : Forall mode_consistent typical_modes.
Proof.
  apply (analysis_entries_consistent (fun _ => example_eigenvalues) AircraftModel.init
           level_trim typical_modes).
  exact analysis_of_typical_modes.
Defined.

(** ** Handling-quality grades *)

(** The short-period grade is between 1 and 4, acceptable exactly from a
    damping ratio of 0.15 on, never worse than 3 for an overdamped mode, and
    it does not improve as the damping ratio moves away from the level-1 band
    [0.35, 1.30] on either side. *)
Theorem short_period_grade_shape :
  forall z z' : R,
    (1 <= StabilityAnalyzer.short_period_level z <= 4)%nat
    /\ ((StabilityAnalyzer.short_period_level z <=? 3)%nat = true <-> 0.15 <= z)
    /\ (2.00 < z -> StabilityAnalyzer.short_period_level z = 3%nat)
    /\ (z <= z' -> z' <= 0.35 ->
        (StabilityAnalyzer.short_period_level z'
         <= StabilityAnalyzer.short_period_level z)%nat)
    /\ (1.30 <= z -> z <= z' ->
        (StabilityAnalyzer.short_period_level z
         <= StabilityAnalyzer.short_period_level z')%nat).
Proof.
  intros z z'. unfold StabilityAnalyzer.short_period_level.
  destruct (0.35 <=? z) eqn:E1; destruct (z <=? 1.30) eqn:E2;
    destruct (0.25 <=? z) eqn:E3; destruct (z <=? 2.00) eqn:E4;
    destruct (0.15 <=? z) eqn:E5; rbool; try (exfalso; lra); cbn [andb Nat.leb];
    (split; [lia | ]); (split; [split; intros; (reflexivity || lra || discriminate) | ]);
    (split; [intros; (reflexivity || (exfalso; lra)) | ]);
    (split; intros Ha Hb;
     destruct (0.35 <=? z') eqn:F1; destruct (z' <=? 1.30) eqn:F2;
     destruct (0.25 <=? z') eqn:F3; destruct (z' <=? 2.00) eqn:F4;
     destruct (0.15 <=? z') eqn:F5; rbool; try (exfalso; lra); cbn [andb]; lia).
Qed.

Lemma dict_get_in {V : Type} (d : list (StabilityAnalyzer.Key * V))
  (k : StabilityAnalyzer.Key) (v : V) :
  dict.get StabilityAnalyzer.Key_eqb d k = Some v -> In (k, v) d.
Proof.
  induction d as [ | [k0 v0] d IH]; cbn; [discriminate | ].
  destruct (StabilityAnalyzer.Key_eqb k0 k) eqn:E.
  - apply Key_eqb_eq in E. intros H. inversion H. subst. now left.
  - intros H. right. now apply IH.
Qed.

Lemma ln_2_over_55_positive : 0 < ln 2 / 55.
Proof. pose proof ln_2_bounds as [H _]. lra. Qed.

(** The phugoid grade of a consistent complex mode, by the real part of its
    eigenvalue. *)
Lemma phugoid_grade_of_consistent_mode (ph : StabilityAnalyzer.ComplexMode) :
  complex_mode_consistent ph ->
  ((StabilityAnalyzer.phugoid_level (StabilityAnalyzer.damping_ratio ph)
      (StabilityAnalyzer.eigenvalue ph) <= 2)%nat <->
   StabilityAnalyzer.real (StabilityAnalyzer.eigenvalue ph) < 0)
  /\ ((StabilityAnalyzer.phugoid_level (StabilityAnalyzer.damping_ratio ph)
         (StabilityAnalyzer.eigenvalue ph) <= 3)%nat <->
      StabilityAnalyzer.real (StabilityAnalyzer.eigenvalue ph) < ln 2 / 55).
Proof.
  intros (_ & _ & Hwn & Hz & _).
  pose proof ln_2_over_55_positive as Hpos.
  pose proof ln_2_bounds as [Hln _].
  set (z := StabilityAnalyzer.damping_ratio ph) in *.
  set (re := StabilityAnalyzer.real (StabilityAnalyzer.eigenvalue ph)) in *.
  set (wn := StabilityAnalyzer.natural_frequency ph) in *.
  assert (Hsign : 0 < z <-> re < 0) by (split; intros H; nra).
  destruct (phugoid_level_bands z (StabilityAnalyzer.eigenvalue ph)) as (H1 & H2 & H3 & H4).
  cbv zeta in H1, H2, H3, H4. fold re in H3, H4.
  assert (Hexceeds : ~ 0 < z ->
            (time_to_double_exceeds_55 (StabilityAnalyzer.eigenvalue ph) <-> re < ln 2 / 55)).
  { intros Hnz.
    assert (Hre : 0 <= re).
    { destruct (Rle_dec 0 re) as [H | N]; [exact H | ].
      exfalso. apply Hnz, Hsign. lra. }
    unfold time_to_double_exceeds_55. fold re. rewrite (Rabs_pos_eq re Hre). split.
    - intros [H0 | H55]; [lra | ].
      destruct (Req_dec_T re 0) as [E | N]; [lra | ].
      assert (0 < re) by lra.
      apply Rmult_lt_compat_r with (r := re) in H55; [ | assumption].
      unfold Rdiv in H55. rewrite Rmult_assoc, Rinv_l in H55 by lra.
      apply Rmult_lt_reg_r with 55; [lra | ].
      unfold Rdiv. rewrite Rmult_assoc, Rinv_l by lra. lra.
    - intros Hlt. destruct (Req_dec_T re 0) as [E | N]; [now left | right].
      assert (0 < re) by lra.
      apply Rmult_lt_reg_r with re; [assumption | ].
      unfold Rdiv. rewrite Rmult_assoc, Rinv_l by lra.
      apply Rmult_lt_compat_r with (r := 55) in Hlt; [ | lra].
      unfold Rdiv in Hlt. rewrite Rmult_assoc, Rinv_l in Hlt by lra. lra. }
  destruct (Rlt_dec 0 z) as [Hzpos | Hznot].
  - assert (Hl : StabilityAnalyzer.phugoid_level z (StabilityAnalyzer.eigenvalue ph) = 1%nat
                 \/ StabilityAnalyzer.phugoid_level z (StabilityAnalyzer.eigenvalue ph)
                    = 2%nat).
    { destruct (Rle_dec 0.04 z); [left; now apply H1 | right; apply H2; split; assumption]. }
    assert (re < 0) by now apply Hsign.
    split; split; intros _; try lra; destruct Hl as [-> | ->]; lia.
  - specialize (Hexceeds Hznot).
    assert (Hre : ~ re < 0) by (intros H; apply Hznot; now apply Hsign).
    assert (N04 : ~ 0.04 <= z) by lra.
    destruct (Rlt_dec re (ln 2 / 55)) as [Hslow | Hfast].
    + assert (Hl : StabilityAnalyzer.phugoid_level z (StabilityAnalyzer.eigenvalue ph)
                   = 3%nat) by (apply H3; tauto).
      rewrite Hl. split; split; intros H; try assumption; try lia. contradiction.
    + assert (Hl : StabilityAnalyzer.phugoid_level z (StabilityAnalyzer.eigenvalue ph)
                   = 4%nat) by (apply H4; tauto).
      rewrite Hl. split; split; intros H; try lia; contradiction.
Qed.

(** The phugoid of an analysis is graded 1 or 2 exactly when its eigenvalue
    has a negative real part, and acceptable (at most 3) exactly when the
    real part is below [ln 2 / 55], about 0.0126 per second: an oscillation on
    the imaginary axis or diverging more slowly than that is tolerated. *)
Theorem phugoid_grade_by_growth_rate :
  forall (linalg_eig : list (list R) -> list StabilityAnalyzer.complex)
         (ac : AircraftModel.t) (trim : AircraftModel.TrimState)
         (modes : StabilityAnalyzer.Modes) (ph : StabilityAnalyzer.ComplexMode),
    StabilityAnalyzer.analyze_longitudinal_stability linalg_eig ac trim = Ok modes ->
    dict.get StabilityAnalyzer.Key_eqb modes StabilityAnalyzer.phugoid
    = Some (StabilityAnalyzer.Complex ph) ->
    ((StabilityAnalyzer.phugoid_level (StabilityAnalyzer.damping_ratio ph)
        (StabilityAnalyzer.eigenvalue ph) <= 2)%nat <->
     StabilityAnalyzer.real (StabilityAnalyzer.eigenvalue ph) < 0)
    /\ ((StabilityAnalyzer.phugoid_level (StabilityAnalyzer.damping_ratio ph)
           (StabilityAnalyzer.eigenvalue ph) <= 3)%nat <->
        StabilityAnalyzer.real (StabilityAnalyzer.eigenvalue ph) < ln 2 / 55).
Proof.
  intros linalg_eig ac trim modes ph Hrun Hget.
  apply phugoid_grade_of_consistent_mode.
  apply analyze_returns in Hrun. destruct Hrun as (A & B & _ & ->).
  apply dict_get_in in Hget.
  assert (Hall : Forall mode_consistent
                   (StabilityAnalyzer.identify_specific_modes
                      (StabilityAnalyzer.identify_modes 0 None
                         (StabilityAnalyzer.sort_by_real_part (linalg_eig A)) [])))
    by (apply identify_specific_modes_consistent, identify_modes_consistent; constructor).
  rewrite Forall_forall in Hall. exact (Hall _ Hget).
Qed.

Lemma phugoid_grade_by_growth_rate_witness :
  exists ph,
    dict.get StabilityAnalyzer.Key_eqb typical_modes StabilityAnalyzer.phugoid
    = Some (StabilityAnalyzer.Complex ph)
    /\ ((StabilityAnalyzer.phugoid_level (StabilityAnalyzer.damping_ratio ph)
           (StabilityAnalyzer.eigenvalue ph) <= 2)%nat <->
        StabilityAnalyzer.real (StabilityAnalyzer.eigenvalue ph) < 0)
    /\ ((StabilityAnalyzer.phugoid_level (StabilityAnalyzer.damping_ratio ph)
           (StabilityAnalyzer.eigenvalue ph) <= 3)%nat <->
        StabilityAnalyzer.real (StabilityAnalyzer.eigenvalue ph) < ln 2 / 55).
Proof.
  destruct analysis_of_the_typical_spectrum as (_ & _ & (ph & Hph & _)).
  exists ph. split; [exact Hph | ].
  exact (phugoid_grade_by_growth_rate (fun _ => example_eigenvalues) AircraftModel.init
           level_trim typical_modes ph analysis_of_typical_modes Hph).
Defined.



(** ** The alternative design *)


(** ** The equations of motion and the integration step *)

(** The position rates are the body velocity turned by the pitch angle: the
    ground speed they give is the airspeed, and the pitch angle changes at the
    pitch rate. *)
Theorem kinematics_preserves_speed :
  forall (ac : AircraftModel.t) (s : FlightSimulator.State) (t : R)
         (control : LandingController.Control),
    FlightSimulator.x (FlightSimulator.longitudinal_dynamics ac s t control) ^ 2
    + FlightSimulator.h (FlightSimulator.longitudinal_dynamics ac s t control) ^ 2
    = FlightSimulator.u s ^ 2 + FlightSimulator.w s ^ 2
    /\ FlightSimulator.theta (FlightSimulator.longitudinal_dynamics ac s t control)
       = FlightSimulator.q s.
Proof.
  intros ac s t control. split; [ | reflexivity].
  cbn [FlightSimulator.longitudinal_dynamics FlightSimulator.x FlightSimulator.h].
  pose proof (sin2_cos2 (FlightSimulator.theta s)) as Hsc. unfold Rsqr in Hsc.
  set (sn := sin (FlightSimulator.theta s)) in *.
  set (cs := cos (FlightSimulator.theta s)) in *.
  replace ((FlightSimulator.u s * cs + FlightSimulator.w s * sn) ^ 2
           + (FlightSimulator.u s * sn - FlightSimulator.w s * cs) ^ 2)
    with ((FlightSimulator.u s ^ 2 + FlightSimulator.w s ^ 2) * (sn * sn + cs * cs)) by ring.
  rewrite Hsc. ring.
Qed.

Lemma dynamics_ignores_position (ac : AircraftModel.t) (s s' : FlightSimulator.State)
  (t t' : R) (control : LandingController.Control) :
  FlightSimulator.u s = FlightSimulator.u s' -> FlightSimulator.w s = FlightSimulator.w s' ->
  FlightSimulator.q s = FlightSimulator.q s' ->
  FlightSimulator.theta s = FlightSimulator.theta s' ->
  FlightSimulator.longitudinal_dynamics ac s t control
  = FlightSimulator.longitudinal_dynamics ac s' t' control.
Proof.
  destruct s, s'. cbn [FlightSimulator.u FlightSimulator.w FlightSimulator.q
                       FlightSimulator.theta].
  intros -> -> -> ->. reflexivity.
Qed.


Lemma rk4_step_ignores_time (ac : AircraftModel.t) (s : FlightSimulator.State) (t t' dt : R)
  (control : LandingController.Control) :
  FlightSimulator.rk4_step ac s t' dt control = FlightSimulator.rk4_step ac s t dt control.
Proof.
  unfold FlightSimulator.rk4_step. cbv zeta.
  rewrite (dynamics_ignores_position ac s s t' t control) by reflexivity.
  set (k1 := FlightSimulator.longitudinal_dynamics ac s t control).
  rewrite (dynamics_ignores_position ac
             (FlightSimulator.vadd s (FlightSimulator.vscale (0.5 * dt) k1))
             (FlightSimulator.vadd s (FlightSimulator.vscale (0.5 * dt) k1))
             (t' + 0.5 * dt) (t + 0.5 * dt) control) by reflexivity.
  set (k2 := FlightSimulator.longitudinal_dynamics ac _ (t + 0.5 * dt) control).
  rewrite (dynamics_ignores_position ac
             (FlightSimulator.vadd s (FlightSimulator.vscale (0.5 * dt) k2))
             (FlightSimulator.vadd s (FlightSimulator.vscale (0.5 * dt) k2))
             (t' + 0.5 * dt) (t + 0.5 * dt) control) by reflexivity.
  set (k3 := FlightSimulator.longitudinal_dynamics ac _ (t + 0.5 * dt) control).
  rewrite (dynamics_ignores_position ac
             (FlightSimulator.vadd s (FlightSimulator.vscale dt k3))
             (FlightSimulator.vadd s (FlightSimulator.vscale dt k3))
             (t' + dt) (t + dt) control) by reflexivity.
  reflexivity.
Qed.

Lemma vadd_shift (dx : R) (s v : FlightSimulator.State) :
  FlightSimulator.vadd (shift_x dx s) v = shift_x dx (FlightSimulator.vadd s v).
Proof.
  destruct s, v. unfold shift_x, FlightSimulator.vadd.
  cbn [FlightSimulator.u FlightSimulator.w FlightSimulator.q FlightSimulator.theta
       FlightSimulator.x FlightSimulator.h].
  f_equal. ring.
Qed.

Lemma rk4_step_shift (ac : AircraftModel.t) (s : FlightSimulator.State) (t dt dx : R)
  (control : LandingController.Control) :
  FlightSimulator.rk4_step ac (shift_x dx s) t dt control
  = shift_x dx (FlightSimulator.rk4_step ac s t dt control).
Proof.
  unfold FlightSimulator.rk4_step. cbv zeta.
  rewrite (dynamics_ignores_position ac (shift_x dx s) s t t control) by reflexivity.
  set (k1 := FlightSimulator.longitudinal_dynamics ac s t control).
  rewrite (dynamics_ignores_position ac
             (FlightSimulator.vadd (shift_x dx s) (FlightSimulator.vscale (0.5 * dt) k1))
             (FlightSimulator.vadd s (FlightSimulator.vscale (0.5 * dt) k1))
             (t + 0.5 * dt) (t + 0.5 * dt) control) by reflexivity.
  set (k2 := FlightSimulator.longitudinal_dynamics ac _ (t + 0.5 * dt) control).
  rewrite (dynamics_ignores_position ac
             (FlightSimulator.vadd (shift_x dx s) (FlightSimulator.vscale (0.5 * dt) k2))
             (FlightSimulator.vadd s (FlightSimulator.vscale (0.5 * dt) k2))
             (t + 0.5 * dt) (t + 0.5 * dt) control) by reflexivity.
  set (k3 := FlightSimulator.longitudinal_dynamics ac _ (t + 0.5 * dt) control).
  rewrite (dynamics_ignores_position ac
             (FlightSimulator.vadd (shift_x dx s) (FlightSimulator.vscale dt k3))
             (FlightSimulator.vadd s (FlightSimulator.vscale dt k3))
             (t + dt) (t + dt) control) by reflexivity.
  set (k4 := FlightSimulator.longitudinal_dynamics ac _ (t + dt) control).
  rewrite vadd_shift.
  set (y := FlightSimulator.vadd s _). clearbody y. destruct y. reflexivity.
Qed.

(** Moving the state along the runway axis moves the result of the
    integration step by as much and changes nothing else: the equations of
    motion do not read the position. *)
Theorem rk4_step_commutes_with_shift :
  forall (ac : AircraftModel.t) (s : FlightSimulator.State) (t t' dt dx : R)
         (control : LandingController.Control),
    FlightSimulator.rk4_step ac (shift_x dx s) t' dt control
    = shift_x dx (FlightSimulator.rk4_step ac s t dt control).
Proof.
  intros ac s t t' dt dx control.
  rewrite rk4_step_shift.
  rewrite (rk4_step_ignores_time ac s t t' dt control). reflexivity.
Qed.

(** ** What a run records *)

Lemma landing_loop_running (ac : AircraftModel.t) (xtd duration dt : R) (fuel : nat) :
  forall (c : LandingController.t) (t : R) (s : FlightSimulator.State)
         (hist hist' : FlightSimulator.Histories) (c' : LandingController.t),
    FlightSimulator.landing_loop fuel ac xtd duration dt c t s hist = Some (hist', c') ->
    exists ts ss,
      FlightSimulator.time_history hist' = FlightSimulator.time_history hist ++ ts
      /\ FlightSimulator.state_history hist' = FlightSimulator.state_history hist ++ ss
      /\ running duration t s ts ss.
Proof.
  induction fuel as [ | fuel IH]; intros c t s hist hist' c' Hrun;
    destruct ((t <? duration) && (0 <? FlightSimulator.h s)) eqn:Hcond.
  - rewrite landing_loop_out_of_fuel in Hrun by exact Hcond. discriminate.
  - rewrite landing_loop_exit in Hrun by exact Hcond. inversion Hrun; subst.
    exists [], []. rewrite !app_nil_r. repeat split. constructor.
    apply andb_false_iff in Hcond. destruct Hcond as [H | H]; rbool; tauto.
  - rewrite landing_loop_iteration in Hrun by exact Hcond. cbv zeta in Hrun.
    rbool.
    destruct (FlightSimulator.h _ <=? 0) eqn:Hground.
    + inversion Hrun; subst. cbn.
      eexists [_], [_]. repeat split.
      constructor; try assumption. constructor. right. rbool. exact Hground.
    + apply IH in Hrun. destruct Hrun as (ts & ss & Ht & Hs & Hgo).
      cbn in Ht, Hs. rewrite <- app_assoc in Ht, Hs.
      eexists (_ :: ts), (_ :: ss). repeat split; try eassumption.
      constructor; assumption.
  - rewrite landing_loop_exit in Hrun by exact Hcond. inversion Hrun; subst.
    exists [], []. rewrite !app_nil_r. repeat split. constructor.
    apply andb_false_iff in Hcond. destruct Hcond as [H | H]; rbool; tauto.
Qed.




(** Everything the simulation lemmas say of a finished run, together. *)
Lemma simulate_landing_run (fuel : nat) (ac : AircraftModel.t) (c : LandingController.t)
  (initial_state : FlightSimulator.InitialState) (duration dt : R)
  (hist : FlightSimulator.Histories) (c' : LandingController.t) :
  FlightSimulator.simulate_landing fuel ac c initial_state duration dt = Some (hist, c') ->
  exists ts ss,
    FlightSimulator.time_history hist = 0 :: ts
    /\ FlightSimulator.state_history hist = start_state initial_state :: ss
    /\ length ts = length (FlightSimulator.control_history hist)
    /\ length ss = length (FlightSimulator.control_history hist)
    /\ recorded ac (threshold initial_state) dt (LandingController.reset c) 0
         (start_state initial_state) ts ss (FlightSimulator.control_history hist)
    /\ running duration 0 (start_state initial_state) ts ss.
Proof.
  intros Hrun. unfold FlightSimulator.simulate_landing in Hrun. cbv zeta in Hrun.
  fold (start_state initial_state) (threshold initial_state) in Hrun.
  pose proof (landing_loop_recorded _ _ _ _ _ _ _ _ _ _ _ Hrun)
    as (ts & ss & cs & Ht & Hs & Hc & Hrec & _).
  pose proof (landing_loop_running _ _ _ _ _ _ _ _ _ _ _ Hrun)
    as (ts' & ss' & Ht' & Hs' & Hgo).
  cbn in Ht, Hs, Hc, Ht', Hs'.
  assert (ts' = ts) by congruence. assert (ss' = ss) by congruence. subst ts' ss' cs.
  destruct (recorded_lengths _ _ _ _ _ _ _ _ _ Hrec) as [Hlt Hls].
  exists ts, ss. repeat split; assumption.
Qed.







(** A run takes no step exactly when the initial altitude is not positive or
    the duration is not positive; it then returns the initial time and state
    alone and leaves the controller reset. *)
Theorem run_without_a_step :
  forall (fuel : nat) (ac : AircraftModel.t) (c : LandingController.t)
         (initial_state : FlightSimulator.InitialState) (duration dt : R)
         (hist : FlightSimulator.Histories) (c' : LandingController.t),
    FlightSimulator.simulate_landing fuel ac c initial_state duration dt = Some (hist, c') ->
    (FlightSimulator.control_history hist = [] <->
     (duration <= 0 \/ FlightSimulator.initial_h initial_state <= 0))
    /\ (FlightSimulator.control_history hist = [] ->
        FlightSimulator.time_history hist = [0]
        /\ FlightSimulator.state_history hist = [start_state initial_state]
        /\ c' = LandingController.reset c).
Proof.
  intros fuel ac c initial_state duration dt hist c' Hrun.
  destruct (simulate_landing_run _ _ _ _ _ _ _ _ Hrun)
    as (ts & ss & Hts & Hss & Hlt & Hls & Hrec & Hgo).
  assert (Hiff : FlightSimulator.control_history hist = [] <->
                 (duration <= 0 \/ FlightSimulator.initial_h initial_state <= 0)).
  { split.
    - intros Hnil. rewrite Hnil in Hlt. destruct ts; [ | discriminate].
      inversion Hgo; subst. assumption.
    - intros Hstop. inversion Hgo as [t s Hs | t s t' s' ts' ss' Ht Hh Hgo']; subst.
      + destruct (FlightSimulator.control_history hist); [reflexivity | discriminate].
      + cbn [start_state FlightSimulator.h] in Hh. lra. }
  split; [exact Hiff | ].
  intros Hnil. pose proof (proj1 Hiff Hnil) as Hstop.
  rewrite Hnil in Hlt, Hls. destruct ts; [ | discriminate]. destruct ss; [ | discriminate].
  split; [exact Hts | ]. split; [exact Hss | ].
  unfold FlightSimulator.simulate_landing in Hrun. cbv zeta in Hrun.
  rewrite landing_loop_exit in Hrun; [congruence | ].
  apply andb_false_iff. destruct Hstop as [H | H]; [left | right]; rbool; cbn; lra.
Qed.

Lemma run_without_a_step_witness :
  (FlightSimulator.control_history one_step_histories = [] <->
   (0.05 <= 0 \/ FlightSimulator.initial_h test_initial_state <= 0))
  /\ (FlightSimulator.control_history one_step_histories = [] ->
      FlightSimulator.time_history one_step_histories = [0]
      /\ FlightSimulator.state_history one_step_histories
         = [start_state test_initial_state]
      /\ controller_after_first_command
         = LandingController.reset (LandingController.init AircraftModel.init)).
Proof.
  apply (run_without_a_step 1 AircraftModel.init
           (LandingController.init AircraftModel.init) test_initial_state 0.05 0.05
           one_step_histories controller_after_first_command).
  apply one_step_run. reflexivity.
Defined.

(** ** The performance report *)

Lemma fold_left_Rplus_acc (l : list R) (a : R) :
  fold_left Rplus l a = a + fold_left Rplus l 0.
Proof.
  revert a. induction l as [ | x l IH]; intros a; cbn.
  - lra.
  - rewrite (IH (a + x)), (IH (0 + x)). lra.
Qed.

Lemma sum_bounds (l : list R) (lo hi : R) :
  Forall (fun e => lo <= e <= hi) l ->
  INR (length l) * lo <= np.sum l <= INR (length l) * hi.
Proof.
  unfold np.sum. induction 1 as [ | x l Hx Hl IH].
  - cbn. lra.
  - cbn [fold_left length]. rewrite fold_left_Rplus_acc, S_INR. lra.
Qed.

Lemma glide_slope_errors_nonnegative (states : list FlightSimulator.State)
  (controls : list LandingController.Control) :
  Forall (fun e => 0 <= e) (FlightSimulator.glide_slope_errors states controls).
Proof.
  rewrite glide_slope_errors_filter. apply Forall_forall. intros e He.
  apply in_map_iff in He. destruct He as (step & <- & _).
  unfold FlightSimulator.glide_slope_sample. apply Rabs_pos.
Qed.

Lemma glide_slope_errors_length (states : list FlightSimulator.State)
  (controls : list LandingController.Control) :
  (length (FlightSimulator.glide_slope_errors states controls) <= length controls)%nat
  /\ (length (FlightSimulator.glide_slope_errors states controls) <= length states)%nat.
Proof.
  rewrite glide_slope_errors_filter, length_map.
  pose proof (filter_length_le FlightSimulator.sampled (combine states controls)) as Hf.
  rewrite length_combine in Hf. lia.
Qed.

(** The statistics of the glide-slope error: every sample is non-negative,
    there are at most as many samples as recorded commands, and the reported
    mean is between 0 and the reported maximum; without a recorded command
    both are 0. *)
Theorem glide_slope_error_statistics :
  forall (times : list R) (front : list FlightSimulator.State) (s : FlightSimulator.State)
         (controls : list LandingController.Control),
  exists p,
    FlightSimulator.evaluate_landing_performance times (front ++ [s]) controls = Ok p
    /\ 0 <= FlightSimulator.mean_glide_slope_error_m p
       <= FlightSimulator.max_glide_slope_error_m p
    /\ Forall (fun e => 0 <= e <= FlightSimulator.max_glide_slope_error_m p)
         (FlightSimulator.glide_slope_errors (front ++ [s]) controls)
    /\ (length (FlightSimulator.glide_slope_errors (front ++ [s]) controls)
        <= length controls)%nat
    /\ (controls = [] ->
        FlightSimulator.mean_glide_slope_error_m p = 0
        /\ FlightSimulator.max_glide_slope_error_m p = 0).
Proof.
  intros times front s controls.
  unfold FlightSimulator.evaluate_landing_performance.
  rewrite final_state_last. cbn [bind]. cbv zeta.
  eexists. split; [reflexivity | ].
  cbn [FlightSimulator.mean_glide_slope_error_m FlightSimulator.max_glide_slope_error_m].
  pose proof (glide_slope_errors_nonnegative (front ++ [s]) controls) as Hpos.
  pose proof (glide_slope_errors_length (front ++ [s]) controls) as [Hlen _].
  destruct (FlightSimulator.glide_slope_errors (front ++ [s]) controls) as [ | e es] eqn:E.
  - split; [lra | ]. split; [constructor | ]. split; [exact Hlen | ]. auto.
  - assert (Hall : Forall (fun x => 0 <= x <= np.max e es) (e :: es)).
    { rewrite Forall_forall in Hpos |- *. intros x Hx. split; [now apply Hpos | ].
      now apply np_max_upper_bound. }
    split; [ | split; [exact Hall | split; [exact Hlen | ]]].
    + pose proof (sum_bounds (e :: es) 0 (np.max e es) Hall) as [Hlo Hhi].
      assert (Hn : 0 < INR (length (e :: es))) by (apply lt_0_INR; cbn; lia).
      unfold np.mean. split.
      * apply Rmult_le_reg_r with (INR (length (e :: es))); [exact Hn | ].
        unfold Rdiv. rewrite Rmult_assoc, Rinv_l by lra. lra.
      * apply Rmult_le_reg_r with (INR (length (e :: es))); [exact Hn | ].
        unfold Rdiv. rewrite Rmult_assoc, Rinv_l by lra. lra.
    + intros ->. destruct (front ++ [s]); discriminate.
Qed.

(** The report is computed from a history exactly when the history has a
    state: an empty state history raises [IndexError]. *)
Theorem performance_needs_a_state :
  forall (times : list R) (states : list FlightSimulator.State)
         (controls : list LandingController.Control),
    (states = [] ->
     FlightSimulator.evaluate_landing_performance times states controls = Raise IndexError)
    /\ (states <> [] ->
        exists p, FlightSimulator.evaluate_landing_performance times states controls = Ok p)
    /\ (forall e,
          FlightSimulator.evaluate_landing_performance times states controls = Raise e ->
          e = IndexError /\ states = []).
Proof.
  intros times states controls.
  destruct states as [ | s states] using rev_ind.
  - split; [reflexivity | ]. split; [intros N; now elim N | ].
    intros e He. cbn in He. inversion He. split; reflexivity.
  - split; [intros H; destruct states; discriminate | ].
    unfold FlightSimulator.evaluate_landing_performance.
    rewrite final_state_last. cbn [bind]. cbv zeta.
    split; [intros _; eexists; reflexivity | ]. intros e He. discriminate.
Qed.

(** The vertical rate of the report is the opposite of the body-axis
    vertical velocity; for a final state of zero pitch it is the altitude rate
    of the equations of motion, positive when the aircraft climbs. *)
Theorem touchdown_rate_is_altitude_rate_at_zero_pitch :
  forall (ac : AircraftModel.t) (times : list R) (front : list FlightSimulator.State)
         (s : FlightSimulator.State) (controls : list LandingController.Control)
         (t : R) (control : LandingController.Control),
    FlightSimulator.theta s = 0 ->
    exists p,
      FlightSimulator.evaluate_landing_performance times (front ++ [s]) controls = Ok p
      /\ FlightSimulator.touchdown_vertical_rate_ms p
         = FlightSimulator.h (FlightSimulator.longitudinal_dynamics ac s t control).
Proof.
  intros ac times front s controls t control Htheta.
  unfold FlightSimulator.evaluate_landing_performance.
  rewrite final_state_last. cbn [bind]. cbv zeta.
  eexists. split; [reflexivity | ].
  cbn [FlightSimulator.touchdown_vertical_rate_ms FlightSimulator.longitudinal_dynamics
       FlightSimulator.h].
  rewrite Htheta, sin_0, cos_0. ring.
Qed.

Lemma touchdown_rate_is_altitude_rate_at_zero_pitch_witness :
  exists p,
    FlightSimulator.evaluate_landing_performance [0]
      ([] ++ [start_state test_initial_state]) [] = Ok p
    /\ FlightSimulator.touchdown_vertical_rate_ms p
       = FlightSimulator.h
           (FlightSimulator.longitudinal_dynamics AircraftModel.init
              (start_state test_initial_state) 0 first_command).
Proof.
  apply (touchdown_rate_is_altitude_rate_at_zero_pitch AircraftModel.init [0] []
           (start_state test_initial_state) [] 0 first_command).
  cbn. lra.
Defined.

(** ** Moving the scenario along the runway axis *)

Lemma shift_histories_snoc (dx : R) (hist : FlightSimulator.Histories) (t : R)
  (s : FlightSimulator.State) (control : LandingController.Control) :
  {| FlightSimulator.time_history :=
       FlightSimulator.time_history (shift_histories dx hist) ++ [t];
     FlightSimulator.state_history :=
       FlightSimulator.state_history (shift_histories dx hist) ++ [shift_x dx s];
     FlightSimulator.control_history :=
       FlightSimulator.control_history (shift_histories dx hist) ++ [control] |}
  = shift_histories dx
      {| FlightSimulator.time_history := FlightSimulator.time_history hist ++ [t];
         FlightSimulator.state_history := FlightSimulator.state_history hist ++ [s];
         FlightSimulator.control_history :=
           FlightSimulator.control_history hist ++ [control] |}.
Proof.
  unfold shift_histories.
  cbn [FlightSimulator.time_history FlightSimulator.state_history
       FlightSimulator.control_history].
  rewrite map_app. reflexivity.
Qed.

Lemma landing_loop_shift (ac : AircraftModel.t) (xtd duration dt dx : R) (fuel : nat) :
  forall (c : LandingController.t) (t : R) (s : FlightSimulator.State)
         (hist : FlightSimulator.Histories),
    FlightSimulator.landing_loop fuel ac (xtd + dx) duration dt c t (shift_x dx s)
      (shift_histories dx hist)
    = option_map (fun r => (shift_histories dx (fst r), snd r))
        (FlightSimulator.landing_loop fuel ac xtd duration dt c t s hist).
Proof.
  induction fuel as [ | fuel IH]; intros c t s hist;
    destruct ((t <? duration) && (0 <? FlightSimulator.h s)) eqn:Hcond.
  - rewrite !landing_loop_out_of_fuel by exact Hcond. reflexivity.
  - rewrite !landing_loop_exit by exact Hcond. reflexivity.
  - rewrite !landing_loop_iteration by exact Hcond. cbv zeta.
    change (FlightSimulator.current_state (shift_x dx s))
      with (FlightSimulator.current_state s).
    replace (xtd + dx - FlightSimulator.x (shift_x dx s)) with (xtd - FlightSimulator.x s)
      by (cbn; ring).
    rewrite rk4_step_shift.
    change (FlightSimulator.h (shift_x dx ?r)) with (FlightSimulator.h r).
    rewrite shift_histories_snoc, IH.
    destruct (FlightSimulator.h _ <=? 0); reflexivity.
  - rewrite !landing_loop_exit by exact Hcond. reflexivity.
Qed.

(** A landing simulated with the aircraft and the runway threshold both
    moved by [dx] along the runway axis records the same times and commands and
    the same states moved by [dx], and leaves the same controller: only the
    distance to the threshold enters the run. *)
Theorem simulate_landing_commutes_with_shift :
  forall (fuel : nat) (ac : AircraftModel.t) (c : LandingController.t)
         (initial_state : FlightSimulator.InitialState) (duration dt dx : R),
    FlightSimulator.simulate_landing fuel ac c (shift_scenario dx initial_state) duration dt
    = option_map (fun r => (shift_histories dx (fst r), snd r))
        (FlightSimulator.simulate_landing fuel ac c initial_state duration dt).
Proof.
  intros fuel ac c initial_state duration dt dx.
  unfold FlightSimulator.simulate_landing. cbv zeta.
  fold (threshold initial_state).
  cbn [shift_scenario FlightSimulator.x_touchdown FlightSimulator.initial_u
       FlightSimulator.initial_w FlightSimulator.initial_q FlightSimulator.initial_theta
       FlightSimulator.initial_x FlightSimulator.initial_h].
  exact (landing_loop_shift ac (threshold initial_state) duration dt dx fuel
           (LandingController.reset c) 0
           {| FlightSimulator.u := FlightSimulator.initial_u initial_state;
              FlightSimulator.w := FlightSimulator.initial_w initial_state;
              FlightSimulator.q := FlightSimulator.initial_q initial_state;
              FlightSimulator.theta := FlightSimulator.initial_theta initial_state;
              FlightSimulator.x := FlightSimulator.initial_x initial_state;
              FlightSimulator.h := FlightSimulator.initial_h initial_state |}
           {| FlightSimulator.time_history := [0];
              FlightSimulator.state_history :=
                [{| FlightSimulator.u := FlightSimulator.initial_u initial_state;
                    FlightSimulator.w := FlightSimulator.initial_w initial_state;
                    FlightSimulator.q := FlightSimulator.initial_q initial_state;
                    FlightSimulator.theta := FlightSimulator.initial_theta initial_state;
                    FlightSimulator.x := FlightSimulator.initial_x initial_state;
                    FlightSimulator.h := FlightSimulator.initial_h initial_state |}];
              FlightSimulator.control_history := [] |}).
Qed.

(** ** The report of a simulated run *)



(** ** The pitch command of each phase *)

Lemma flare_command_unclipped (a fa : R) :
  0.5 < a < fa ->
  let theta_cmd := np.deg2rad (-2.0) + np.deg2rad 7.0 * (1.0 - a / fa) in
  np.clip theta_cmd (np.deg2rad (-5.0)) (np.deg2rad 8.0) = theta_cmd
  /\ np.deg2rad (-2) < theta_cmd < np.deg2rad 5.
Proof.
  intros [Ha Hfa]. cbv zeta.
  assert (Hp : 0 < a / fa < 1).
  { split.
    - apply Rdiv_lt_0_compat; lra.
    - apply Rmult_lt_reg_r with fa; [lra | ].
      unfold Rdiv. rewrite Rmult_assoc, Rinv_l by lra. lra. }
  assert (HPI : 0 < PI / 180) by (apply Rdiv_lt_0_compat; [apply PI_RGT_0 | lra]).
  unfold np.deg2rad. set (k := PI / 180) in *. set (r := a / fa) in *.
  assert (Hk : 0 < k * r < k) by nra.
  split.
  - apply clip_id. lra.
  - lra.
Qed.

(** The pitch angle the controller asks for, read from the pitch error it
    stores: 0 in the approach phase, within [-0.12, 0.08] rad on the glide
    slope, and in the flare [-2 deg + 7 deg * (1 - altitude / flare_altitude)],
    which lies strictly between -2 and 5 degrees, so that the limits of -5 and
    8 degrees are never reached.  The touchdown phase stores no error. *)
Theorem pitch_command_by_phase :
  forall (c : LandingController.t) (state : LandingController.StateDict) (d dt : R),
    let r := LandingController.compute_control c state d dt in
    let theta_cmd :=
      LandingController.prev_error_theta (LandingController.st (snd r))
      + LandingController.theta state in
    match LandingController.control_phase (fst r) with
    | LandingController.approach => theta_cmd = 0
    | LandingController.glide_slope => -0.12 <= theta_cmd <= 0.08
    | LandingController.flare =>
        theta_cmd
        = np.deg2rad (-2) + np.deg2rad 7
                            * (1 - LandingController.altitude state
                                   / LandingController.flare_altitude
                                       (LandingController.cfg c))
        /\ np.deg2rad (-2) < theta_cmd < np.deg2rad 5
    | LandingController.touchdown =>
        LandingController.prev_error_theta (LandingController.st (snd r))
        = LandingController.prev_error_theta (LandingController.st c)
    end.
Proof.
  intros c state d dt. cbv zeta.
  rewrite (proj2 (compute_control_phase c state d dt)).
  pose proof (update_phase_selects c (LandingController.altitude state) d) as Hsel.
  cbv zeta in Hsel. destruct Hsel as (_ & Hflare & _ & _).
  unfold LandingController.compute_control. cbv zeta.
  assert (Hst : LandingController.prev_error_theta
                  (LandingController.st
                     (LandingController.update_phase c (LandingController.altitude state) d))
                = LandingController.prev_error_theta (LandingController.st c)).
  { unfold LandingController.update_phase.
    repeat match goal with |- context [if ?b then _ else _] => destruct b end;
      reflexivity. }
  assert (Hcfg : LandingController.cfg
                   (LandingController.update_phase c (LandingController.altitude state) d)
                 = LandingController.cfg c).
  { unfold LandingController.update_phase.
    repeat match goal with |- context [if ?b then _ else _] => destruct b end;
      reflexivity. }
  destruct (LandingController.phase
              (LandingController.st
                 (LandingController.update_phase c (LandingController.altitude state) d)))
    eqn:E; cbn.
  - lra.
  - match goal with |- context [np.clip ?x (-0.12) 0.08] =>
      pose proof (clip_bounds x (-0.12) 0.08 ltac:(lra)) as Hb;
      set (v := np.clip x (-0.12) 0.08) in *
    end.
    lra.
  - rewrite Hcfg.
    destruct (flare_command_unclipped (LandingController.altitude state)
                (LandingController.flare_altitude (LandingController.cfg c))
                (proj1 Hflare eq_refl)) as [Hid Hb].
    rewrite Hid.
    replace (-2.0) with (-2) in * by lra. replace 7.0 with 7 in * by lra.
    replace 1.0 with 1 in * by lra.
    split; [ring | ].
    match goal with |- _ < ?e < _ =>
      replace e with (np.deg2rad (-2) + np.deg2rad 7
                      * (1 - LandingController.altitude state
                             / LandingController.flare_altitude (LandingController.cfg c)))
        by ring
    end.
    exact Hb.
  - exact Hst.
Qed.
